(** * Colima: command chains, the kubernetes runtime guard, the gvproxy
      socket and resolver helpers, and the mount flag parser

    A shallow embedding of

    - package [cli]        (ActiveCommandChain: Add, Stage, Stagef, Exec, Retry),
    - package [kubernetes] (kubernetesRuntime: Running, Provision, Start,
                            Stop, Teardown, the container helpers, the
                            stored configuration, and kubeconfig.go),
    - package [gvproxy]    (Socket, MacAddress, searchDomains),
    - package [cmd]        (mountsFromFlag, prepareConfig, editConfigFile,
                            the start command, the nerdctl install command),

    followed by the properties proved about them.

    Go strings are byte sequences and are modelled by [string]; Go [int] is
    modelled by [Z] (no arithmetic below can leave the 64-bit range: the only
    addition is [i + 1] under the loop guard [i < count]).  Code that talks
    to the outside (the logger, the clock, commands run on the guest) acts on
    a world [W], threaded explicitly. *)

From Stdlib Require Import ZArith List String Ascii Bool Arith Lia.
Import ListNotations.

Local Open Scope string_scope.
Local Open Scope list_scope.
Local Open Scope Z_scope.

(** String concatenation, kept apart from list append. *)
Local Infix "+++" := String.append (right associativity, at level 60).

(* ================================================================== *)
(** ** Go values used by the packages *)
(* ================================================================== *)

Module Go.

(** A Go [error] value.  [errorString] is a leaf error (errors.New, an
    exit status, ...); [wrapError] is what [fmt.Errorf] builds for a format
    with the [%w] verb: a message and the wrapped error. *)
Inductive error : Type :=
| errorString (msg : string)
| wrapError (msg : string) (err : error).

(** [err.Error()] *)
Definition Error (e : error) : string :=
  match e with
  | errorString msg => msg
  | wrapError msg _ => msg
  end.

(** [errors.Unwrap(err)] *)
Definition Unwrap (e : error) : option error :=
  match e with
  | errorString _ => None
  | wrapError _ err => Some err
  end.

(** [target] is [e] itself or is reached from [e] by repeated [Unwrap]
    (the chain that [errors.Is] walks). *)
Inductive Wraps : error -> error -> Prop :=
| Wraps_refl : forall e, Wraps e e
| Wraps_step : forall e inner target,
    Unwrap e = Some inner -> Wraps inner target -> Wraps e target.

(** [strings.HasPrefix(s, prefix)] *)
Definition HasPrefix (s prefix : string) : bool := String.prefix prefix s.

(** [strings.TrimPrefix(s, prefix)] *)
Definition TrimPrefix (s prefix : string) : string :=
  if HasPrefix s prefix
  then substring (String.length prefix)
                 (String.length s - String.length prefix) s
  else s.

(** [strings.Index(s, substr)]: the index of the first instance of
    [substr] in [s], or -1. *)
Fixpoint Index (s substr : string) : Z :=
  if String.prefix substr s then 0
  else match s with
       | EmptyString => -1
       | String _ s' =>
           let m := Index s' substr in
           if m <? 0 then -1 else m + 1
       end.

(** [strings.SplitN(s, sep, 2)] for a non-empty separator: at most two
    substrings, the second being the unsplit remainder.  (genSplit caps
    [n] by [len(s)+1], allocates, and cuts at the first [Index] only.) *)
Definition SplitN2 (s sep : string) : list string :=
  let m := Index s sep in
  if m <? 0 then [s]
  else [ substring 0 (Z.to_nat m) s
       ; substring (Z.to_nat m + String.length sep)
                   (String.length s - (Z.to_nat m + String.length sep)) s ].

(** The ASCII white space of [strings.Fields] (its [asciiSpace] table):
    tab, line feed, vertical tab, form feed, carriage return, space. *)
Definition asciiSpace (c : ascii) : bool :=
  let n := nat_of_ascii c in
  ((9 <=? n) && (n <=? 13))%nat || (n =? 32)%nat.

(** The ASCII path of [strings.Fields(s)], taken when no byte of [s] is
    0x80 or above: the maximal runs of non-space bytes.  [cur] is the
    field being read, if any. *)
Fixpoint fields_from (cur : option string) (s : string) : list string :=
  match s with
  | EmptyString =>
      match cur with Some w => [w] | None => [] end
  | String c s' =>
      if asciiSpace c
      then match cur with
           | Some w => w :: fields_from None s'
           | None => fields_from None s'
           end
      else match cur with
           | Some w => fields_from (Some (w +++ String c EmptyString)) s'
           | None => fields_from (Some (String c EmptyString)) s'
           end
  end.

(** The value of a byte. *)
Definition byteval (c : ascii) : Z := Z.of_nat (nat_of_ascii c).

(** [utf8.RuneError], U+FFFD. *)
Definition RuneError : Z := 65533.

(** The [first] table of package utf8 for a byte of 0x80 and above: the
    length of the sequence the byte opens and the range accepted for its
    second byte; [None] for a byte that opens no sequence. *)
Definition leadInfo (s0 : Z) : option (nat * Z * Z) :=
  if s0 <? 194 then None                          (* 0x80..0xC1 *)
  else if s0 <? 224 then Some (2%nat, 128, 191)   (* 0xC2..0xDF *)
  else if s0 =? 224 then Some (3%nat, 160, 191)   (* 0xE0 *)
  else if s0 <? 237 then Some (3%nat, 128, 191)   (* 0xE1..0xEC *)
  else if s0 =? 237 then Some (3%nat, 128, 159)   (* 0xED *)
  else if s0 <? 240 then Some (3%nat, 128, 191)   (* 0xEE..0xEF *)
  else if s0 =? 240 then Some (4%nat, 144, 191)   (* 0xF0 *)
  else if s0 <? 244 then Some (4%nat, 128, 191)   (* 0xF1..0xF3 *)
  else if s0 =? 244 then Some (4%nat, 128, 143)   (* 0xF4 *)
  else None.                                      (* 0xF5..0xFF *)

(** The next byte, when it lies in [lo..hi], and what follows it. *)
Definition continuation (lo hi : Z) (s : string) : option (Z * string) :=
  match s with
  | EmptyString => None
  | String c rest =>
      if (byteval c <? lo) || (hi <? byteval c) then None
      else Some (byteval c, rest)
  end.

(** [utf8.DecodeRuneInString(s)]: the rune at the head of [s] and its
    width in bytes; a byte that starts no valid sequence is [RuneError]
    of width 1. *)
Definition DecodeRuneInString (s : string) : Z * nat :=
  match s with
  | EmptyString => (RuneError, 0%nat)
  | String c rest =>
      let s0 := byteval c in
      if s0 <? 128 then (s0, 1%nat)
      else
        match leadInfo s0 with
        | None => (RuneError, 1%nat)
        | Some (sz, lo, hi) =>
            if (String.length s <? sz)%nat then (RuneError, 1%nat)
            else
              match continuation lo hi rest with
              | None => (RuneError, 1%nat)
              | Some (s1, r1) =>
                  if (sz <=? 2)%nat
                  then (Z.lor (Z.shiftl (Z.land s0 31) 6) (Z.land s1 63),
                        2%nat)
                  else
                    match continuation 128 191 r1 with
                    | None => (RuneError, 1%nat)
                    | Some (s2, r2) =>
                        if (sz <=? 3)%nat
                        then (Z.lor (Z.shiftl (Z.land s0 15) 12)
                                (Z.lor (Z.shiftl (Z.land s1 63) 6)
                                       (Z.land s2 63)),
                              3%nat)
                        else
                          match continuation 128 191 r2 with
                          | None => (RuneError, 1%nat)
                          | Some (s3, _) =>
                              (Z.lor (Z.shiftl (Z.land s0 7) 18)
                                 (Z.lor (Z.shiftl (Z.land s1 63) 12)
                                    (Z.lor (Z.shiftl (Z.land s2 63) 6)
                                           (Z.land s3 63))),
                               4%nat)
                          end
                    end
              end
        end
  end.

(** [unicode.IsSpace(r)]: in Latin-1 the six ASCII spaces, U+0085 and
    U+00A0; beyond it the [White_Space] table. *)
Definition IsSpace (r : Z) : bool :=
  if r <=? 255
  then ((9 <=? r) && (r <=? 13)) || (r =? 32) || (r =? 133) || (r =? 160)
  else (r =? 5760)                                (* U+1680 *)
       || ((8192 <=? r) && (r <=? 8202))          (* U+2000..U+200A *)
       || ((8232 <=? r) && (r <=? 8233))          (* U+2028, U+2029 *)
       || (r =? 8239)                             (* U+202F *)
       || (r =? 8287)                             (* U+205F *)
       || (r =? 12288).                           (* U+3000 *)

(** [strings.FieldsFunc(s, unicode.IsSpace)], read rune by rune.
    [pending] counts the bytes still to pass of the rune decoded last:
    they go to the field being read, or are dropped with a space rune;
    [cur] is the field being read, if any. *)
Fixpoint fieldsFunc_from (pending : nat) (cur : option string) (s : string)
  : list string :=
  match s with
  | EmptyString =>
      match cur with Some w => [w] | None => [] end
  | String c rest =>
      match pending with
      | S k =>
          match cur with
          | Some w =>
              fieldsFunc_from k (Some (w +++ String c EmptyString)) rest
          | None => fieldsFunc_from k None rest
          end
      | O =>
          let (r, width) := DecodeRuneInString s in
          if IsSpace r
          then match cur with
               | Some w => w :: fieldsFunc_from (width - 1) None rest
               | None => fieldsFunc_from (width - 1) None rest
               end
          else match cur with
               | Some w =>
                   fieldsFunc_from (width - 1)
                                   (Some (w +++ String c EmptyString)) rest
               | None =>
                   fieldsFunc_from (width - 1)
                                   (Some (String c EmptyString)) rest
               end
      end
  end.

(** The next [k] bytes of [s] are there and are all 0x80 or above, as the
    later bytes of a sequence are. *)
Fixpoint later_bytes (k : nat) (s : string) : Prop :=
  match k with
  | O => True
  | S k' =>
      match s with
      | EmptyString => False
      | String c rest => 128 <= byteval c /\ later_bytes k' rest
      end
  end.

(** Some byte of [s] is 0x80 or above ([setBits >= utf8.RuneSelf]). *)
Fixpoint hasNonASCII (s : string) : bool :=
  match s with
  | EmptyString => false
  | String c rest => (128 <=? byteval c) || hasNonASCII rest
  end.

(** [strings.Fields(s)]: split around runs of white space, by bytes when
    [s] is ASCII and by runes otherwise. *)
Definition Fields (s : string) : list string :=
  if hasNonASCII s then fieldsFunc_from 0 None s else fields_from None s.

(** [bufio.MaxScanTokenSize] *)
Definition MaxScanTokenSize : Z := 64 * 1024.

Definition newline : ascii := ascii_of_nat 10.
Definition carriage_return : ascii := ascii_of_nat 13.

(** [dropCR] of bufio: drops one terminal carriage return. *)
Fixpoint dropCR (data : string) : string :=
  match data with
  | EmptyString => EmptyString
  | String c EmptyString =>
      if Ascii.eqb c carriage_return then EmptyString else data
  | String c rest => String c (dropCR rest)
  end.

(** The raw lines [bufio.ScanLines] cuts the input into: the text between
    line feeds, and a last unterminated line when it is not empty. *)
Fixpoint rawLines (cur : string) (data : string) : list string :=
  match data with
  | EmptyString =>
      match cur with EmptyString => [] | _ => [cur] end
  | String c rest =>
      if Ascii.eqb c newline then cur :: rawLines EmptyString rest
      else rawLines (cur +++ String c EmptyString) rest
  end.

(** What a [bufio.Scanner] with the default buffer and the [ScanLines]
    split function yields over [data]: the tokens returned by the
    successive [Scan()] calls ([Text()] of each), and whether scanning
    stopped with [ErrTooLong].  A raw line must fit, with room to spare
    for its terminator, in a buffer of [MaxScanTokenSize] bytes; the first
    one that does not ends the scan with the error. *)
Fixpoint scanTokens (raw : list string) : list string * bool :=
  match raw with
  | [] => ([], false)
  | l :: rest =>
      if Z.of_nat (String.length l) <? MaxScanTokenSize
      then let (toks, err) := scanTokens rest in (dropCR l :: toks, err)
      else ([], true)
  end.

Definition Scanner (data : string) : list string * bool :=
  scanTokens (rawLines EmptyString data).

(** [strings.Join(elems, sep)] *)
Fixpoint Join (elems : list string) (sep : string) : string :=
  match elems with
  | [] => EmptyString
  | [e] => e
  | e :: rest => e +++ sep +++ Join rest sep
  end.

(** The replacement loop of [strings.Replace] for a non-empty [old], read
    left to right: [skip] counts the bytes of a match still to pass over,
    so matches do not overlap. *)
Fixpoint replace_from (old new : string) (skip : nat) (str : string)
  : string :=
  match str with
  | EmptyString => EmptyString
  | String c rest =>
      match skip with
      | S k => replace_from old new k rest
      | O =>
          if String.prefix old str
          then new +++ replace_from old new (String.length old - 1) rest
          else String c (replace_from old new 0 rest)
      end
  end.

(** With an empty [old], [new] goes in front of the string and after every
    rune; runes are taken to be single bytes here. *)
Fixpoint insert_around (new : string) (str : string) : string :=
  new +++ match str with
          | EmptyString => EmptyString
          | String c rest => String c (insert_around new rest)
          end.

(** [strings.ReplaceAll(s, old, new)] *)
Definition ReplaceAll (str old new : string) : string :=
  if String.eqb old new then str
  else if String.eqb old "" then insert_around new str
       else replace_from old new 0 str.

(** [hexDigit] of package net, indexed by a nibble. *)
Definition hexDigit (n : nat) : ascii :=
  match get n "0123456789abcdef" with
  | Some c => c
  | None => zero
  end.

(** The loop of [HardwareAddr.String]: a colon before every byte but the
    first, then the two hex digits of the byte. *)
Fixpoint hardwareAddr_loop (first : bool) (a : list ascii) : string :=
  match a with
  | [] => EmptyString
  | b :: rest =>
      (if first then EmptyString else ":")
        +++ String (hexDigit (nat_of_ascii b / 16))
              (String (hexDigit (nat_of_ascii b mod 16))
                 (hardwareAddr_loop false rest))
  end.

(** [net.HardwareAddr.String] *)
Definition HardwareAddr_String (a : list ascii) : string :=
  match a with
  | [] => EmptyString
  | _ => hardwareAddr_loop true a
  end.

(** A field: not empty, and with no white space in it. *)
Definition is_field (d : string) : Prop :=
  d <> EmptyString
  /\ Forall (fun c => asciiSpace c = false) (list_ascii_of_string d).

End Go.

(* ================================================================== *)
(** ** package cli *)
(* ================================================================== *)

Module cli.
Import Go.

(** [*log.Entry]: a logger carrying fields. *)
Definition Entry : Type := list (string * string).

(** [log.WithField(key, value)] on the standard logger. *)
Definition WithField (key value : string) : Entry := [(key, value)].

Section Chain.
(** The world the operations act on, and the two effects the chain
    itself performs: [Println] on its logger (the arguments as passed),
    and [time.Sleep]. *)
Context {W : Type}.
Variable Println : Entry -> list string -> W -> W.
Variable Sleep : Z -> W -> W.

(** [func() error] *)
Definition op : Type := W -> option error * W.

(** A chain step.  [f] is a Go func value and may be nil. *)
Record cFunc : Type := mkCFunc { f : option op; s : string }.

Record namedCommandChain : Type :=
  mkNamed { name : string; nlog : option Entry }.

Record ActiveCommandChain : Type :=
  mkActive { funcs : list cFunc; lastStage : string; log : Entry }.

(** [New] *)
Definition New (nm : string) : namedCommandChain :=
  {| name := nm; nlog := None |}.

(** [namedCommandChain.Logger] (value receiver: the entry it creates is
    returned, not stored). *)
Definition Logger (n : namedCommandChain) : Entry :=
  match nlog n with
  | None => WithField "context" (name n)
  | Some l => l
  end.

(** [namedCommandChain.Init] *)
Definition Init (n : namedCommandChain) : ActiveCommandChain :=
  {| funcs := []; lastStage := ""; log := Logger n |}.

(** [ActiveCommandChain.Add] *)
Definition Add (fn : option op) (a : ActiveCommandChain)
  : ActiveCommandChain :=
  {| funcs := funcs a ++ [ {| f := fn; s := "" |} ];
     lastStage := lastStage a;
     log := log a |}.

(** [ActiveCommandChain.Stage] *)
Definition Stage (label : string) (a : ActiveCommandChain)
  : ActiveCommandChain :=
  {| funcs := funcs a ++ [ {| f := None; s := label |} ];
     lastStage := lastStage a;
     log := log a |}.

(** [fmt.Sprintf] over arguments of some type [any]. *)
Context {any : Type}.
Variable Sprintf : string -> list any -> string.

(** [ActiveCommandChain.Stagef] *)
Definition Stagef (format : string) (args : list any)
           (a : ActiveCommandChain) : ActiveCommandChain :=
  let formatted := Sprintf format args in
  Stage formatted a.

(** [fmt.Errorf("error at '%s': %w", lastStage, err)] *)
Definition Errorf_at (stage : string) (err : error) : error :=
  wrapError ("error at '" +++ stage +++ "': " +++ Error err) err.

(** The loop of [Exec] over the remaining steps.  [last] is the
    receiver copy's [lastStage]. *)
Fixpoint Exec_loop (lg : Entry) (fs : list cFunc) (last : string) (w : W)
  : option error * W :=
  match fs with
  | [] => (None, w)
  | c :: rest =>
      match f c with
      | None =>
          if String.eqb (s c) ""
          then Exec_loop lg rest last w
          else Exec_loop lg rest (s c) (Println lg [s c; "..."] w)
      | Some fn =>
          match fn w with
          | (None, w') => Exec_loop lg rest last w'
          | (Some err, w') =>
              if String.eqb last ""
              then (Some err, w')
              else (Some (Errorf_at last err), w')
          end
      end
  end.

(** [ActiveCommandChain.Exec].  The receiver is a value: the chain the
    caller holds is not changed, only the world is. *)
Definition Exec (a : ActiveCommandChain) (w : W) : option error * W :=
  Exec_loop (log a) (funcs a) (lastStage a) w.

(** The loop of the function [Retry] adds, from its condition on:
    [; i < count && err != nil; i, err = i+1, f(i+1)].  The right-hand
    sides of the post statement are evaluated before [i] is assigned.
    [fuel] bounds the iterations; [count - i] of them are enough. *)
Fixpoint retry_loop (lg : Entry) (stage : string) (interval count : Z)
         (fn : Z -> op) (fuel : nat) (i : Z) (err : option error) (w : W)
  : option error * W :=
  match err with
  | None => (err, w)
  | Some _ =>
      if i <? count
      then match fuel with
           | O => (err, w)
           | S fuel' =>
               let w1 := if String.eqb stage "" then w
                         else Println lg [stage; "..."] w in
               let w2 := Sleep interval w1 in
               let (err', w3) := fn (i + 1) w2 in
               retry_loop lg stage interval count fn fuel' (i + 1) err' w3
           end
      else (err, w)
  end.

(** The function [Retry] adds to the chain. *)
Definition retry_func (lg : Entry) (stage : string) (interval count : Z)
           (fn : Z -> op) : op :=
  fun w =>
    let i := 0 in
    let (err, w0) := fn (i + 1) w in
    retry_loop lg stage interval count fn (Z.to_nat (count - i)) i err w0.

(** [ActiveCommandChain.Retry].  The closure reads [a.log] when it runs;
    no method assigns [log] after [Init], so it is the entry seen here. *)
Definition Retry (stage : string) (interval count : Z) (fn : Z -> op)
           (a : ActiveCommandChain) : ActiveCommandChain :=
  Add (Some (retry_func (log a) stage interval count fn)) a.

(** *** The chain as an object: its methods acting on chain and world *)

Inductive method : Type :=
| callAdd (fn : option op)
| callStage (label : string)
| callStagef (format : string) (args : list any)
| callRetry (stage : string) (interval count : Z) (fn : Z -> op)
| callExec.

(** One method call on the chain [a] in the world [w]: the chain and the
    world after it, and what it returns ([Exec] alone returns). *)
Definition invoke (m : method) (st : ActiveCommandChain * W)
  : (ActiveCommandChain * W) * option error :=
  let (a, w) := st in
  match m with
  | callAdd fn => ((Add fn a, w), None)
  | callStage label => ((Stage label a, w), None)
  | callStagef format args => ((Stagef format args a, w), None)
  | callRetry stage interval count fn =>
      ((Retry stage interval count fn a, w), None)
  | callExec => let (err, w') := Exec a w in ((a, w'), err)
  end.

(** The chains a caller can hold: made by [Init], then grown by the
    methods. *)
Inductive built : ActiveCommandChain -> Prop :=
| built_Init : forall n, built (Init n)
| built_Add : forall fn a, built a -> built (Add fn a)
| built_Stage : forall label a, built a -> built (Stage label a)
| built_Stagef : forall format args a,
    built a -> built (Stagef format args a)
| built_Retry : forall stage interval count fn a,
    built a -> built (Retry stage interval count fn a).

(** The method calls [ms], made in order on the chain and world [st]:
    the chain and the world after the last one. *)
Definition invoke_all (ms : list method) (st : ActiveCommandChain * W)
  : ActiveCommandChain * W :=
  fold_left (fun st' m => fst (invoke m st')) ms st.

(** *** Reference definitions for the properties *)

(** A stage step and an operation step. *)
Definition stageStep (label : string) : cFunc :=
  {| f := None; s := label |}.
Definition opStep (fn : op) : cFunc := {| f := Some fn; s := "" |}.

(** The steps [fs], taken in order from the world [w], all go through:
    every operation among them returns nil.  The result is the world
    they leave (each stage with a label has been logged on the way). *)
Fixpoint succeed_all (lg : Entry) (fs : list cFunc) (w : W) : option W :=
  match fs with
  | [] => Some w
  | c :: rest =>
      match f c with
      | None =>
          succeed_all lg rest
            (if String.eqb (s c) "" then w
             else Println lg [s c; "..."] w)
      | Some fn =>
          match fn w with
          | (None, w') => succeed_all lg rest w'
          | (Some _, _) => None
          end
      end
  end.

(** The label of the last stage step of [fs] with a label, [last] when
    there is none. *)
Fixpoint stage_after (fs : list cFunc) (last : string) : string :=
  match fs with
  | [] => last
  | c :: rest =>
      match f c with
      | None =>
          if String.eqb (s c) "" then stage_after rest last
          else stage_after rest (s c)
      | Some _ => stage_after rest last
      end
  end.

(** No step of [fs] is a stage step with a label. *)
Definition no_label (fs : list cFunc) : Prop :=
  forall c, In c fs -> f c = None -> s c = "".

(** No step of [fs] is a stage step at all. *)
Definition no_stage (fs : list cFunc) : Prop :=
  forall c, In c fs -> f c <> None.

(** Stage tagging read for every label [X], the empty one included. *)
Definition stage_tagging_for_every_label : Prop :=
  forall (a : ActiveCommandChain) (X : string) pre mid fn post w w1 e w2,
    built a ->
    funcs a = pre ++ stageStep X :: mid ++ opStep fn :: post ->
    no_stage mid ->
    succeed_all (log a) (pre ++ stageStep X :: mid) w = Some w1 ->
    fn w1 = (Some e, w2) ->
    exists e',
      fst (Exec a w) = Some e'
      /\ Error e' = "error at '" +++ X +++ "': " +++ Error e
      /\ Unwrap e' = Some e.

End Chain.

Arguments cFunc : clear implicits.
Arguments op : clear implicits.
Arguments ActiveCommandChain : clear implicits.
Arguments method : clear implicits.

End cli.

(* ================================================================== *)
(** ** package kubernetes *)
(* ================================================================== *)

Module kubernetes.
Import Go.

Definition Name : string := "kubernetes".
Definition DefaultVersion : string := "v1.23.6+k3s1".
Definition configKey : string := "kubernetes_config".

(** [config.Kubernetes] and the fields of [config.Config] the runtime
    reads. *)
Record Kubernetes : Type :=
  mkKubernetes { Enabled : bool; Version : string; Ingress : bool }.

Record Config : Type :=
  mkConfig { Runtime : string; KubernetesConf : Kubernetes }.

(** The zero values a failed type assertion leaves in [appConf]. *)
Definition zeroKubernetes : Kubernetes :=
  {| Enabled := false; Version := ""; Ingress := false |}.
Definition zeroConfig : Config :=
  {| Runtime := ""; KubernetesConf := zeroKubernetes |}.

(** [time.Second] in nanoseconds, the unit of [time.Duration]. *)
Definition Second : Z := 1000000000.

Section Runtime.
Context {W : Type}.

(** Computations on the world. *)
Definition M (A : Type) : Type := W -> A * W.
Definition ret {A} (x : A) : M A := fun w => (x, w).
Definition bind {A B} (m : M A) (k : A -> M B) : M B :=
  fun w => let (x, w') := m w in k x w'.

Notation "x <- c1 ;; c2" := (bind c1 (fun x => c2))
  (at level 61, c1 at next level, right associativity).

(** The logger and the clock ([cli] takes them the same way). *)
Variable Println : cli.Entry -> list string -> W -> W.
Variable Sleep : Z -> W -> W.
Variable Sprintf : string -> list string -> string.

(** [environment.GuestActions], the methods used here. *)
Variable guest_Run : list string -> M (option error).
Variable guest_RunQuiet : list string -> M (option error).
Variable guest_RunOutput : list string -> M (string * option error).
Variable guest_Get : string -> M string.
Variable guest_Set : string -> string -> M (option error).

(** Names declared in other packages. *)
Variable ContainerRuntimeKey : string.
Variable containerd_Name : string.
Variable docker_Name : string.

(** [json.Unmarshal] into a [config.Kubernetes] (its error is dropped by
    the caller) and [json.Marshal] of one. *)
Variable json_Unmarshal : string -> Kubernetes -> Kubernetes.
Variable json_Marshal : Kubernetes -> string * option error.

(** [strings.Contains] *)
Definition Contains (str substr : string) : bool :=
  0 <=? Index str substr.

Let chain : Type := cli.ActiveCommandChain W.

(** The installers of k3s.go: each adds its steps to the chain it is
    given.  [host] and [guest] are fixed for the section. *)
Variable installK3s :
  chain -> cli.Entry -> string -> string -> bool -> chain.
Variable installK3sCache :
  chain -> cli.Entry -> string -> string -> chain.
Variable installK3sCluster : chain -> string -> string -> bool -> chain.
Variable installContainerdDeps : chain -> chain.

(** [kubernetesRuntime.provisionKubeconfig] (kubeconfig.go), which
    [Start] calls once its chain has run. *)
Variable provisionKubeconfig : M (option error).

(** The runtime embeds the [cli.CommandChain] made by [cli.New(Name)]. *)
Definition CommandChain : cli.namedCommandChain := cli.New Name.

Definition isNil (e : option error) : bool :=
  match e with None => true | Some _ => false end.

(** [kubernetesRuntime.isInstalled] *)
Definition isInstalled : M bool :=
  e <- guest_RunQuiet ["command"; "-v"; "k3s-uninstall.sh"] ;;
  ret (isNil e).

(** [kubernetesRuntime.isVersionInstalled] *)
Definition isVersionInstalled (version : string) : M bool :=
  r <- guest_RunOutput ["k3s"; "--version"] ;;
  match snd r with
  | Some _ => ret false
  | None => ret (Contains (fst r) version)
  end.

(** [kubernetesRuntime.Running] *)
Definition Running : M bool :=
  e <- guest_RunQuiet ["sudo"; "service"; "k3s"; "status"] ;;
  ret (isNil e).

(** [kubernetesRuntime.runtime] *)
Definition runtime : M string := guest_Get ContainerRuntimeKey.

(** [kubernetesRuntime.config] *)
Definition config : M Kubernetes :=
  let conf := {| Enabled := false; Version := DefaultVersion;
                 Ingress := false |} in
  b <- guest_Get configKey ;;
  if negb (String.eqb b "") then ret (json_Unmarshal b conf)
  else ret conf.

(** [kubernetesRuntime.setConfig] *)
Definition setConfig (conf : Kubernetes) : M (option error) :=
  match json_Marshal conf with
  | (_, Some err) =>
      ret (Some (wrapError
                   ("error encoding kubernetes config to json: "
                      +++ Error err) err))
  | (b, None) => guest_Set configKey b
  end.

(** [kubernetesRuntime.Provision].  [ctx] is what
    [ctx.Value(config.CtxKey()).(config.Config)] finds: the stored
    configuration, if there is one of that type. *)
Definition Provision (ctx : option Config) : M (option error) :=
  let lg := cli.Logger CommandChain in
  let a := cli.Init CommandChain in
  running <- Running ;;
  if running then ret None
  else
    let ok := match ctx with Some _ => true | None => false end in
    let appConf := match ctx with Some x => x | None => zeroConfig end in
    rc <- (if negb ok
           then (r <- runtime ;; k <- config ;; ret (r, k))
           else ret (Runtime appConf, KubernetesConf appConf)) ;;
    let rt := fst rc in
    let conf := snd rc in
    installed <- isVersionInstalled (Version conf) ;;
    a1 <- (if installed
           then
             currentRuntime <- runtime ;;
             let a' :=
               if negb (String.eqb currentRuntime "")
                  && negb (String.eqb currentRuntime rt)
               then installK3sCache
                      (cli.Stagef Sprintf "changing runtime to %s" [rt] a)
                      lg rt (Version conf)
               else a in
             ret (installK3sCluster a' rt (Version conf) (Ingress conf))
           else
             present <- isInstalled ;;
             let a' :=
               if present
               then cli.Stagef Sprintf
                      "version changed to %s, downloading and installing"
                      [Version conf] a
               else if ok
                    then cli.Stage "downloading and installing" a
                    else cli.Stage "installing" a in
             ret (installK3s a' lg rt (Version conf) (Ingress conf))) ;;
    let a2 :=
      if String.eqb rt containerd_Name then installContainerdDeps a1
      else if String.eqb rt docker_Name
           then cli.Retry Println Sleep "waiting for docker cri"
                  (Second * 2) 5
                  (fun _ => guest_Run
                              ["sudo"; "service"; "cri-dockerd"; "start"])
                  a1
           else a1 in
    let a3 := cli.Add (Some (setConfig conf)) a2 in
    cli.Exec Println a3.

(** [kubernetesRuntime.Start] *)
Definition Start : M (option error) :=
  let lg := cli.Logger CommandChain in
  let a := cli.Init CommandChain in
  running <- Running ;;
  if running
  then fun w => (None, Println lg ["already running"] w)
  else
    let a1 := cli.Stage "starting" a in
    let a2 := cli.Add
                (Some (guest_Run ["sudo"; "service"; "k3s"; "start"]))
                a1 in
    let a3 := cli.Retry Println Sleep "" (Second * 2) 10
                (fun _ => guest_RunQuiet ["kubectl"; "cluster-info"])
                a2 in
    err <- cli.Exec Println a3 ;;
    match err with
    | Some e => ret (Some e)
    | None => provisionKubeconfig
    end.

(** The double quote of the docker listing command. *)
Definition dquote : ascii := ascii_of_nat 34.

Definition newline_str : string := String newline EmptyString.

(** What [runningContainerIDs] does with the arguments its switch chose. *)
Definition listContainerIDs (args : list string) : M string :=
  r <- guest_RunOutput args ;;
  let ids := fst r in
  if String.eqb ids "" then ret ""
  else ret (ReplaceAll ids newline_str " ").

(** [kubernetesRuntime.runningContainerIDs] *)
Definition runningContainerIDs : M string :=
  rt <- runtime ;;
  if String.eqb rt containerd_Name
  then listContainerIDs ["sudo"; "nerdctl"; "-n"; "k8s.io"; "ps"; "-q"]
  else if String.eqb rt docker_Name
       then listContainerIDs
              ["sudo"; "sh"; "-c";
               "docker ps --format '{{.Names}}'| grep "
                 +++ String dquote ("k8s_" +++ String dquote EmptyString)]
       else ret "".

(** The tail shared by [deleteAllContainers] and [stopAllContainers]: the
    command for the runtime, followed by the ids, run through [sh -c]. *)
Definition onAllContainers (containerdCmd dockerCmd : list string)
  : M (option error) :=
  ids <- runningContainerIDs ;;
  if String.eqb ids "" then ret None
  else
    rt <- runtime ;;
    if String.eqb rt containerd_Name
    then guest_Run ["sudo"; "sh"; "-c";
                    Join (containerdCmd ++ Fields ids) " "]
    else if String.eqb rt docker_Name
         then guest_Run ["sudo"; "sh"; "-c";
                         Join (dockerCmd ++ Fields ids) " "]
         else ret None.

(** [kubernetesRuntime.deleteAllContainers] *)
Definition deleteAllContainers : M (option error) :=
  onAllContainers ["nerdctl"; "-n"; "k8s.io"; "rm"; "-f"]
                  ["docker"; "rm"; "-f"].

(** [kubernetesRuntime.stopAllContainers] *)
Definition stopAllContainers : M (option error) :=
  onAllContainers ["nerdctl"; "-n"; "k8s.io"; "kill"] ["docker"; "kill"].

(** [kubernetesRuntime.Stop] *)
Definition Stop : M (option error) :=
  let a := cli.Init CommandChain in
  let a1 := cli.Stage "stopping" a in
  let a2 := cli.Add (Some (guest_Run ["k3s-killall.sh"])) a1 in
  let a3 := cli.Add (Some stopAllContainers) a2 in
  cli.Exec Println a3.

(** [kubernetesRuntime.teardownKubeconfig] (kubeconfig.go), which adds its
    steps to the chain of [Teardown]. *)
Variable teardownKubeconfig : chain -> chain.

(** [kubernetesRuntime.Teardown].  Whether k3s is installed is asked while
    the chain is put together, before anything of it runs. *)
Definition Teardown : M (option error) :=
  let a := cli.Init CommandChain in
  let a1 := cli.Stage "deleting" a in
  installed <- isInstalled ;;
  let a2 := if installed
            then cli.Add (Some (guest_Run ["k3s-uninstall.sh"])) a1
            else a1 in
  let a3 := cli.Add (Some deleteAllContainers) a2 in
  let a4 := teardownKubeconfig a3 in
  cli.Exec Println a4.

End Runtime.
End kubernetes.

(* ================================================================== *)
(** ** package kubernetes, kubeconfig.go *)
(* ================================================================== *)

Module kubeconfig.
Import Go.

Definition masterAddressKey : string := "master_address".

(** What [fmt.Sprintf] is given here: strings and an integer. *)
Inductive fmtArg : Type :=
| fmtString (str : string)
| fmtInt (n : Z).

Section Kubeconfig.
Context {W Host : Type}.

Notation "x <- c1 ;; c2" := (kubernetes.bind c1 (fun x => c2))
  (at level 61, c1 at next level, right associativity).

Let M (A : Type) : Type := @kubernetes.M W A.
Let chain : Type := cli.ActiveCommandChain W.

Variable Println : cli.Entry -> list string -> W -> W.
Variable Sprintf : string -> list fmtArg -> string.

(** [environment.HostActions]: the runtime's host, and the methods used.
    [WithEnv] gives a host that runs with one more environment variable. *)
Variable host : Host.
Variable WithEnv : Host -> string -> Host.
Variable host_Run : Host -> list string -> M (option error).
Variable host_RunOutput : Host -> list string -> M (string * option error).
Variable host_Write : Host -> string -> string -> M (option error).
Variable host_Env : Host -> string -> M string.
(** [host.Stat]: whether the file is a directory, and the error. *)
Variable host_Stat : Host -> string -> M (bool * option error).

(** [environment.GuestActions], the methods used. *)
Variable guest_Get : string -> M string.
Variable guest_Set : string -> string -> M (option error).
Variable guest_Read : string -> M (string * option error).

(** [config.Profile().ID], [lima.IPAddress], [filepath.Join],
    [filepath.Dir] and [time.Now().Unix()]. *)
Variable Profile_ID : string.
Variable lima_IPAddress : string -> M string.
Variable filepath_Join : list string -> string.
Variable filepath_Dir : string -> string.
Variable time_Now_Unix : M Z.

(** [fmt.Errorf(msg + ": %w", err)] *)
Definition Errorf_w (msg : string) (err : error) : error :=
  wrapError (msg +++ ": " +++ Error err) err.

(** [kubernetesRuntime.unsetKubeconfig] *)
Definition unsetKubeconfig (a : chain) : chain :=
  let profile := Profile_ID in
  let a1 := cli.Add (Some (host_Run host
                             ["kubectl"; "config"; "unset";
                              "users." +++ profile])) a in
  let a2 := cli.Add (Some (host_Run host
                             ["kubectl"; "config"; "unset";
                              "contexts." +++ profile])) a1 in
  cli.Add (Some (host_Run host
                   ["kubectl"; "config"; "unset";
                    "clusters." +++ profile])) a2.

(** [kubernetesRuntime.teardownKubeconfig] *)
Definition teardownKubeconfig (a : chain) : chain :=
  let a1 := cli.Stage "reverting config" a in
  let a2 := unsetKubeconfig a1 in
  cli.Add (Some (guest_Set masterAddressKey "")) a2.

(** The step of [provisionKubeconfig] that fetches the guest's kubeconfig,
    renames its entries after the profile and saves it on the host. *)
Definition fetchKubeconfig (profile tmpkubeconfFile : string)
  : M (option error) :=
  r <- guest_Read "/etc/rancher/k3s/k3s.yaml" ;;
  match snd r with
  | Some err =>
      kubernetes.ret
        (Some (Errorf_w "error fetching kubeconfig on guest" err))
  | None =>
      let kubeconfig := ReplaceAll (fst r) ": default" (": " +++ profile) in
      host_Write host tmpkubeconfFile kubeconfig
  end.

(** The step that merges the new file into the host's, with [kubectl]. *)
Definition mergeKubeconfig (kubeconfFile tmpkubeconfFile : string)
  : M (option error) :=
  let envVar := Sprintf "KUBECONFIG=%s:%s"
                        [fmtString kubeconfFile; fmtString tmpkubeconfFile] in
  let host' := WithEnv host envVar in
  r <- host_RunOutput host' ["kubectl"; "config"; "view"; "--raw"] ;;
  match snd r with
  | Some err => kubernetes.ret (Some err)
  | None => host_Write host' tmpkubeconfFile (fst r)
  end.

(** The step that backs the host's file up, when it is a file, and puts
    the merged one in its place. *)
Definition saveKubeconfig (kubeconfFile tmpkubeconfFile : string)
  : M (option error) :=
  st <- host_Stat host kubeconfFile ;;
  backed <-
    (match snd st with
     | None =>
         if negb (fst st)
         then
           now <- time_Now_Unix ;;
           let backup :=
             filepath_Join [filepath_Dir tmpkubeconfFile;
                            Sprintf "config-bak-%d" [fmtInt now]] in
           e <- host_Run host ["cp"; kubeconfFile; backup] ;;
           match e with
           | Some err =>
               kubernetes.ret
                 (Some (Errorf_w "error backing up kubeconfig" err))
           | None => kubernetes.ret None
           end
         else kubernetes.ret None
     | Some _ => kubernetes.ret None
     end) ;;
  match backed with
  | Some err => kubernetes.ret (Some err)
  | None =>
      e <- host_Run host ["cp"; tmpkubeconfFile; kubeconfFile] ;;
      match e with
      | Some err =>
          kubernetes.ret (Some (Errorf_w "error updating kubeconfig" err))
      | None => kubernetes.ret None
      end
  end.

(** The step that switches [kubectl] to the profile's context. *)
Definition useContext (lg : cli.Entry) (profile : string)
  : M (option error) :=
  r <- host_RunOutput host ["kubectl"; "config"; "use-context"; profile] ;;
  match snd r with
  | Some err => kubernetes.ret (Some err)
  | None => fun w => (None, Println lg [fst r] w)
  end.

(** [kubernetesRuntime.provisionKubeconfig] *)
Definition provisionKubeconfig : M (option error) :=
  ip <- lima_IPAddress Profile_ID ;;
  stored <- guest_Get masterAddressKey ;;
  if String.eqb ip stored then kubernetes.ret None
  else
    let lg := cli.Logger kubernetes.CommandChain in
    let a := cli.Init kubernetes.CommandChain in
    let a1 := cli.Stage "updating config" a in
    let a2 := unsetKubeconfig a1 in
    hostHome <- host_Env host "HOME" ;;
    if String.eqb hostHome ""
    then kubernetes.ret
           (Some (errorString "error retrieving home directory on host"))
    else
      let profile := Profile_ID in
      let hostKubeDir := filepath_Join [hostHome; ".kube"] in
      let a3 := cli.Add
                  (Some (host_Run host
                           ["mkdir"; "-p";
                            filepath_Join [hostKubeDir; "." +++ profile]]))
                  a2 in
      let kubeconfFile := filepath_Join [hostKubeDir; "config"] in
      let tmpkubeconfFile :=
        filepath_Join [hostKubeDir; "." +++ profile; "colima-temp"] in
      let a4 := cli.Add (Some (fetchKubeconfig profile tmpkubeconfFile)) a3 in
      let a5 := cli.Add (Some (mergeKubeconfig kubeconfFile tmpkubeconfFile))
                        a4 in
      let a6 := cli.Add (Some (saveKubeconfig kubeconfFile tmpkubeconfFile))
                        a5 in
      let a7 := cli.Add (Some (useContext lg profile)) a6 in
      let a8 := cli.Add (Some (guest_Set masterAddressKey ip)) a7 in
      cli.Exec Println a8.

End Kubeconfig.
End kubeconfig.

(* ================================================================== *)
(** ** package gvproxy *)
(* ================================================================== *)

Module gvproxy.
Import Go.

(** [type Socket string] *)
Definition Socket : Type := string.

(** [Socket.File] *)
Definition File (sock : Socket) : string := TrimPrefix sock "unix://".

(** [Socket.Unix] *)
Definition Unix (sock : Socket) : string := "unix://" +++ File sock.

Definition searchPrefix : string := "search ".

(** The scanning loop of [searchDomains] over the lines the scanner
    yields: the first line with the prefix decides. *)
Fixpoint searchLoop (lines : list string) : option (list string) :=
  match lines with
  | [] => None
  | text :: rest =>
      if negb (HasPrefix text searchPrefix) then searchLoop rest
      else Some (Fields (TrimPrefix text searchPrefix))
  end.

(** What the log calls of [searchDomains] are given for [%v]. *)
Inductive logArg : Type :=
| argError (e : error)
| argStrings (l : list string).

(** [bufio.ErrTooLong] *)
Definition ErrTooLong : error := errorString "bufio.Scanner: token too long".

Section Resolver.
Context {W : Type}.

(** [os.ReadFile] and the two logrus calls. *)
Variable os_ReadFile : string -> W -> (string * option error) * W.
Variable logrus_Errorf : string -> list logArg -> W -> W.
Variable logrus_Infof : string -> list logArg -> W -> W.

(** [searchDomains], for a value of [runtime.GOOS].  A nil slice and an
    empty one are both the empty list. *)
Definition searchDomains (GOOS : string) (w : W) : list string * W :=
  if negb (String.eqb GOOS "darwin") && negb (String.eqb GOOS "linux")
  then ([], w)
  else
    match os_ReadFile "/etc/resolv.conf" w with
    | ((_, Some err), w1) =>
        ([], logrus_Errorf "open file error: %v" [argError err] w1)
    | ((b, None), w1) =>
        let (lines, tooLong) := Scanner b in
        match searchLoop lines with
        | Some domains =>
            (domains,
             logrus_Infof "Using search domains: %v" [argStrings domains]
                          w1)
        | None =>
            if tooLong
            then ([], logrus_Errorf "scan file error: %v"
                                    [argError ErrTooLong] w1)
            else ([], w1)
        end
    end.
End Resolver.

(** [baseHWAddr]: 0x5a, 0x94, 0xef. *)
Definition baseHWAddr : list ascii :=
  [ascii_of_nat 90; ascii_of_nat 148; ascii_of_nat 239].

Section Mac.
Context {W : Type}.

(** [daemon.Dir] and [util.SHA256Hash] (the bytes of what it returns). *)
Variable daemon_Dir : W -> string * W.
Variable SHA256Hash : string -> string.

(** [MacAddress], on the package variable [macAddress] (nil is the empty
    list) and the world: the address as text, and the variable and world
    after the call.  [None] is the panic of [sum[0:3]] on a hash shorter
    than three bytes. *)
Definition MacAddress (macAddress : list ascii) (w : W)
  : option (string * list ascii * W) :=
  match macAddress with
  | [] =>
      let (dir, w1) := daemon_Dir w in
      let sum := SHA256Hash dir in
      let m1 := macAddress ++ baseHWAddr in
      if (String.length sum <? 3)%nat then None
      else
        let m2 := m1 ++ list_ascii_of_string (substring 0 3 sum) in
        Some (HardwareAddr_String m2, m2, w1)
  | _ => Some (HardwareAddr_String macAddress, macAddress, w)
  end.
End Mac.

(** Socket view consistency read for every string [P]. *)
Definition socket_views_for_every_string : Prop :=
  forall P : string,
    File P = P /\ Unix P = "unix://" +++ P /\ File ("unix://" +++ P) = P.

(** [l] holds a line feed. *)
Fixpoint has_newline (l : string) : bool :=
  match l with
  | EmptyString => false
  | String c rest => Ascii.eqb c newline || has_newline rest
  end.

(** The content made of the lines [ls], each ended by a line feed. *)
Fixpoint unlines (ls : list string) : string :=
  match ls with
  | [] => EmptyString
  | l :: rest => l +++ String newline (unlines rest)
  end.

(** What follows a line in a content: nothing, or a line feed and the
    rest of the content. *)
Definition line_end (tail : string) : Prop :=
  tail = EmptyString \/ exists post, tail = String newline post.

(** Search-domain parsing read for every content: whenever the file is
    read and its first line beginning with the directive is
    [search foo.local bar.local], the two domains are returned. *)
Definition search_line_in_every_content : Prop :=
  forall (W : Type)
         (os_ReadFile : string -> W -> (string * option error) * W)
         (logrus_Errorf logrus_Infof : string -> list logArg -> W -> W)
         (w w1 : W) (content : string) (pre : list string) (tail : string),
    os_ReadFile "/etc/resolv.conf" w = ((content, None), w1) ->
    Forall (fun l => has_newline l = false
                     /\ HasPrefix l searchPrefix = false) pre ->
    line_end tail ->
    content = unlines pre +++ "search foo.local bar.local" +++ tail ->
    fst (searchDomains os_ReadFile logrus_Errorf logrus_Infof "linux" w)
    = ["foo.local"; "bar.local"].
End gvproxy.

(* ================================================================== *)
(** ** package cmd *)
(* ================================================================== *)

Module cmd.
Import Go.

(** [config.Mount] *)
Record Mount : Type := mkMount { Location : string; Writable : bool }.

(** [mountsFromFlag]: the slice is allocated with the length of [mounts]
    and entry [i] is computed from [mounts[i]] alone. *)
Definition mountsFromFlag (mounts : list string) : list Mount :=
  map (fun mount =>
         let str := SplitN2 mount ":" in
         {| Location := nth 0 str "";
            Writable := (2 <=? Z.of_nat (List.length str))
                        && String.eqb (nth 1 str "") "w" |})
      mounts.

Definition colon : ascii := ascii_of_nat 58.

(** The part of [str] before its first colon; all of it without one. *)
Fixpoint before_colon (str : string) : string :=
  match str with
  | EmptyString => EmptyString
  | String c rest =>
      if Ascii.eqb c colon then EmptyString
      else String c (before_colon rest)
  end.

(** The part of [str] after its first colon, if it has one. *)
Fixpoint after_colon (str : string) : option string :=
  match str with
  | EmptyString => None
  | String c rest =>
      if Ascii.eqb c colon then Some rest else after_colon rest
  end.

(** [after_colon str] is exactly ["w"]. *)
Definition suffix_is_w (str : string) : bool :=
  match after_colon str with
  | Some rest => String.eqb rest "w"
  | None => false
  end.
(** [config.Network] and the fields of [config.Config] that
    [prepareConfig] reads and writes.  The types of the [Docker], [DNS]
    and [Env] values are left open. *)
Record Network : Type := mkNetwork { Address : bool; Driver : string }.

Record Config {DockerT DNST EnvT : Type} : Type :=
  mkConfig {
      CPU : Z;
      CPUType : string;
      Memory : Z;
      Disk : Z;
      Arch : string;
      Runtime : string;
      ForwardAgent : bool;
      NetworkConf : Network;
      Kubernetes : kubernetes.Kubernetes;
      Mounts : list Mount;
      MountType : string;
      Docker : DockerT;
      DNS : DNST;
      Env : EnvT
    }.

Arguments Config : clear implicits.

(** [startCmdArgs.Flags] *)
Record startFlags : Type :=
  mkStartFlags {
      FlagMounts : list string;
      LegacyKubernetes : bool;
      Edit : bool;
      Editor : string
    }.

(** What [log.Warnln] is given. *)
Inductive warnArg : Type :=
| warnError (e : error)
| warnString (msg : string).

Section Prepare.
Context {W DockerT DNST EnvT : Type}.

Let Conf : Type := Config DockerT DNST EnvT.

(** [startCmdArgs]: the embedded configuration and the flags. *)
Record startArgs : Type := mkStartArgs { conf : Conf; Flags : startFlags }.

Notation "x <- c1 ;; c2" := (kubernetes.bind c1 (fun x => c2))
  (at level 61, c1 at next level, right associativity).

Let M (A : Type) : Type := @kubernetes.M W A.

(** [configmanager.Load], [configmanager.LoadFrom], [templateFile],
    [Config.Empty], [util.MacOS] and [log.Warnln]. *)
Variable Load : M (Conf * option error).
Variable LoadFrom : string -> M (Conf * option error).
Variable templateFile : M string.
Variable Empty : Conf -> bool.
Variable MacOS : bool.
Variable Warnln : warnArg -> W -> W.

(** [cmd.Flag(name).Changed = true] *)
Definition setChanged (changed : string -> bool) (name : string)
  : string -> bool :=
  fun flag => if String.eqb flag name then true else changed flag.

(** The tail of [prepareConfig], once [current] is settled: [Docker] is
    taken from it, and so is every setting whose flag was not changed. *)
Definition mergeCurrent (changed : string -> bool) (current : Conf)
           (args : Conf) : Conf :=
  let keep {A} (flag : string) (mine theirs : A) : A :=
    if negb (changed flag) then theirs else mine in
  {| Docker := Docker current;
     Arch := keep "arch" (Arch args) (Arch current);
     Disk := keep "disk" (Disk args) (Disk current);
     Kubernetes :=
       {| kubernetes.Enabled :=
            keep "kubernetes" (kubernetes.Enabled (Kubernetes args))
                 (kubernetes.Enabled (Kubernetes current));
          kubernetes.Version := kubernetes.Version (Kubernetes args);
          kubernetes.Ingress := kubernetes.Ingress (Kubernetes args) |};
     Runtime := keep "runtime" (Runtime args) (Runtime current);
     CPU := keep "cpu" (CPU args) (CPU current);
     CPUType := keep "cpu-type" (CPUType args) (CPUType current);
     Memory := keep "memory" (Memory args) (Memory current);
     Mounts := keep "mount" (Mounts args) (Mounts current);
     MountType := keep "mount-type" (MountType args) (MountType current);
     ForwardAgent :=
       keep "ssh-agent" (ForwardAgent args) (ForwardAgent current);
     DNS := keep "dns" (DNS args) (DNS current);
     Env := keep "env" (Env args) (Env current);
     NetworkConf :=
       if MacOS
       then {| Address := keep "network-address"
                               (Address (NetworkConf args))
                               (Address (NetworkConf current));
               Driver := keep "network-driver"
                              (Driver (NetworkConf args))
                              (Driver (NetworkConf current)) |}
       else NetworkConf args |}.

Definition withEnabled (enabled : bool) (c : Conf) : Conf :=
  {| Docker := Docker c; Arch := Arch c; Disk := Disk c;
     Kubernetes :=
       {| kubernetes.Enabled := enabled;
          kubernetes.Version := kubernetes.Version (Kubernetes c);
          kubernetes.Ingress := kubernetes.Ingress (Kubernetes c) |};
     Runtime := Runtime c; CPU := CPU c; CPUType := CPUType c;
     Memory := Memory c; Mounts := Mounts c; MountType := MountType c;
     ForwardAgent := ForwardAgent c; DNS := DNS c; Env := Env c;
     NetworkConf := NetworkConf c |}.

Definition withMounts (mounts : list Mount) (c : Conf) : Conf :=
  {| Docker := Docker c; Arch := Arch c; Disk := Disk c;
     Kubernetes := Kubernetes c;
     Runtime := Runtime c; CPU := CPU c; CPUType := CPUType c;
     Memory := Memory c; Mounts := mounts; MountType := MountType c;
     ForwardAgent := ForwardAgent c; DNS := DNS c; Env := Env c;
     NetworkConf := NetworkConf c |}.

(** [prepareConfig], on the command's [Changed] marks and [startCmdArgs]:
    both as the function leaves them. *)
Definition prepareConfig (changed : string -> bool) (args : startArgs)
  : M ((string -> bool) * startArgs) :=
  loaded <- Load ;;
  let current := fst loaded in
  _ <- (match snd loaded with
        | Some err =>
            fun w =>
              (tt,
               Warnln (warnString "reverting to default settings")
                 (Warnln (warnError
                            (wrapError ("config load failed: " +++ Error err)
                                       err)) w))
        | None => kubernetes.ret tt
        end) ;;
  let legacy := changed "with-kubernetes" in
  let conf1 := if legacy
               then withEnabled (LegacyKubernetes (Flags args)) (conf args)
               else conf args in
  let changed1 := if legacy then setChanged changed "kubernetes"
                  else changed in
  let conf2 := withMounts (mountsFromFlag (FlagMounts (Flags args))) conf1 in
  settled <-
    (if Empty current
     then
       path <- templateFile ;;
       template <- LoadFrom path ;;
       match snd template with
       | Some _ => kubernetes.ret None
       | None => kubernetes.ret (Some (fst template))
       end
     else kubernetes.ret (Some current)) ;;
  match settled with
  | None =>
      kubernetes.ret (changed1, {| conf := conf2; Flags := Flags args |})
  | Some current' =>
      kubernetes.ret
        (changed1,
         {| conf := mergeCurrent changed1 current' conf2;
            Flags := Flags args |})
  end.

End Prepare.

(** *** The start command *)

Section Start.
Context {W DockerT DNST EnvT App : Type}.

Let Conf : Type := Config DockerT DNST EnvT.
Let M (A : Type) : Type := @kubernetes.M W A.

Notation "x <- c1 ;; c2" := (kubernetes.bind c1 (fun x => c2))
  (at level 61, c1 at next level, right associativity).

(** [newApp] and the methods of the application used by the command;
    [cli.Prompt]; [configmanager.Load] and [configmanager.SaveFromFile];
    [config.File]; [embedded.ReadString]; [waitForUserEdit]; the os calls;
    the logger and the clock. *)
Variable newApp : M App.
Variable app_Active : App -> M bool.
Variable app_Start : App -> Conf -> M (option error).
Variable app_Stop : App -> bool -> M (option error).
Variable Prompt : string -> M bool.
Variable Load : M (Conf * option error).
Variable SaveFromFile : string -> M (option error).
Variable config_File : M string.
Variable embedded_ReadString : string -> M (string * option error).
Variable waitForUserEdit : string -> string -> M (string * option error).
Variable os_ReadFile : string -> M (string * option error).
Variable os_Remove : string -> M (option error).
Variable Warnln : warnArg -> W -> W.
Variable Sleep : Z -> W -> W.

(** [fmt.Errorf(msg + "%w", err)] *)
Definition Errorf_w (msg : string) (err : error) : error :=
  wrapError (msg +++ Error err) err.

(** [editConfigFile], for the editor flag.  The removal of the temporary
    file is deferred once the file is known: it runs after the save,
    whatever the save returns. *)
Definition editConfigFile (editor : string) : M (option error) :=
  file <- config_File ;;
  current <- os_ReadFile file ;;
  match snd current with
  | Some err =>
      kubernetes.ret (Some (Errorf_w "error reading config file: " err))
  | None =>
      abort <- embedded_ReadString "defaults/abort.yaml" ;;
      _ <- (match snd abort with
            | Some err =>
                fun w =>
                  (tt, Warnln (warnError
                                 (Errorf_w "unable to read embedded file: "
                                           err)) w)
            | None => kubernetes.ret tt
            end) ;;
      edited <- waitForUserEdit editor
                  (fst abort +++ String newline (fst current)) ;;
      match snd edited with
      | Some err =>
          kubernetes.ret (Some (Errorf_w "error editing config file: " err))
      | None =>
          let tmpFile := fst edited in
          if String.eqb tmpFile ""
          then kubernetes.ret
                 (Some (errorString "empty file, startup aborted"))
          else
            saved <- SaveFromFile tmpFile ;;
            _ <- os_Remove tmpFile ;;
            kubernetes.ret saved
      end
  end.

(** [startCmd.RunE], on the configuration and the flags of
    [startCmdArgs]. *)
Definition startRunE (args : @startArgs DockerT DNST EnvT)
  : M (option error) :=
  app <- newApp ;;
  let conf0 := conf args in
  if negb (Edit (Flags args))
  then
    active <- app_Active app ;;
    if active
    then fun w =>
           (None, Warnln (warnString "already running, ignoring") w)
    else app_Start app conf0
  else
    edited <- editConfigFile (Editor (Flags args)) ;;
    match edited with
    | Some err => kubernetes.ret (Some err)
    | None =>
        loaded <- Load ;;
        match snd loaded with
        | Some err =>
            kubernetes.ret
              (Some (Errorf_w "error opening config file: " err))
        | None =>
            let conf1 := fst loaded in
            active <- app_Active app ;;
            if active
            then
              restart <- Prompt
                "colima is currently running, restart to apply changes" ;;
              if negb restart then kubernetes.ret None
              else
                stopped <- app_Stop app false ;;
                match stopped with
                | Some err =>
                    kubernetes.ret (Some (Errorf_w "error stopping :" err))
                | None =>
                    fun w =>
                      app_Start app conf1
                                (Sleep (kubernetes.Second * 5) w)
                end
            else app_Start app conf1
        end
    end.

End Start.

(** *** The nerdctl install command *)

Definition nerdctlDefaultInstallPath : string := "/usr/local/bin/nerdctl".

(** [nerdctlScript] *)
Definition nerdctlScript : string :=
  "#!/usr/bin/env sh" +++ String newline
    (String newline
       ("{{.ColimaApp}} nerdctl --profile {{.Profile}} -- "
          +++ String kubernetes.dquote
                ("$@" +++ String kubernetes.dquote
                        (String newline EmptyString)))).

(** [nerdctlCmdArgs] *)
Record nerdctlArgs : Type :=
  mkNerdctlArgs {
      force : bool;
      path : string;
      usrBinWriteable : bool;
      isColimaScript : bool
    }.

Section Nerdctl.
Context {W : Type}.
Let M (A : Type) : Type := @kubernetes.M W A.

Notation "x <- c1 ;; c2" := (kubernetes.bind c1 (fun x => c2))
  (at level 61, c1 at next level, right associativity).

(** The os calls (a mode goes with [WriteFile]); [filepath.Join] and
    [filepath.Dir]; the template of the script, parsed and applied to the
    two values; [os.Args[0]] and [config.Profile().ID]; [log.Println];
    [cli.CommandInteractive(...).Run()], with what is put on its standard
    input if anything, and [cli.Command(...).Run()]. *)
Variable os_Stat : string -> M (option error).
Variable os_ReadFile : string -> M (string * option error).
Variable os_WriteFile : string -> string -> Z -> M (option error).
Variable os_Remove : string -> M (option error).
Variable os_Rename : string -> string -> M (option error).
Variable filepath_Join : list string -> string.
Variable filepath_Dir : string -> string.
Variable template_Parse : string -> option error.
Variable template_Execute : string -> string -> string -> string * option error.
Variable os_Args0 : string.
Variable Profile_ID : string.
Variable log_Println : string -> W -> W.
Variable run_interactive : list string -> option string -> M (option error).
Variable run_command : list string -> M (option error).

(** The [PreRun] of the install command. *)
Definition nerdctlInstallPreRun (a : nerdctlArgs) : M nerdctlArgs :=
  if negb (String.eqb (path a) nerdctlDefaultInstallPath)
  then kubernetes.ret a
  else
    let tmpFile :=
      filepath_Join [filepath_Dir nerdctlDefaultInstallPath; "colima.tmp"] in
    written <- os_WriteFile tmpFile "tmp" 511 ;;
    a1 <- (match written with
           | None =>
               _ <- os_Remove tmpFile ;;
               kubernetes.ret
                 {| force := force a; path := path a;
                    usrBinWriteable := true;
                    isColimaScript := isColimaScript a |}
           | Some _ => kubernetes.ret a
           end) ;;
    current <- os_ReadFile (path a1) ;;
    match snd current with
    | None =>
        if kubernetes.Contains (fst current) "colima nerdctl "
        then kubernetes.ret
               {| force := force a1; path := path a1;
                  usrBinWriteable := usrBinWriteable a1;
                  isColimaScript := true |}
        else kubernetes.ret a1
    | Some _ => kubernetes.ret a1
    end.

(** The [RunE] of the install command. *)
Definition nerdctlInstallRunE (a : nerdctlArgs) : M (option error) :=
  st <- os_Stat (path a) ;;
  let found := kubernetes.isNil st in
  if found && negb (force a) && negb (isColimaScript a)
  then kubernetes.ret
         (Some (errorString (path a +++ " exists, use --force to replace")))
  else
    let exists_ := found in
    match template_Parse nerdctlScript with
    | Some err =>
        kubernetes.ret
          (Some (wrapError ("error parsing nerdctl script template: "
                              +++ Error err) err))
    | None =>
        match template_Execute nerdctlScript os_Args0
                               (TrimPrefix Profile_ID "colima-") with
        | (_, Some err) =>
            kubernetes.ret
              (Some (wrapError ("error applying nerdctl script template: "
                                  +++ Error err) err))
        | (buf, None) =>
            if usrBinWriteable a
               || negb (String.eqb (path a) nerdctlDefaultInstallPath)
            then
              moved <- (if exists_
                        then os_Rename (path a) (path a +++ ".moved")
                        else kubernetes.ret None) ;;
              match moved with
              | Some err =>
                  kubernetes.ret
                    (Some (wrapError ("error backing up existing file: "
                                        +++ Error err) err))
              | None => os_WriteFile (path a) buf 493
              end
            else
              _ <- (fun w =>
                      (tt,
                       log_Println
                         "/usr/local/bin not writable, sudo password required to install nerdctl binary"
                         w)) ;;
              moved <- (if exists_ && negb (isColimaScript a)
                        then run_interactive
                               ["sudo"; "mv"; path a; path a +++ ".moved"]
                               None
                        else kubernetes.ret None) ;;
              match moved with
              | Some err =>
                  kubernetes.ret
                    (Some (wrapError ("error backing up existing file: "
                                        +++ Error err) err))
              | None =>
                  catted <- run_interactive
                              ["sudo"; "sh"; "-c"; "cat > " +++ path a]
                              (Some buf) ;;
                  match catted with
                  | Some err => kubernetes.ret (Some err)
                  | None =>
                      run_command ["sudo"; "chmod"; "+x"; path a]
                  end
              end
        end
    end.

End Nerdctl.

End cmd.

(* ================================================================== *)
(** ** A recording world, for running the code on concrete inputs *)
(* ================================================================== *)

Module Trace.
Import Go.

(** What the outside sees, in order. *)
Inductive event : Type :=
| Called (name : string) (arg : Z)
| Printed (lg : cli.Entry) (args : list string)
| Slept (d : Z)
| Ran (args : list string)
| Logged (format : string).

Definition world : Type := list event.

Definition Println (lg : cli.Entry) (args : list string) (w : world)
  : world := w ++ [Printed lg args].
Definition Sleep (d : Z) (w : world) : world := w ++ [Slept d].

(** An operation that records its call and fails. *)
Definition failing (name msg : string) (n : Z) : cli.op world :=
  fun w => (Some (errorString msg), w ++ [Called name n]).

(** An operation that records its call and succeeds. *)
Definition passing (name : string) (n : Z) : cli.op world :=
  fun w => (None, w ++ [Called name n]).

(** An operation that fails until it is handed attempt number [k]. *)
Definition passing_at (name msg : string) (k : Z) (n : Z) : cli.op world :=
  fun w => (if n =? k then None else Some (errorString msg),
            w ++ [Called name n]).

(** The attempt numbers recorded for [name]. *)
Fixpoint attempts (name : string) (w : world) : list Z :=
  match w with
  | [] => []
  | Called n arg :: rest =>
      if String.eqb n name then arg :: attempts name rest
      else attempts name rest
  | _ :: rest => attempts name rest
  end.

(** The names of the operations called, in order. *)
Fixpoint calls (w : world) : list string :=
  match w with
  | [] => []
  | Called n _ :: rest => n :: calls rest
  | _ :: rest => calls rest
  end.

Definition lg0 : cli.Entry := cli.WithField "context" "test".

Definition chain0 : cli.ActiveCommandChain world :=
  cli.Init (cli.New "test").

(** A guest whose commands all succeed and are recorded. *)
Definition guest_ok (args : list string) : world -> option error * world :=
  fun w => (None, w ++ [Ran args]).

(** A [Sprintf] that substitutes nothing. *)
Definition Sprintf (format : string) (args : list string) : string :=
  format.

(** Stage X; a; b (fails); c. *)
Definition chain_abc : cli.ActiveCommandChain world :=
  cli.Add (Some (passing "c" 0))
    (cli.Add (Some (failing "b" "boom" 0))
       (cli.Add (Some (passing "a" 0)) (cli.Stage "X" chain0))).

(** Stage X; a; c. *)
Definition chain_ok : cli.ActiveCommandChain world :=
  cli.Add (Some (passing "c" 0))
    (cli.Add (Some (passing "a" 0)) (cli.Stage "X" chain0)).

(** Stage(""); b (fails). *)
Definition chain_empty_stage : cli.ActiveCommandChain world :=
  cli.Add (Some (failing "b" "boom" 0)) (cli.Stage "" chain0).

(** A guest on which k3s is running: every command succeeds with no
    output; nothing is stored on it. *)
Definition guest_out (args : list string)
  : world -> (string * option error) * world :=
  fun w => (("", None), w ++ [Ran args]).
Definition guest_get (key : string) : world -> string * world :=
  fun w => ("", w).
Definition guest_set (key value : string)
  : world -> option error * world :=
  fun w => (None, w ++ [Ran ["set"; key; value]]).
Definition provisionKubeconfig : world -> option error * world :=
  fun w => (None, w ++ [Ran ["provisionKubeconfig"]]).

(** A resolver file with a search line, and a file system holding it. *)
Definition resolv_conf : string :=
  "nameserver 1.1.1.1" +++ String Go.newline
    ("search foo.local bar.local" +++ String Go.newline "").
Definition read_resolv (path : string)
  : world -> (string * option error) * world :=
  fun w => ((resolv_conf, None), w).

(** A resolver file without one, and a file system without the file. *)
Definition resolv_plain : string :=
  "nameserver 1.1.1.1" +++ String Go.newline "".
Definition read_plain (path : string)
  : world -> (string * option error) * world :=
  fun w => ((resolv_plain, None), w).
Definition read_missing (path : string)
  : world -> (string * option error) * world :=
  fun w => (("", Some (errorString "no such file or directory")), w).

Definition logf (format : string) (args : list gvproxy.logArg)
  : world -> world :=
  fun w => w ++ [Logged format].

(** A resolver file whose first line is [n] bytes [x], followed by the
    search line; with 65536 for [n], the size of the scanner's buffer. *)
Fixpoint xs (n : nat) : string :=
  match n with
  | O => EmptyString
  | S k => String "x" (xs k)
  end.
Definition long_line : string := xs (Z.to_nat 65536).
Definition resolv_long : string :=
  long_line +++ String Go.newline
    ("search foo.local bar.local" +++ String Go.newline "").
Definition read_long (path : string)
  : world -> (string * option error) * world :=
  fun w => ((resolv_long, None), w).

(** a; b (fails): no stage at all. *)
Definition chain_no_stage : cli.ActiveCommandChain world :=
  cli.Add (Some (failing "b" "boom" 0))
    (cli.Add (Some (passing "a" 0)) chain0).
(** An operation that records its call and returns what [g] decides from
    the attempt number and the world so far. *)
Definition recording (name : string) (g : Z -> world -> option error)
           (n : Z) : cli.op world :=
  fun w => (g n w, w ++ [Called name n]).

(** What the retry loop does between two attempts: the label, when there
    is one, then the pause. *)
Definition between_attempts (lg : cli.Entry) (stage : string) (interval : Z)
  : list event :=
  (if String.eqb stage "" then [] else [Printed lg [stage; "..."]])
    ++ [Slept interval].

(** Guests for the kubernetes runtime: one whose commands fail, one that
    answers a key with a fixed value, one that lists fixed container ids,
    and one on which k3s is down while [kubectl] answers. *)
Definition guest_fail (args : list string) : world -> option error * world :=
  fun w => (Some (errorString "exit status 1"), w ++ [Ran args]).
Definition guest_says (value : string) (key : string)
  : world -> string * world :=
  fun w => (value, w).
Definition guest_lists (ids : string) (args : list string)
  : world -> (string * option error) * world :=
  fun w => ((ids, None), w ++ [Ran args]).

(** The value last stored under [key] by [guest_set], [default] if none. *)
Fixpoint last_set (key : string) (w : world) (default : string) : string :=
  match w with
  | [] => default
  | Ran ["set"; k; v] :: rest =>
      last_set key rest (if String.eqb k key then v else default)
  | _ :: rest => last_set key rest default
  end.
Definition guest_lookup (key : string) : world -> string * world :=
  fun w => (last_set key w "", w).

(** A codec for [config.Kubernetes] that keeps the version. *)
Definition encode_version (conf : kubernetes.Kubernetes)
  : string * option error :=
  (kubernetes.Version conf, None).
Definition decode_version (b : string) (conf : kubernetes.Kubernetes)
  : kubernetes.Kubernetes :=
  {| kubernetes.Enabled := kubernetes.Enabled conf;
     kubernetes.Version := b;
     kubernetes.Ingress := kubernetes.Ingress conf |}.

(** A host whose commands succeed or fail, recorded. *)
Definition host_ok (h : unit) (args : list string)
  : world -> option error * world :=
  fun w => (None, w ++ [Ran args]).
Definition host_fail (h : unit) (args : list string)
  : world -> option error * world :=
  fun w => (Some (errorString "exit status 1"), w ++ [Ran args]).

(** The rest of a host and a guest for kubeconfig.go: no home directory
    set, a fixed address for the virtual machine. *)
Definition host_out (h : unit) (args : list string)
  : world -> (string * option error) * world :=
  fun w => (("", None), w ++ [Ran args]).
Definition host_write (h : unit) (path content : string)
  : world -> option error * world :=
  fun w => (None, w ++ [Ran ["write"; path]]).
Definition host_no_env (h : unit) (key : string) : world -> string * world :=
  fun w => ("", w).
Definition host_home (h : unit) (key : string) : world -> string * world :=
  fun w => ("/home/user", w).
Definition host_stat (h : unit) (path : string)
  : world -> (bool * option error) * world :=
  fun w => ((false, None), w).
Definition guest_read (path : string)
  : world -> (string * option error) * world :=
  fun w => (("", None), w).
Definition vm_address (profile : string) : world -> string * world :=
  fun w => ("192.168.5.2", w).
Definition join_slash (elems : list string) : string := Go.Join elems "/".
Definition clock : world -> Z * world := fun w => (0, w).
Definition sprintf_args (format : string) (args : list kubeconfig.fmtArg)
  : string := format.

(** An instance directory and a hash for it. *)
Definition instance_dir : world -> string * world :=
  fun w => ("/home/user/.colima/default", w).
Definition hash_hex (dir : string) : string := "e3b0c44298fc1c14".

(** The settings given on a command line (only [--cpu 4] was typed) and
    the settings stored by an earlier run. *)
Definition conf_flags : cmd.Config unit unit unit :=
  {| cmd.CPU := 4; cmd.CPUType := ""; cmd.Memory := 2; cmd.Disk := 60;
     cmd.Arch := "x86_64"; cmd.Runtime := "docker";
     cmd.ForwardAgent := false;
     cmd.NetworkConf := {| cmd.Address := false; cmd.Driver := "gvproxy" |};
     cmd.Kubernetes := {| kubernetes.Enabled := false;
                          kubernetes.Version := kubernetes.DefaultVersion;
                          kubernetes.Ingress := false |};
     cmd.Mounts := []; cmd.MountType := "9p";
     cmd.Docker := tt; cmd.DNS := tt; cmd.Env := tt |}.
Definition conf_stored : cmd.Config unit unit unit :=
  {| cmd.CPU := 2; cmd.CPUType := "host"; cmd.Memory := 8; cmd.Disk := 100;
     cmd.Arch := "aarch64"; cmd.Runtime := "containerd";
     cmd.ForwardAgent := true;
     cmd.NetworkConf := {| cmd.Address := true; cmd.Driver := "vmnet" |};
     cmd.Kubernetes := {| kubernetes.Enabled := true;
                          kubernetes.Version := "v1.22.1+k3s1";
                          kubernetes.Ingress := true |};
     cmd.Mounts := [ {| cmd.Location := "/data"; cmd.Writable := true |} ];
     cmd.MountType := "reverse-sshfs";
     cmd.Docker := tt; cmd.DNS := tt; cmd.Env := tt |}.
Definition args_typed : @cmd.startArgs unit unit unit :=
  {| cmd.conf := conf_flags;
     cmd.Flags := {| cmd.FlagMounts := ["/src:w"];
                     cmd.LegacyKubernetes := true;
                     cmd.Edit := false; cmd.Editor := "" |} |}.
Definition load_stored
  : world -> (cmd.Config unit unit unit * option error) * world :=
  fun w => ((conf_stored, None), w).
Definition load_from (path : string)
  : world -> (cmd.Config unit unit unit * option error) * world :=
  fun w => ((conf_stored, Some (errorString "no template")), w).
Definition template_path : world -> string * world :=
  fun w => ("default.yaml", w).
Definition never_empty (c : cmd.Config unit unit unit) : bool := false.
Definition always_empty (c : cmd.Config unit unit unit) : bool := true.
Definition warn (arg : cmd.warnArg) : world -> world :=
  fun w => w ++ [Logged "warn"].
(** Only [--cpu] was typed; only [--with-kubernetes] was typed. *)
Definition typed_cpu (flag : string) : bool := String.eqb flag "cpu".
Definition typed_legacy (flag : string) : bool :=
  String.eqb flag "with-kubernetes".

(** A file system and commands for the install and start commands: every
    call succeeds and is recorded. *)
Definition os_stat_found (p : string) : world -> option error * world :=
  fun w => (None, w ++ [Ran ["stat"; p]]).
Definition os_read_ok (p : string)
  : world -> (string * option error) * world :=
  fun w => (("cpu: 2", None), w ++ [Ran ["read"; p]]).
Definition os_write (p content : string) (mode : Z)
  : world -> option error * world :=
  fun w => (None, w ++ [Ran ["write"; p]]).
Definition os_remove (p : string) : world -> option error * world :=
  fun w => (None, w ++ [Ran ["remove"; p]]).
Definition os_rename (p q : string) : world -> option error * world :=
  fun w => (None, w ++ [Ran ["rename"; p; q]]).
Definition os_rename_fails (p q : string) : world -> option error * world :=
  fun w => (Some (errorString "permission denied"),
            w ++ [Ran ["rename"; p; q]]).
Definition parse_ok (script : string) : option error := None.
Definition execute_ok (script app profile : string)
  : string * option error :=
  (app +++ " nerdctl --profile " +++ profile, None).
Definition log_line (msg : string) : world -> world :=
  fun w => w ++ [Logged msg].
Definition run_it (args : list string) (stdin : option string)
  : world -> option error * world :=
  fun w => (None, w ++ [Ran args]).
Definition nerdctl_custom : cmd.nerdctlArgs :=
  {| cmd.force := false; cmd.path := "/opt/bin/nerdctl";
     cmd.usrBinWriteable := false; cmd.isColimaScript := false |}.
Definition nerdctl_forced : cmd.nerdctlArgs :=
  {| cmd.force := true; cmd.path := "/opt/bin/nerdctl";
     cmd.usrBinWriteable := false; cmd.isColimaScript := false |}.

(** An application that is running, a user who declines, an editor that
    leaves a file or none. *)
Definition new_app : world -> unit * world := fun w => (tt, w).
Definition app_active (app : unit) : world -> bool * world :=
  fun w => (true, w ++ [Ran ["active"]]).
Definition app_start (app : unit) (c : cmd.Config unit unit unit)
  : world -> option error * world :=
  fun w => (None, w ++ [Ran ["start"]]).
Definition app_stop (app : unit) (forced : bool)
  : world -> option error * world :=
  fun w => (None, w ++ [Ran ["stop"]]).
Definition prompt_no (question : string) : world -> bool * world :=
  fun w => (false, w ++ [Ran ["prompt"]]).
Definition save_fails (p : string) : world -> option error * world :=
  fun w => (Some (errorString "invalid yaml"), w ++ [Ran ["save"; p]]).
Definition config_file : world -> string * world :=
  fun w => ("colima.yaml", w).
Definition embedded_read (name : string)
  : world -> (string * option error) * world :=
  fun w => (("# abort", None), w).
Definition edit_to (tmp : string) (editor content : string)
  : world -> (string * option error) * world :=
  fun w => ((tmp, None), w ++ [Ran ["edit"]]).

End Trace.

(* ================================================================== *)
(** * Properties *)
(* ================================================================== *)

Import Go.

(** ** Errors *)

Lemma Wraps_Errorf_at : forall stage e, Wraps (cli.Errorf_at stage e) e.
Proof.
  intros stage e. eapply Wraps_step.
  - reflexivity.
  - apply Wraps_refl.
Qed.

(** ** The command chain *)

Section ChainProps.
Context {W any : Type}.
Variable Println : cli.Entry -> list string -> W -> W.
Variable Sleep : Z -> W -> W.
Variable Sprintf : string -> list any -> string.

Let chain : Type := cli.ActiveCommandChain W.
Let step : Type := cli.cFunc W.
Let is_built : chain -> Prop := cli.built Println Sleep Sprintf.

(** [Exec] runs a prefix whose operations all succeed, then goes on with
    the rest from the world and the stage the prefix leaves. *)
Lemma Exec_loop_app : forall lg (pre post : list step) last w w1,
    cli.succeed_all Println lg pre w = Some w1 ->
    cli.Exec_loop Println lg (pre ++ post) last w
    = cli.Exec_loop Println lg post (cli.stage_after pre last) w1.
Proof.
  intros lg pre post. induction pre as [|c pre IH]; intros last w w1 Hok.
  - simpl in *. now inversion Hok.
  - simpl in *. destruct (cli.f c) as [fn|].
    + destruct (fn w) as [[e|] w']; [discriminate|]. now apply IH.
    + destruct (String.eqb (cli.s c) ""); now apply IH.
Qed.

Lemma Exec_loop_all_ok : forall lg (fs : list step) last w w1,
    cli.succeed_all Println lg fs w = Some w1 ->
    cli.Exec_loop Println lg fs last w = (None, w1).
Proof.
  intros lg fs last w w1 Hok.
  rewrite <- (app_nil_r fs). now rewrite (Exec_loop_app _ _ _ _ _ _ Hok).
Qed.

Lemma Exec_loop_failing_op : forall lg (fn : cli.op W) lbl post last w e w',
    fn w = (Some e, w') ->
    cli.Exec_loop Println lg ({| cli.f := Some fn; cli.s := lbl |} :: post)
                  last w
    = (if String.eqb last "" then Some e
       else Some (cli.Errorf_at last e), w').
Proof.
  intros lg fn lbl post last w e w' Hfn. simpl. rewrite Hfn.
  now destruct (String.eqb last "").
Qed.

Lemma stage_after_app : forall (xs ys : list step) last,
    cli.stage_after (xs ++ ys) last
    = cli.stage_after ys (cli.stage_after xs last).
Proof.
  induction xs as [|c xs IH]; intros ys last; simpl; [reflexivity|].
  destruct (cli.f c); [|destruct (String.eqb (cli.s c) "")]; apply IH.
Qed.

Lemma stage_after_no_label : forall (fs : list step) last,
    cli.no_label fs -> cli.stage_after fs last = last.
Proof.
  induction fs as [|c fs IH]; intros last Hno; simpl; [reflexivity|].
  assert (Hrest : cli.no_label fs)
    by (intros c' Hin; apply Hno; now right).
  destruct (cli.f c) eqn:Hf; [now apply IH|].
  rewrite (Hno c (or_introl eq_refl) Hf). simpl. now apply IH.
Qed.

Lemma no_stage_no_label : forall fs : list step,
    cli.no_stage fs -> cli.no_label fs.
Proof. intros fs Hno c Hin Hf. now elim (Hno c Hin). Qed.

Lemma stage_after_labelled : forall (before mid : list step) X last,
    X <> "" -> cli.no_label mid ->
    cli.stage_after (before ++ cli.stageStep X :: mid) last = X.
Proof.
  intros before mid X last HX Hmid.
  rewrite stage_after_app. simpl.
  destruct (String.eqb_spec X ""); [contradiction|].
  now apply stage_after_no_label.
Qed.

(** Nothing a caller can do to a chain sets its [lastStage]. *)
Lemma built_lastStage : forall a, is_built a -> cli.lastStage a = "".
Proof. intros a Hb. induction Hb; simpl; auto. Qed.

Lemma succeed_all_app : forall lg (xs ys : list step) w w1,
    cli.succeed_all Println lg (xs ++ ys) w = Some w1 ->
    exists w0, cli.succeed_all Println lg xs w = Some w0
               /\ cli.succeed_all Println lg ys w0 = Some w1.
Proof.
  intros lg xs ys. induction xs as [|c xs IH]; intros w w1 H; simpl in *.
  - now exists w.
  - destruct (cli.f c) as [fn|].
    + destruct (fn w) as [[e|] w']; [discriminate|]. now apply IH.
    + now apply IH.
Qed.

(** C2.  Fail-fast: when the steps before an operation all go through and
    that operation returns an error, [Exec] returns an error that wraps
    it, in the world that operation leaves: the steps before it have run
    in insertion order and no later step has.  When every step goes
    through, [Exec] returns nil. *)
Theorem Exec_fail_fast : forall (a : chain) (w : W),
    (forall pre fn lbl post w1 e w2,
        cli.funcs a = pre ++ {| cli.f := Some fn; cli.s := lbl |} :: post ->
        cli.succeed_all Println (cli.log a) pre w = Some w1 ->
        fn w1 = (Some e, w2) ->
        exists e', cli.Exec Println a w = (Some e', w2) /\ Wraps e' e)
    /\ (forall w1,
           cli.succeed_all Println (cli.log a) (cli.funcs a) w = Some w1 ->
           cli.Exec Println a w = (None, w1)).
Proof.
  intros a w. split.
  - intros pre fn lbl post w1 e w2 Hfs Hpre Hfn.
    unfold cli.Exec. rewrite Hfs, (Exec_loop_app _ _ _ _ _ _ Hpre).
    rewrite (Exec_loop_failing_op _ _ _ _ _ _ _ _ Hfn).
    destruct (String.eqb _ "").
    + exists e. split; [reflexivity | apply Wraps_refl].
    + eexists. split; [reflexivity | apply Wraps_Errorf_at].
  - intros w1 Hok. unfold cli.Exec. now apply Exec_loop_all_ok.
Qed.

(** C3, as amended.  For a chain a caller built, whose first failing
    operation returns [e]: if the last stage step with a label before it
    is [Stage(X)], [Exec] returns the error with message
    ["error at 'X': " ++ e.Error()] that wraps [e]; if no stage step with
    a label comes before it, [Exec] returns [e] itself. *)
Theorem Exec_stage_tagging :
  forall (a : chain) pre fn lbl post w w1 e w2,
    is_built a ->
    cli.funcs a = pre ++ {| cli.f := Some fn; cli.s := lbl |} :: post ->
    cli.succeed_all Println (cli.log a) pre w = Some w1 ->
    fn w1 = (Some e, w2) ->
    (forall X before mid,
        X <> "" ->
        pre = before ++ cli.stageStep X :: mid ->
        cli.no_label mid ->
        cli.Exec Println a w
        = (Some (wrapError ("error at '" +++ X +++ "': " +++ Error e) e),
           w2))
    /\ (cli.no_label pre -> cli.Exec Println a w = (Some e, w2)).
Proof.
  intros a pre fn lbl post w w1 e w2 Hb Hfs Hpre Hfn.
  unfold cli.Exec.
  rewrite Hfs, (Exec_loop_app _ _ _ _ _ _ Hpre).
  rewrite (Exec_loop_failing_op _ _ _ _ _ _ _ _ Hfn).
  rewrite (built_lastStage a Hb). split.
  - intros X before mid HX Hsplit Hmid. subst pre.
    rewrite (stage_after_labelled _ _ _ _ HX Hmid).
    destruct (String.eqb_spec X ""); [contradiction | reflexivity].
  - intros Hno. now rewrite (stage_after_no_label _ _ Hno).
Qed.

(** C4.  [Add], [Stage] and [Stagef] each append exactly one step, leave
    the steps already there, [lastStage] and the logger as they were, and
    leave the world alone: no operation runs.  Of all the methods only
    [Exec] touches the world. *)
Theorem builders_append_one_step :
  forall (a : chain) (w : W) fn label format args,
    (cli.invoke Println Sleep Sprintf (cli.callAdd fn) (a, w)
     = ((cli.Add fn a, w), None)
     /\ cli.funcs (cli.Add fn a)
        = cli.funcs a ++ [ {| cli.f := fn; cli.s := "" |} ]
     /\ cli.lastStage (cli.Add fn a) = cli.lastStage a
     /\ cli.log (cli.Add fn a) = cli.log a)
    /\ (cli.invoke Println Sleep Sprintf (cli.callStage label) (a, w)
        = ((cli.Stage label a, w), None)
        /\ cli.funcs (cli.Stage label a)
           = cli.funcs a ++ [ cli.stageStep label ]
        /\ cli.lastStage (cli.Stage label a) = cli.lastStage a
        /\ cli.log (cli.Stage label a) = cli.log a)
    /\ (cli.invoke Println Sleep Sprintf (cli.callStagef format args) (a, w)
        = ((cli.Stagef Sprintf format args a, w), None)
        /\ cli.funcs (cli.Stagef Sprintf format args a)
           = cli.funcs a ++ [ cli.stageStep (Sprintf format args) ]
        /\ cli.lastStage (cli.Stagef Sprintf format args a)
           = cli.lastStage a
        /\ cli.log (cli.Stagef Sprintf format args a) = cli.log a)
    /\ (forall m : cli.method W any,
           match m with
           | cli.callExec => True
           | _ => snd (fst (cli.invoke Println Sleep Sprintf m (a, w))) = w
           end)
    /\ (forall m : cli.method W any,
           List.length
             (cli.funcs
                (fst (fst (cli.invoke Println Sleep Sprintf m (a, w)))))
           = match m with
             | cli.callExec => List.length (cli.funcs a)
             | _ => S (List.length (cli.funcs a))
             end).
Proof.
  intros a w fn label format args. repeat split.
  - intros m. now destruct m.
  - intros m. destruct m; simpl;
      try (rewrite length_app; simpl; lia).
    now destruct (cli.Exec Println a w).
Qed.

(** C7.  On a stage step with a label [X], [Exec] logs the label and takes
    it as the last stage before any later step runs; an operation that
    then fails with [e], with no other stage step in between, is reported
    under that label: the error returned has the message
    ["error at 'X': " ++ e.Error()] and wraps [e]. *)
Theorem Exec_stage_logs_then_tags :
  forall (a : chain) pre X rest w w1,
    X <> "" ->
    cli.funcs a = pre ++ cli.stageStep X :: rest ->
    cli.succeed_all Println (cli.log a) pre w = Some w1 ->
    cli.Exec Println a w
    = cli.Exec_loop Println (cli.log a) rest X
                    (Println (cli.log a) [X; "..."] w1)
    /\ (forall mid fn lbl post w2 e w3,
           rest = mid ++ {| cli.f := Some fn; cli.s := lbl |} :: post ->
           cli.no_stage mid ->
           cli.succeed_all Println (cli.log a) mid
                           (Println (cli.log a) [X; "..."] w1) = Some w2 ->
           fn w2 = (Some e, w3) ->
           cli.Exec Println a w
           = (Some (wrapError ("error at '" +++ X +++ "': " +++ Error e) e),
              w3)).
Proof.
  intros a pre X rest w w1 HX Hfs Hpre.
  assert (Hexec : cli.Exec Println a w
                  = cli.Exec_loop Println (cli.log a) rest X
                      (Println (cli.log a) [X; "..."] w1)).
  { unfold cli.Exec. rewrite Hfs, (Exec_loop_app _ _ _ _ _ _ Hpre). simpl.
    destruct (String.eqb_spec X ""); [contradiction | reflexivity]. }
  split; [exact Hexec|].
  intros mid fn lbl post w2 e w3 Hrest Hmid Hok Hfn.
  rewrite Hexec, Hrest, (Exec_loop_app _ _ _ _ _ _ Hok).
  rewrite (Exec_loop_failing_op _ _ _ _ _ _ _ _ Hfn).
  rewrite (stage_after_no_label _ _ (no_stage_no_label _ Hmid)).
  destruct (String.eqb_spec X ""); [contradiction | reflexivity].
Qed.



End ChainProps.

(** ** The retry loop *)

Section RetryProps.
Context {W : Type}.
Variable Println : cli.Entry -> list string -> W -> W.
Variable Sleep : Z -> W -> W.

(** The loop needs no more fuel than [count - i]: the function [Retry]
    adds always runs its loop to the end. *)
Lemma retry_loop_fuel :
  forall lg stage interval count (fn : Z -> cli.op W) fuel i err w,
    (Z.to_nat (count - i) <= fuel)%nat ->
    cli.retry_loop Println Sleep lg stage interval count fn fuel i err w
    = cli.retry_loop Println Sleep lg stage interval count fn
                     (Z.to_nat (count - i)) i err w.
Proof.
  intros lg stage interval count fn fuel.
  induction fuel as [|fuel IH]; intros i err w Hle.
  - assert (Hz : Z.to_nat (count - i) = 0%nat) by lia. now rewrite Hz.
  - destruct err as [e|];
      [|destruct (Z.to_nat (count - i)); reflexivity].
    destruct (i <? count) eqn:Hlt.
    + apply Z.ltb_lt in Hlt.
      assert (Hs : Z.to_nat (count - i)
                   = S (Z.to_nat (count - (i + 1)))) by lia.
      rewrite Hs. simpl. apply Z.ltb_lt in Hlt. rewrite Hlt.
      destruct (fn (i + 1) _) as [err' w3].
      rewrite IH by lia. reflexivity.
    + simpl. rewrite Hlt.
      destruct (Z.to_nat (count - i)); simpl; now rewrite Hlt.
Qed.

(** [Retry] appends the one operation that runs the loop. *)
Lemma Retry_funcs :
  forall stage interval count (fn : Z -> cli.op W) a,
    cli.funcs (cli.Retry Println Sleep stage interval count fn a)
    = cli.funcs a
        ++ [ cli.opStep (cli.retry_func Println Sleep (cli.log a) stage
                                        interval count fn) ].
Proof. reflexivity. Qed.

(** An operation that succeeds at once is called once, whatever [count]. *)
Lemma retry_func_first_success :
  forall lg stage interval count (fn : Z -> cli.op W) w w1,
    fn 1 w = (None, w1) ->
    cli.retry_func Println Sleep lg stage interval count fn w = (None, w1).
Proof.
  intros lg stage interval count fn w w1 H1. unfold cli.retry_func.
  simpl. rewrite H1. now destruct (Z.to_nat (count - 0)).
Qed.
End RetryProps.

Lemma attempts_app : forall name w w',
    Trace.attempts name (w ++ w')
    = Trace.attempts name w ++ Trace.attempts name w'.
Proof.
  intros name w w'. induction w as [|ev w IH]; [reflexivity|].
  destruct ev; simpl; try exact IH.
  destruct (String.eqb name0 name); simpl; now rewrite IH.
Qed.

Lemma attempts_Println : forall name lg args w,
    Trace.attempts name (Trace.Println lg args w) = Trace.attempts name w.
Proof.
  intros. unfold Trace.Println. rewrite attempts_app. apply app_nil_r.
Qed.

Lemma attempts_Sleep : forall name d w,
    Trace.attempts name (Trace.Sleep d w) = Trace.attempts name w.
Proof.
  intros. unfold Trace.Sleep. rewrite attempts_app. apply app_nil_r.
Qed.

(** From attempt counter [i], with [k] iterations left, an operation that
    always fails is called [k] more times, with [i+1], ..., [i+k]. *)
Lemma retry_loop_always_failing :
  forall lg stage interval msg (k : nat) (i : Z) w,
    cli.retry_loop Trace.Println Trace.Sleep lg stage interval
                   (i + Z.of_nat k) (Trace.failing "op" msg) k i
                   (Some (errorString msg)) w
    = (Some (errorString msg),
       snd (cli.retry_loop Trace.Println Trace.Sleep lg stage interval
                           (i + Z.of_nat k) (Trace.failing "op" msg) k i
                           (Some (errorString msg)) w))
    /\ Trace.attempts "op"
         (snd (cli.retry_loop Trace.Println Trace.Sleep lg stage interval
                              (i + Z.of_nat k) (Trace.failing "op" msg) k i
                              (Some (errorString msg)) w))
       = Trace.attempts "op" w
           ++ map (fun j => i + Z.of_nat j) (seq 1 k).
Proof.
  intros lg stage interval msg k.
  induction k as [|k IH]; intros i w.
  - simpl. replace (i + 0) with i by lia. rewrite Z.ltb_irrefl.
    simpl. now rewrite app_nil_r.
  - cbn [cli.retry_loop].
    assert (Hlt : (i <? i + Z.of_nat (S k)) = true)
      by (apply Z.ltb_lt; lia).
    rewrite Hlt. unfold Trace.failing at 1 3 5. cbv beta iota.
    replace (i + Z.of_nat (S k)) with ((i + 1) + Z.of_nat k) by lia.
    destruct (IH (i + 1)
                 (Trace.Sleep interval
                    (if String.eqb stage "" then w
                     else Trace.Println lg [stage; "..."] w)
                    ++ [Trace.Called "op" (i + 1)])) as [Herr Hatt].
    split; [exact Herr|].
    rewrite Hatt, attempts_app, attempts_Sleep.
    assert (Hw : Trace.attempts "op"
                   (if String.eqb stage "" then w
                    else Trace.Println lg [stage; "..."] w)
                 = Trace.attempts "op" w)
      by (destruct (String.eqb stage ""); [reflexivity|apply attempts_Println]).
    rewrite Hw. simpl Trace.attempts. rewrite <- app_assoc. f_equal.
    simpl. f_equal; try lia.
    rewrite <- (seq_shift k 1), map_map. apply map_ext. intros j. lia.
Qed.

(** C1.  What the code does when the operation fails every time: the step
    [Retry(stage, interval, n, op)] appends calls [op] n+1 times, with the
    attempt numbers 1, 1, 2, ..., n, and returns the last error.  For
    [n = 1] that is two calls, both with attempt number 1. *)
Theorem Retry_always_failing_calls :
  forall (n : nat) stage interval msg,
    let run := cli.retry_func Trace.Println Trace.Sleep Trace.lg0 stage
                              interval (Z.of_nat n)
                              (Trace.failing "op" msg) in
    cli.funcs (cli.Retry Trace.Println Trace.Sleep stage interval
                         (Z.of_nat n) (Trace.failing "op" msg) Trace.chain0)
    = [ cli.opStep run ]
    /\ fst (run []) = Some (errorString msg)
    /\ Trace.attempts "op" (snd (run [])) = 1 :: map Z.of_nat (seq 1 n)
    /\ List.length (Trace.attempts "op" (snd (run []))) = S n.
Proof.
  intros n stage interval msg run.
  assert (Hrun : run []
                 = cli.retry_loop Trace.Println Trace.Sleep Trace.lg0 stage
                     interval (0 + Z.of_nat n) (Trace.failing "op" msg) n 0
                     (Some (errorString msg)) [Trace.Called "op" 1]).
  { unfold run, cli.retry_func, Trace.failing at 1. cbv beta iota zeta.
    simpl app. f_equal. lia. }
  destruct (retry_loop_always_failing Trace.lg0 stage interval msg n 0
              [Trace.Called "op" 1]) as [Herr Hatt].
  assert (Hcalls : Trace.attempts "op" (snd (run []))
                   = 1 :: map Z.of_nat (seq 1 n)).
  { rewrite Hrun, Hatt. simpl. f_equal. }
  split; [reflexivity|]. split; [now rewrite Hrun, Herr|].
  split; [exact Hcalls|].
  rewrite Hcalls. simpl. now rewrite length_map, length_seq.
Qed.

(** When the operation succeeds on the call that is handed attempt number
    2, with [count = 3], it has been called three times: 1, 1, 2. *)
Example Retry_succeeds_when_handed_2 :
  cli.retry_func Trace.Println Trace.Sleep Trace.lg0 "" 5 3
                 (Trace.passing_at "op" "boom" 2) []
  = (None,
     [ Trace.Called "op" 1; Trace.Slept 5; Trace.Called "op" 1;
       Trace.Slept 5; Trace.Called "op" 2 ]).
Proof. reflexivity. Qed.

(** ** The chain on recorded runs *)

Lemma built_chain_abc :
  cli.built Trace.Println Trace.Sleep Trace.Sprintf Trace.chain_abc.
Proof.
  unfold Trace.chain_abc.
  apply cli.built_Add, cli.built_Add, cli.built_Add, cli.built_Stage.
  apply cli.built_Init.
Qed.

Lemma built_chain_no_stage :
  cli.built Trace.Println Trace.Sleep Trace.Sprintf Trace.chain_no_stage.
Proof.
  unfold Trace.chain_no_stage.
  apply cli.built_Add, cli.built_Add, cli.built_Init.
Qed.

Lemma built_chain_empty_stage :
  cli.built Trace.Println Trace.Sleep Trace.Sprintf Trace.chain_empty_stage.
Proof.
  unfold Trace.chain_empty_stage.
  apply cli.built_Add, cli.built_Stage, cli.built_Init.
Qed.

Lemma no_label_ops : forall (fs : list (cli.cFunc Trace.world)),
    Forall (fun c => cli.f c <> None) fs -> cli.no_label fs.
Proof.
  intros fs Hall c Hin Hf. rewrite Forall_forall in Hall.
  now elim (Hall c Hin).
Qed.

(** Stage X; a; b; c with b failing: a and b are called, c is not, and the
    error wraps b's.  Stage X; a; c: nil. *)
Lemma Exec_fail_fast_witness :
  (exists e',
      cli.Exec Trace.Println Trace.chain_abc []
      = (Some e',
         [ Trace.Printed Trace.lg0 ["X"; "..."];
           Trace.Called "a" 0; Trace.Called "b" 0 ])
      /\ Wraps e' (errorString "boom"))
  /\ cli.Exec Trace.Println Trace.chain_ok []
     = (None,
        [ Trace.Printed Trace.lg0 ["X"; "..."];
          Trace.Called "a" 0; Trace.Called "c" 0 ]).
Proof.
  split.
  - apply (proj1 (Exec_fail_fast Trace.Println Trace.chain_abc [])
                 [ cli.stageStep "X"; cli.opStep (Trace.passing "a" 0) ]
                 (Trace.failing "b" "boom" 0) ""
                 [ cli.opStep (Trace.passing "c" 0) ]
                 [ Trace.Printed Trace.lg0 ["X"; "..."];
                   Trace.Called "a" 0 ]);
      reflexivity.
  - apply (proj2 (Exec_fail_fast Trace.Println Trace.chain_ok [])).
    reflexivity.
Defined.

(** Stage X; a; b with b failing: "error at 'X': boom" wrapping b's error.
    a; b with no stage: b's error as it is. *)
Lemma Exec_stage_tagging_witness :
  cli.Exec Trace.Println Trace.chain_abc []
  = (Some (wrapError "error at 'X': boom" (errorString "boom")),
     [ Trace.Printed Trace.lg0 ["X"; "..."];
       Trace.Called "a" 0; Trace.Called "b" 0 ])
  /\ cli.Exec Trace.Println Trace.chain_no_stage []
     = (Some (errorString "boom"),
        [ Trace.Called "a" 0; Trace.Called "b" 0 ]).
Proof.
  split.
  - apply (proj1 (Exec_stage_tagging
                    Trace.Println Trace.Sleep Trace.Sprintf Trace.chain_abc
                    [ cli.stageStep "X"; cli.opStep (Trace.passing "a" 0) ]
                    (Trace.failing "b" "boom" 0) ""
                    [ cli.opStep (Trace.passing "c" 0) ] []
                    [ Trace.Printed Trace.lg0 ["X"; "..."];
                      Trace.Called "a" 0 ]
                    (errorString "boom")
                    [ Trace.Printed Trace.lg0 ["X"; "..."];
                      Trace.Called "a" 0; Trace.Called "b" 0 ]
                    built_chain_abc eq_refl eq_refl eq_refl)
                 "X" [] [ cli.opStep (Trace.passing "a" 0) ]).
    + discriminate.
    + reflexivity.
    + apply no_label_ops. repeat constructor; discriminate.
  - apply (proj2 (Exec_stage_tagging
                    Trace.Println Trace.Sleep Trace.Sprintf
                    Trace.chain_no_stage
                    [ cli.opStep (Trace.passing "a" 0) ]
                    (Trace.failing "b" "boom" 0) "" [] []
                    [ Trace.Called "a" 0 ]
                    (errorString "boom")
                    [ Trace.Called "a" 0; Trace.Called "b" 0 ]
                    built_chain_no_stage eq_refl eq_refl eq_refl)).
    apply no_label_ops. repeat constructor; discriminate.
Defined.

(** C3 as stated fails for the empty label: after [Stage("")] a failing
    operation's error comes back as it is, not as "error at '': boom". *)
Lemma stage_tagging_empty_label_counterexample :
  ~ cli.stage_tagging_for_every_label
      Trace.Println Trace.Sleep Trace.Sprintf.
Proof.
  intros Hclaim.
  destruct (Hclaim Trace.chain_empty_stage "" [] []
                   (Trace.failing "b" "boom" 0) [] [] []
                   (errorString "boom") [ Trace.Called "b" 0 ]
                   built_chain_empty_stage eq_refl
                   (fun c (Hin : In c []) => match Hin with end)
                   eq_refl eq_refl)
    as [e' [Hexec [Hmsg Hwrap]]].
  simpl in Hexec. inversion Hexec; subst e'. discriminate Hwrap.
Qed.

(** Stage X; a; b with b failing: the label is logged before a runs and b's
    error is reported under X. *)
Lemma Exec_stage_logs_then_tags_witness :
  cli.Exec Trace.Println Trace.chain_abc []
  = cli.Exec_loop Trace.Println Trace.lg0
      [ cli.opStep (Trace.passing "a" 0);
        cli.opStep (Trace.failing "b" "boom" 0);
        cli.opStep (Trace.passing "c" 0) ]
      "X" [ Trace.Printed Trace.lg0 ["X"; "..."] ]
  /\ cli.Exec Trace.Println Trace.chain_abc []
     = (Some (wrapError "error at 'X': boom" (errorString "boom")),
        [ Trace.Printed Trace.lg0 ["X"; "..."];
          Trace.Called "a" 0; Trace.Called "b" 0 ]).
Proof.
  pose proof (Exec_stage_logs_then_tags
                Trace.Println Trace.chain_abc [] "X"
                [ cli.opStep (Trace.passing "a" 0);
                  cli.opStep (Trace.failing "b" "boom" 0);
                  cli.opStep (Trace.passing "c" 0) ]
                [] []
                ltac:(discriminate) eq_refl eq_refl) as [Hlog Htag].
  split; [exact Hlog|].
  apply (Htag [ cli.opStep (Trace.passing "a" 0) ]
              (Trace.failing "b" "boom" 0) ""
              [ cli.opStep (Trace.passing "c" 0) ]
              [ Trace.Printed Trace.lg0 ["X"; "..."]; Trace.Called "a" 0 ]
              (errorString "boom")
              [ Trace.Printed Trace.lg0 ["X"; "..."];
                Trace.Called "a" 0; Trace.Called "b" 0 ]).
  - reflexivity.
  - intros c [<-|[]]. discriminate.
  - reflexivity.
  - reflexivity.
Defined.


(** ** Strings *)

Lemma substring_whole : forall str, substring 0 (String.length str) str = str.
Proof.
  induction str as [|c str IH]; [reflexivity|]. simpl. now rewrite IH.
Qed.

Lemma prefix_append : forall p r, String.prefix p (p +++ r) = true.
Proof.
  induction p as [|c p IH]; intros r; simpl; [now destruct r|].
  destruct (ascii_dec c c); [apply IH | contradiction].
Qed.

Lemma length_append : forall p r,
    String.length (p +++ r) = (String.length p + String.length r)%nat.
Proof.
  induction p as [|c p IH]; intros r; simpl; [reflexivity|].
  now rewrite IH.
Qed.

Lemma substring_skip : forall p r n,
    substring (String.length p) n (p +++ r) = substring 0 n r.
Proof.
  induction p as [|c p IH]; intros r n; simpl; [reflexivity | apply IH].
Qed.

Lemma substring_take : forall p r,
    substring 0 (String.length p) (p +++ r) = p.
Proof.
  induction p as [|c p IH]; intros r; simpl.
  - now destruct r.
  - now rewrite IH.
Qed.

(** [TrimPrefix] takes off a prefix that is there. *)
Lemma TrimPrefix_append : forall p r, TrimPrefix (p +++ r) p = r.
Proof.
  intros p r. unfold TrimPrefix, HasPrefix.
  rewrite prefix_append, substring_skip, length_append.
  replace (String.length p + String.length r - String.length p)%nat
    with (String.length r) by lia.
  apply substring_whole.
Qed.

(** ** The gvproxy socket *)

(** C5, as amended.  For every string [P]: [Socket("unix://"+P).File()] is
    [P]; [Unix()] is always ["unix://"] followed by [File()]; and when [P]
    does not itself begin with ["unix://"], [Socket(P).File()] is [P] and
    [Socket(P).Unix()] is ["unix://" + P]. *)
Theorem Socket_views : forall P : string,
    gvproxy.File ("unix://" +++ P) = P
    /\ gvproxy.Unix P = "unix://" +++ gvproxy.File P
    /\ (HasPrefix P "unix://" = false ->
        gvproxy.File P = P /\ gvproxy.Unix P = "unix://" +++ P).
Proof.
  intros P. split; [apply TrimPrefix_append|]. split; [reflexivity|].
  intros Hno. unfold gvproxy.Unix, gvproxy.File, TrimPrefix.
  rewrite Hno. now split.
Qed.

Lemma Socket_views_witness :
  gvproxy.File "/run/gvproxy.sock" = "/run/gvproxy.sock"
  /\ gvproxy.Unix "/run/gvproxy.sock" = "unix:///run/gvproxy.sock".
Proof.
  apply (proj2 (proj2 (Socket_views "/run/gvproxy.sock"))). reflexivity.
Defined.

(** C5 as stated fails for a string that already carries the scheme:
    [Socket("unix://a").File()] is ["a"]. *)
Lemma Socket_views_counterexample : ~ gvproxy.socket_views_for_every_string.
Proof.
  intros Hclaim. destruct (Hclaim "unix://a") as [Hfile _].
  discriminate Hfile.
Qed.

(** ** Search domains *)

Lemma append_assoc : forall a b c, (a +++ b) +++ c = a +++ (b +++ c).
Proof.
  induction a as [|x a IH]; intros b c; simpl; [reflexivity|].
  now rewrite IH.
Qed.

Lemma append_empty_r : forall a, a +++ "" = a.
Proof.
  induction a as [|x a IH]; simpl; [reflexivity | now rewrite IH].
Qed.

(** A stretch without line feeds goes to the line being read. *)
Lemma rawLines_app : forall l cur tail,
    gvproxy.has_newline l = false ->
    rawLines cur (l +++ tail) = rawLines (cur +++ l) tail.
Proof.
  induction l as [|c l IH]; intros cur tail Hl.
  - now rewrite append_empty_r.
  - cbn [gvproxy.has_newline] in Hl. apply orb_false_iff in Hl.
    destruct Hl as [Hc Hl]. cbn [String.append rawLines]. rewrite Hc.
    rewrite (IH _ tail Hl), append_assoc. reflexivity.
Qed.

Lemma rawLines_unlines : forall pre tail,
    Forall (fun l => gvproxy.has_newline l = false) pre ->
    rawLines "" (gvproxy.unlines pre +++ tail) = pre ++ rawLines "" tail.
Proof.
  intros pre tail Hpre. induction Hpre as [|l pre Hl Hpre IH].
  - reflexivity.
  - cbn [gvproxy.unlines]. rewrite append_assoc.
    rewrite (rawLines_app l "" _ Hl). cbn [String.append rawLines].
    assert (Hnl : Ascii.eqb newline newline = true) by apply Ascii.eqb_refl.
    rewrite Hnl, IH. reflexivity.
Qed.

(** A line that ends where [line_end] says is a raw line of its own. *)
Lemma rawLines_line : forall l tail,
    l <> "" ->
    gvproxy.has_newline l = false ->
    gvproxy.line_end tail ->
    exists post, rawLines "" (l +++ tail) = l :: post.
Proof.
  intros l tail Hne Hl [-> | [post ->]].
  - rewrite (rawLines_app l "" "" Hl). cbn [String.append rawLines].
    destruct l; [contradiction|]. now exists [].
  - rewrite (rawLines_app l "" _ Hl). cbn [String.append rawLines].
    assert (Hnl : Ascii.eqb newline newline = true) by apply Ascii.eqb_refl.
    rewrite Hnl. now exists (rawLines "" post).
Qed.

(** Once the line being read has filled the buffer the scan fails,
    whatever follows. *)
Lemma scanTokens_too_long : forall tail cur,
    MaxScanTokenSize <= Z.of_nat (String.length cur) ->
    scanTokens (rawLines cur tail) = ([], true).
Proof.
  induction tail as [|c tail IH]; intros cur Hlen.
  - cbn [rawLines]. destruct cur as [|x cur].
    + cbn in Hlen. unfold MaxScanTokenSize in Hlen. lia.
    + cbn [scanTokens].
      destruct (Z.ltb_spec (Z.of_nat (String.length (String x cur)))
                           MaxScanTokenSize); [lia | reflexivity].
  - cbn [rawLines]. destruct (Ascii.eqb c newline).
    + cbn [scanTokens].
      destruct (Z.ltb_spec (Z.of_nat (String.length cur)) MaxScanTokenSize);
        [lia | reflexivity].
    + apply IH. rewrite length_append. cbn [String.length]. lia.
Qed.

Lemma scanTokens_app : forall pre rest,
    Forall (fun l => Z.of_nat (String.length l) < MaxScanTokenSize) pre ->
    scanTokens (pre ++ rest)
    = (map dropCR pre ++ fst (scanTokens rest), snd (scanTokens rest)).
Proof.
  intros pre rest Hpre. induction Hpre as [|l pre Hl Hpre IH].
  - cbn [app map]. now destruct (scanTokens rest).
  - cbn [app map scanTokens].
    destruct (Z.ltb_spec (Z.of_nat (String.length l)) MaxScanTokenSize);
      [|lia].
    rewrite IH. reflexivity.
Qed.

(** Dropping a terminal carriage return leaves a prefix without one where
    it is. *)
Lemma prefix_dropCR : forall p l,
    dropCR p = p ->
    String.prefix p (dropCR l) = String.prefix p l.
Proof.
  induction p as [|a p IH]; intros l Hp.
  - destruct l as [|b l]; [reflexivity|].
    cbn [dropCR]. destruct l; [|reflexivity].
    now destruct (Ascii.eqb b carriage_return).
  - destruct l as [|b l]; [reflexivity|].
    destruct l as [|c l].
    + cbn [dropCR]. destruct (Ascii.eqb_spec b carriage_return) as [Hb|Hb];
        [|reflexivity].
      subst b. cbn [String.prefix].
      destruct (ascii_dec a carriage_return) as [Ha|Ha]; [|reflexivity].
      subst a. destruct p as [|d p]; [|reflexivity].
      discriminate Hp.
    + change (dropCR (String b (String c l)))
        with (String b (dropCR (String c l))).
      cbn [String.prefix]. destruct (ascii_dec a b); [|reflexivity].
      apply IH. destruct p as [|d p]; [reflexivity|].
      change (dropCR (String a (String d p)))
        with (String a (dropCR (String d p))) in Hp.
      now injection Hp.
Qed.

Lemma dropCR_append : forall p r,
    p <> "" -> dropCR p = p -> dropCR (p +++ r) = p +++ dropCR r.
Proof.
  assert (Hstep : forall a b s,
             dropCR (String a (String b s))
             = String a (dropCR (String b s))) by reflexivity.
  induction p as [|a p IH]; intros r Hne Hp; [contradiction|].
  destruct p as [|b p].
  - cbn [String.append]. destruct r as [|c r]; [exact Hp | reflexivity].
  - rewrite Hstep in Hp. injection Hp as Hp.
    specialize (IH r ltac:(discriminate) Hp).
    cbn [String.append] in *. rewrite Hstep, IH. reflexivity.
Qed.

Lemma searchLoop_first : forall pre text post,
    Forall (fun l => HasPrefix l gvproxy.searchPrefix = false) pre ->
    HasPrefix text gvproxy.searchPrefix = true ->
    gvproxy.searchLoop (pre ++ text :: post)
    = Some (Fields (TrimPrefix text gvproxy.searchPrefix)).
Proof.
  intros pre text post Hpre Htext.
  induction Hpre as [|l pre Hl Hpre IH]; simpl.
  - now rewrite Htext.
  - now rewrite Hl.
Qed.

Lemma searchLoop_none : forall lines,
    Forall (fun l => HasPrefix l gvproxy.searchPrefix = false) lines ->
    gvproxy.searchLoop lines = None.
Proof.
  intros lines Hall. induction Hall as [|l lines Hl Hall IH]; simpl.
  - reflexivity.
  - now rewrite Hl.
Qed.

(** The lines of a content that the scanner passes without a result:
    without a line feed inside, shorter than the buffer, and not beginning
    with the directive. *)
Lemma lines_passed : forall ls,
    Forall (fun l => gvproxy.has_newline l = false
                     /\ Z.of_nat (String.length l) < MaxScanTokenSize
                     /\ HasPrefix l "search " = false) ls ->
    Forall (fun l => gvproxy.has_newline l = false) ls
    /\ Forall (fun l => Z.of_nat (String.length l) < MaxScanTokenSize) ls
    /\ Forall (fun l => HasPrefix l gvproxy.searchPrefix = false)
              (map dropCR ls).
Proof.
  intros ls Hls. induction Hls as [|l ls [Hnl [Hlen Hpre]] Hls IH].
  - repeat split; constructor.
  - destruct IH as [IH1 [IH2 IH3]]. repeat split; constructor; try assumption.
    unfold HasPrefix, gvproxy.searchPrefix in *.
    now rewrite prefix_dropCR.
Qed.

Section ResolverProps.
Context {W : Type}.
Variable os_ReadFile : string -> W -> (string * option error) * W.
Variable logrus_Errorf : string -> list gvproxy.logArg -> W -> W.
Variable logrus_Infof : string -> list gvproxy.logArg -> W -> W.

Let searchDomains : string -> W -> list string * W :=
  gvproxy.searchDomains os_ReadFile logrus_Errorf logrus_Infof.

(** What [searchDomains] returns on a content whose scan stops on a line
    too long before any line with the directive was met. *)
Lemma searchDomains_too_long : forall GOOS w b w1 pre long tail,
    GOOS = "darwin" \/ GOOS = "linux" ->
    os_ReadFile "/etc/resolv.conf" w = ((b, None), w1) ->
    b = gvproxy.unlines pre +++ long +++ tail ->
    Forall (fun l => gvproxy.has_newline l = false
                     /\ Z.of_nat (String.length l) < MaxScanTokenSize
                     /\ HasPrefix l "search " = false) pre ->
    gvproxy.has_newline long = false ->
    MaxScanTokenSize <= Z.of_nat (String.length long) ->
    searchDomains GOOS w
    = ([], logrus_Errorf "scan file error: %v"
                         [gvproxy.argError gvproxy.ErrTooLong] w1).
Proof.
  intros GOOS w b w1 pre long tail Hos Hread Hb Hpre Hnl Hlen.
  unfold searchDomains, gvproxy.searchDomains.
  assert (Hgate : negb (String.eqb GOOS "darwin")
                  && negb (String.eqb GOOS "linux") = false)
    by (destruct Hos; subst GOOS; reflexivity).
  rewrite Hgate, Hread.
  destruct (lines_passed pre Hpre) as [Hpre1 [Hpre2 Hpre3]].
  unfold Scanner. subst b.
  rewrite (rawLines_unlines pre _ Hpre1), (rawLines_app long "" tail Hnl).
  rewrite (scanTokens_app pre _ Hpre2).
  rewrite (scanTokens_too_long tail ("" +++ long) Hlen).
  cbn [fst snd]. rewrite app_nil_r.
  now rewrite (searchLoop_none _ Hpre3).
Qed.

(** C6, as amended.  On darwin and linux, when the file is read:
    - if its first line beginning with ["search "] is ["search " ++ rest],
      and that line and the lines before it are shorter than the
      scanner's buffer of 65536 bytes, the result is [rest], less one
      carriage return ending the line, split on white space, and it is
      logged: ["foo.local"; "bar.local"] for [search foo.local bar.local],
      and also when a no-break space (U+00A0) stands between the two;
    - if no line begins with ["search "] and every line is shorter than
      the buffer, the result is empty and nothing is logged;
    - if a line of 65536 bytes or more comes before any line beginning
      with ["search "], the result is empty whatever follows, a search
      line included, and the scanner's error is logged.
    When the file cannot be read the result is empty and the error is
    logged; on any other platform the result is empty and the file is not
    read.  The function returns a list and nothing else: there is no
    error to hand to the caller. *)
Theorem searchDomains_parsing : forall (GOOS : string) (w : W),
    (forall b w1 pre rest tail,
        GOOS = "darwin" \/ GOOS = "linux" ->
        os_ReadFile "/etc/resolv.conf" w = ((b, None), w1) ->
        b = gvproxy.unlines pre +++ ("search " +++ rest) +++ tail ->
        Forall (fun l => gvproxy.has_newline l = false
                         /\ Z.of_nat (String.length l) < 65536
                         /\ HasPrefix l "search " = false) pre ->
        gvproxy.has_newline rest = false ->
        Z.of_nat (String.length ("search " +++ rest)) < 65536 ->
        gvproxy.line_end tail ->
        searchDomains GOOS w
        = (Fields (dropCR rest),
           logrus_Infof "Using search domains: %v"
                        [gvproxy.argStrings (Fields (dropCR rest))] w1))
    /\ (Fields (dropCR "foo.local bar.local") = ["foo.local"; "bar.local"]
        /\ Fields ("foo.local"
                     +++ String (ascii_of_nat 194)
                           (String (ascii_of_nat 160) "bar.local"))
           = ["foo.local"; "bar.local"])
    /\ (forall b w1 ls last,
           GOOS = "darwin" \/ GOOS = "linux" ->
           os_ReadFile "/etc/resolv.conf" w = ((b, None), w1) ->
           b = gvproxy.unlines ls +++ last ->
           Forall (fun l => gvproxy.has_newline l = false
                            /\ Z.of_nat (String.length l) < 65536
                            /\ HasPrefix l "search " = false)
                  (ls ++ [last]) ->
           searchDomains GOOS w = ([], w1))
    /\ (forall b w1 pre long tail,
           GOOS = "darwin" \/ GOOS = "linux" ->
           os_ReadFile "/etc/resolv.conf" w = ((b, None), w1) ->
           b = gvproxy.unlines pre +++ long +++ tail ->
           Forall (fun l => gvproxy.has_newline l = false
                            /\ Z.of_nat (String.length l) < 65536
                            /\ HasPrefix l "search " = false) pre ->
           gvproxy.has_newline long = false ->
           65536 <= Z.of_nat (String.length long) ->
           searchDomains GOOS w
           = ([], logrus_Errorf "scan file error: %v"
                                [gvproxy.argError gvproxy.ErrTooLong] w1))
    /\ (forall b err w1,
           GOOS = "darwin" \/ GOOS = "linux" ->
           os_ReadFile "/etc/resolv.conf" w = ((b, Some err), w1) ->
           searchDomains GOOS w
           = ([], logrus_Errorf "open file error: %v"
                                [gvproxy.argError err] w1))
    /\ (GOOS <> "darwin" -> GOOS <> "linux" ->
        searchDomains GOOS w = ([], w)).
Proof.
  intros GOOS w.
  split; [|split; [split; reflexivity|split; [|split; [|split]]]].
  - intros b w1 pre rest tail Hos Hread Hb Hpre Hrest Hlen Htail.
    change 65536 with MaxScanTokenSize in Hlen.
    unfold searchDomains, gvproxy.searchDomains.
    assert (Hgate : negb (String.eqb GOOS "darwin")
                    && negb (String.eqb GOOS "linux") = false)
      by (destruct Hos; subst GOOS; reflexivity).
    rewrite Hgate, Hread.
    destruct (lines_passed pre Hpre) as [Hpre1 [Hpre2 Hpre3]].
    assert (Hline : gvproxy.has_newline ("search " +++ rest) = false)
      by exact Hrest.
    destruct (rawLines_line ("search " +++ rest) tail
                ltac:(discriminate) Hline Htail) as [post Hpost].
    unfold Scanner. subst b.
    rewrite (rawLines_unlines pre _ Hpre1), Hpost.
    rewrite (scanTokens_app pre _ Hpre2).
    cbn [scanTokens fst snd].
    destruct (Z.ltb_spec (Z.of_nat (String.length ("search " +++ rest)))
                         MaxScanTokenSize) as [_|Hge]; [|lia].
    destruct (scanTokens post) as [toks err]. cbn [fst snd].
    rewrite (dropCR_append "search " rest ltac:(discriminate) eq_refl).
    rewrite (searchLoop_first _ ("search " +++ dropCR rest) toks Hpre3
               (prefix_append "search " (dropCR rest))).
    unfold gvproxy.searchPrefix.
    now rewrite (TrimPrefix_append "search " (dropCR rest)).
  - intros b w1 ls last Hos Hread Hb Hall.
    unfold searchDomains, gvproxy.searchDomains.
    assert (Hgate : negb (String.eqb GOOS "darwin")
                    && negb (String.eqb GOOS "linux") = false)
      by (destruct Hos; subst GOOS; reflexivity).
    rewrite Hgate, Hread.
    apply Forall_app in Hall. destruct Hall as [Hls Hlast].
    destruct (lines_passed ls Hls) as [Hls1 [Hls2 Hls3]].
    destruct (lines_passed [last] Hlast) as [Hlast1 [Hlast2 Hlast3]].
    unfold Scanner. subst b.
    rewrite (rawLines_unlines ls _ Hls1).
    rewrite <- (append_empty_r last) at 1.
    rewrite (rawLines_app last "" "" (Forall_inv Hlast1)).
    cbn [String.append rawLines].
    rewrite (scanTokens_app ls _ Hls2).
    destruct last as [|c last].
    + cbn [scanTokens fst snd]. rewrite app_nil_r.
      now rewrite (searchLoop_none _ Hls3).
    + cbn [scanTokens].
      destruct (Z.ltb_spec (Z.of_nat (String.length (String c last)))
                           MaxScanTokenSize) as [_|Hge];
        [|pose proof (Forall_inv Hlast2) as Hshort; cbv beta in Hshort;
          lia].
      cbn [fst snd].
      rewrite (searchLoop_none
                 (map dropCR ls ++ [dropCR (String c last)])
                 ltac:(apply Forall_app; split; assumption)).
      reflexivity.
  - intros b w1 pre long tail Hos Hread Hb Hpre Hnl Hlen.
    exact (searchDomains_too_long GOOS w b w1 pre long tail
                                  Hos Hread Hb Hpre Hnl Hlen).
  - intros b err w1 Hos Hread.
    unfold searchDomains, gvproxy.searchDomains.
    assert (Hgate : negb (String.eqb GOOS "darwin")
                    && negb (String.eqb GOOS "linux") = false)
      by (destruct Hos; subst GOOS; reflexivity).
    now rewrite Hgate, Hread.
  - intros Hd Hl. unfold searchDomains, gvproxy.searchDomains.
    destruct (String.eqb_spec GOOS "darwin"); [contradiction|].
    destruct (String.eqb_spec GOOS "linux"); [contradiction|].
    reflexivity.
Qed.
End ResolverProps.

(** The long line of the counterexample: it has no line feed, fills the
    scanner's buffer and does not begin with the directive. *)
Lemma xs_no_newline : forall n, gvproxy.has_newline (Trace.xs n) = false.
Proof.
  induction n as [|n IH]; [reflexivity|].
  cbn [Trace.xs gvproxy.has_newline]. now rewrite IH.
Qed.

Lemma xs_length : forall n, String.length (Trace.xs n) = n.
Proof.
  induction n as [|n IH]; [reflexivity|].
  cbn [Trace.xs String.length]. now rewrite IH.
Qed.

Lemma long_line_length :
  Z.of_nat (String.length Trace.long_line) = 65536.
Proof.
  unfold Trace.long_line. rewrite xs_length.
  apply Z2Nat.id. lia.
Qed.

Lemma xs_no_directive : forall n,
    HasPrefix (Trace.xs n) gvproxy.searchPrefix = false.
Proof.
  intros [|n]; reflexivity.
Qed.

(** A file with [search foo.local bar.local] on its second line, a file
    with no search line, a file whose first line fills the buffer, a
    missing file, and another platform. *)
Lemma searchDomains_parsing_witness :
  gvproxy.searchDomains Trace.read_resolv Trace.logf Trace.logf "linux" []
  = (["foo.local"; "bar.local"], [Trace.Logged "Using search domains: %v"])
  /\ gvproxy.searchDomains Trace.read_plain Trace.logf Trace.logf
                           "darwin" [] = ([], [])
  /\ gvproxy.searchDomains Trace.read_long Trace.logf Trace.logf
                           "linux" []
     = ([], [Trace.Logged "scan file error: %v"])
  /\ gvproxy.searchDomains Trace.read_missing Trace.logf Trace.logf
                           "linux" []
     = ([], [Trace.Logged "open file error: %v"])
  /\ gvproxy.searchDomains Trace.read_resolv Trace.logf Trace.logf
                           "windows" [] = ([], []).
Proof.
  split; [|split; [|split; [|split]]].
  - apply (proj1 (searchDomains_parsing
                    Trace.read_resolv Trace.logf Trace.logf "linux" [])
                 Trace.resolv_conf [] ["nameserver 1.1.1.1"]
                 "foo.local bar.local" (String newline "")).
    + now right.
    + reflexivity.
    + reflexivity.
    + repeat constructor.
    + reflexivity.
    + reflexivity.
    + right. now exists "".
  - apply (proj1 (proj2 (proj2 (searchDomains_parsing
                    Trace.read_plain Trace.logf Trace.logf "darwin" [])))
                 Trace.resolv_plain [] ["nameserver 1.1.1.1"] "").
    + now left.
    + reflexivity.
    + reflexivity.
    + repeat constructor.
  - apply (proj1 (proj2 (proj2 (proj2 (searchDomains_parsing
                    Trace.read_long Trace.logf Trace.logf "linux" []))))
                 Trace.resolv_long [] [] Trace.long_line
                 (String newline
                    ("search foo.local bar.local" +++ String newline ""))).
    + now right.
    + reflexivity.
    + reflexivity.
    + constructor.
    + apply xs_no_newline.
    + rewrite long_line_length. apply Z.le_refl.
  - apply (proj1 (proj2 (proj2 (proj2 (proj2 (searchDomains_parsing
                    Trace.read_missing Trace.logf Trace.logf "linux" [])))))
                 "" (errorString "no such file or directory") []).
    + now right.
    + reflexivity.
  - apply (proj2 (proj2 (proj2 (proj2 (proj2 (searchDomains_parsing
                    Trace.read_resolv Trace.logf Trace.logf "windows" []))))));
      discriminate.
Defined.

(** C6 as stated fails for a content whose first line fills the scanner's
    buffer: the scan stops there with [bufio.ErrTooLong], and the line
    [search foo.local bar.local] that follows is never read. *)
Lemma searchDomains_long_line_counterexample :
  ~ gvproxy.search_line_in_every_content.
Proof.
  intros Hclaim.
  assert (Hnl : gvproxy.has_newline Trace.long_line = false)
    by apply xs_no_newline.
  assert (Hlen : MaxScanTokenSize
                 <= Z.of_nat (String.length Trace.long_line))
    by (rewrite long_line_length; apply Z.le_refl).
  pose proof (Hclaim Trace.world Trace.read_long Trace.logf Trace.logf
                     [] [] Trace.resolv_long [Trace.long_line]
                     (String newline "") eq_refl) as Hgot.
  pose proof (searchDomains_too_long
                Trace.read_long Trace.logf Trace.logf "linux" []
                Trace.resolv_long [] [] Trace.long_line
                (String newline
                   ("search foo.local bar.local" +++ String newline ""))
                (or_intror eq_refl) eq_refl eq_refl
                (Forall_nil _) Hnl Hlen) as Hrun.
  rewrite Hrun in Hgot. cbn [fst] in Hgot.
  assert (Hfalse : @nil string = ["foo.local"; "bar.local"]).
  { apply Hgot.
    - constructor; [|constructor]. split; [exact Hnl|].
      apply xs_no_directive.
    - right. now exists "".
    - unfold Trace.resolv_long. cbn [gvproxy.unlines].
      now rewrite append_assoc. }
  discriminate Hfalse.
Qed.

(** ** Mount flags *)

Lemma prefix_colon : forall c rest,
    String.prefix ":" (String c rest) = Ascii.eqb c cmd.colon.
Proof.
  intros c rest.
  change (String.prefix ":" (String c rest))
    with (match ascii_dec ":"%char c with
          | left _ => String.prefix "" rest
          | right _ => false
          end).
  destruct (ascii_dec ":"%char c) as [Heq|Hne].
  - subst c. now destruct rest.
  - symmetry. apply Ascii.eqb_neq. intros Heq. apply Hne. now subst c.
Qed.

Lemma Index_colon : forall str,
    Index str ":"
    = match cmd.after_colon str with
      | None => -1
      | Some _ => Z.of_nat (String.length (cmd.before_colon str))
      end.
Proof.
  induction str as [|c str IH]; [reflexivity|].
  cbn [Index cmd.after_colon cmd.before_colon].
  rewrite prefix_colon. destruct (Ascii.eqb c cmd.colon); [reflexivity|].
  rewrite IH. destruct (cmd.after_colon str) as [rest|]; [|reflexivity].
  destruct (Z.ltb_spec (Z.of_nat (String.length (cmd.before_colon str))) 0);
    [lia|].
  cbn [String.length]. lia.
Qed.

Lemma split_at_colon : forall str rest,
    cmd.after_colon str = Some rest ->
    str = cmd.before_colon str +++ String cmd.colon rest.
Proof.
  induction str as [|c str IH]; intros rest H; [discriminate|].
  simpl in *. destruct (Ascii.eqb_spec c cmd.colon) as [->|Hne].
  - now inversion H.
  - simpl. f_equal. now apply IH.
Qed.

Lemma substring_skip_more : forall p r k n,
    substring (String.length p + k) n (p +++ r) = substring k n r.
Proof.
  induction p as [|c p IH]; intros r k n; simpl; [reflexivity | apply IH].
Qed.

(** [SplitN(str, ":", 2)] cuts at the first colon, when there is one. *)
Lemma SplitN2_colon : forall str,
    SplitN2 str ":"
    = match cmd.after_colon str with
      | None => [str]
      | Some rest => [cmd.before_colon str; rest]
      end.
Proof.
  intros str. unfold SplitN2. rewrite Index_colon.
  destruct (cmd.after_colon str) as [rest|] eqn:Hafter; [|reflexivity].
  destruct (Z.ltb_spec (Z.of_nat (String.length (cmd.before_colon str))) 0);
    [lia|].
  rewrite Nat2Z.id.
  pose proof (split_at_colon str rest Hafter) as Hsplit.
  set (b := cmd.before_colon str) in *.
  rewrite Hsplit at 1 2 3. f_equal; [apply substring_take|]. f_equal.
  rewrite substring_skip_more, length_append. simpl.
  replace (String.length b + S (String.length rest)
           - (String.length b + 1))%nat
    with (String.length rest) by lia.
  apply substring_whole.
Qed.

(** C10.  [mountsFromFlag] returns one mount per string, in order:
    [Location] is the part before the first colon (the whole string when
    there is none) and [Writable] holds exactly when there is a colon and
    what follows the first one is ["w"].  A suffix such as ["rw"] gives
    [Writable = false]. *)
Theorem mountsFromFlag_spec : forall mounts : list string,
    List.length (cmd.mountsFromFlag mounts) = List.length mounts
    /\ cmd.mountsFromFlag mounts
       = map (fun mount =>
                {| cmd.Location := cmd.before_colon mount;
                   cmd.Writable := cmd.suffix_is_w mount |}) mounts
    /\ (forall mount,
           cmd.suffix_is_w mount = true
           <-> exists loc, cmd.after_colon loc = None
                           /\ mount = loc +++ ":w")
    /\ cmd.mountsFromFlag ["/tmp/data:rw"; "/tmp/data:w"; "/tmp/data"]
       = [ {| cmd.Location := "/tmp/data"; cmd.Writable := false |};
           {| cmd.Location := "/tmp/data"; cmd.Writable := true |};
           {| cmd.Location := "/tmp/data"; cmd.Writable := false |} ].
Proof.
  intros mounts. split; [apply length_map|]. split; [|split].
  - unfold cmd.mountsFromFlag. apply map_ext. intros mount.
    rewrite SplitN2_colon. unfold cmd.suffix_is_w.
    destruct (cmd.after_colon mount) as [rest|] eqn:Hafter.
    + reflexivity.
    + simpl. f_equal.
      clear mounts. induction mount as [|c mount IH]; [reflexivity|].
      simpl in *. destruct (Ascii.eqb c cmd.colon); [discriminate|].
      f_equal. now apply IH.
  - intros mount. unfold cmd.suffix_is_w. split.
    + destruct (cmd.after_colon mount) as [rest|] eqn:Hafter;
        [|discriminate].
      intros Hw. apply String.eqb_eq in Hw. subst rest.
      exists (cmd.before_colon mount). split.
      * clear Hafter. induction mount as [|c mount IH]; [reflexivity|].
        simpl. destruct (Ascii.eqb_spec c cmd.colon) as [->|Hne];
          [reflexivity|].
        simpl. apply Ascii.eqb_neq in Hne. now rewrite Hne.
      * now apply split_at_colon.
    + intros [loc [Hloc ->]].
      assert (Hafter : cmd.after_colon (loc +++ ":w") = Some "w").
      { induction loc as [|c loc IH]; [reflexivity|].
        simpl in *. destruct (Ascii.eqb c cmd.colon); [discriminate|].
        now apply IH. }
      now rewrite Hafter.
  - reflexivity.
Qed.

(** [/tmp/data:w] is writable: it is [/tmp/data], which has no colon,
    followed by [:w]. *)
Lemma mountsFromFlag_spec_witness : cmd.suffix_is_w "/tmp/data:w" = true.
Proof.
  apply (proj2 (proj1 (proj2 (proj2 (mountsFromFlag_spec [])))
                      "/tmp/data:w")).
  exists "/tmp/data". split; reflexivity.
Defined.

(** ** The kubernetes runtime *)

Section RuntimeProps.
Context {W : Type}.
Variable Println : cli.Entry -> list string -> W -> W.
Variable Sleep : Z -> W -> W.
Variable Sprintf : string -> list string -> string.
Variable guest_Run : list string -> W -> option error * W.
Variable guest_RunQuiet : list string -> W -> option error * W.
Variable guest_RunOutput : list string -> W -> (string * option error) * W.
Variable guest_Get : string -> W -> string * W.
Variable guest_Set : string -> string -> W -> option error * W.
Variable ContainerRuntimeKey containerd_Name docker_Name : string.
Variable json_Unmarshal :
  string -> kubernetes.Kubernetes -> kubernetes.Kubernetes.
Variable json_Marshal : kubernetes.Kubernetes -> string * option error.
Variable installK3s :
  cli.ActiveCommandChain W -> cli.Entry -> string -> string -> bool ->
  cli.ActiveCommandChain W.
Variable installK3sCache :
  cli.ActiveCommandChain W -> cli.Entry -> string -> string ->
  cli.ActiveCommandChain W.
Variable installK3sCluster :
  cli.ActiveCommandChain W -> string -> string -> bool ->
  cli.ActiveCommandChain W.
Variable installContainerdDeps :
  cli.ActiveCommandChain W -> cli.ActiveCommandChain W.
Variable provisionKubeconfig : W -> option error * W.

(** C9.  When [Running()] reports true, leaving the world [w1],
    [Provision] returns nil with the world still [w1] and [Start] returns
    nil having only logged "already running": no step was added and
    executed, the k3s service was not started and the kubeconfig was not
    provisioned. *)
Theorem running_returns_at_once :
  forall (ctx : option kubernetes.Config) (w w1 : W),
    kubernetes.Running guest_RunQuiet w = (true, w1) ->
    kubernetes.Provision Println Sleep Sprintf guest_Run guest_RunQuiet
      guest_RunOutput guest_Get guest_Set ContainerRuntimeKey
      containerd_Name docker_Name json_Unmarshal json_Marshal installK3s
      installK3sCache installK3sCluster installContainerdDeps ctx w
    = (None, w1)
    /\ kubernetes.Start Println Sleep guest_Run guest_RunQuiet
         provisionKubeconfig w
       = (None,
          Println (cli.Logger kubernetes.CommandChain)
                  ["already running"] w1).
Proof.
  intros ctx w w1 Hrun.
  unfold kubernetes.Provision, kubernetes.Start.
  unfold kubernetes.bind at 1. rewrite Hrun.
  split; [reflexivity|].
  unfold kubernetes.bind at 1. now rewrite Hrun.
Qed.
End RuntimeProps.

(** On a guest where the status command succeeds, the only command either
    method runs is that status command. *)
Lemma running_returns_at_once_witness :
  kubernetes.Provision Trace.Println Trace.Sleep Trace.Sprintf
    Trace.guest_ok Trace.guest_ok Trace.guest_out Trace.guest_get
    Trace.guest_set "runtime" "containerd" "docker"
    (fun _ conf => conf) (fun _ => ("{}", None))
    (fun a _ _ _ _ => a) (fun a _ _ _ => a) (fun a _ _ _ => a) (fun a => a)
    None []
  = (None, [ Trace.Ran ["sudo"; "service"; "k3s"; "status"] ])
  /\ kubernetes.Start Trace.Println Trace.Sleep Trace.guest_ok Trace.guest_ok
       Trace.provisionKubeconfig []
     = (None,
        [ Trace.Ran ["sudo"; "service"; "k3s"; "status"];
          Trace.Printed (cli.Logger kubernetes.CommandChain)
                        ["already running"] ]).
Proof.
  apply (running_returns_at_once
           Trace.Println Trace.Sleep Trace.Sprintf
           Trace.guest_ok Trace.guest_ok Trace.guest_out Trace.guest_get
           Trace.guest_set "runtime" "containerd" "docker"
           (fun _ conf => conf) (fun _ => ("{}", None))
           (fun a _ _ _ _ => a) (fun a _ _ _ => a) (fun a _ _ _ => a)
           (fun a => a) Trace.provisionKubeconfig
           None [] [ Trace.Ran ["sudo"; "service"; "k3s"; "status"] ]).
  reflexivity.
Defined.

(* ================================================================== *)
(** * Further properties *)
(* ================================================================== *)

(** ** Retry, for every operation *)

Section RetryMore.
Context {W : Type}.
Variable Println : cli.Entry -> list string -> W -> W.
Variable Sleep : Z -> W -> W.

(** X1.  With [count <= 0] the step [Retry] adds calls the operation once,
    with attempt number 1, and returns what that call returns: no pause,
    no log line, no retry. *)
Theorem Retry_count_not_positive :
  forall lg stage interval count (fn : Z -> cli.op W) w,
    count <= 0 ->
    cli.retry_func Println Sleep lg stage interval count fn w = fn 1 w.
Proof.
  intros lg stage interval count fn w Hcount. unfold cli.retry_func.
  cbv zeta. change (0 + 1) with 1. destruct (fn 1 w) as [err w0].
  assert (Hfuel : Z.to_nat (count - 0) = 0%nat) by lia. rewrite Hfuel.
  destruct err as [e|]; [|reflexivity]. simpl.
  destruct (Z.ltb_spec 0 count); [lia | reflexivity].
Qed.

(** X2.  When the first call succeeds the step returns nil in the world
    that call leaves, whatever [count], the label and the interval are:
    nothing is logged and there is no pause. *)
Theorem Retry_first_call_succeeds :
  forall lg stage interval count (fn : Z -> cli.op W) w w1,
    fn 1 w = (None, w1) ->
    cli.retry_func Println Sleep lg stage interval count fn w = (None, w1)
    /\ (forall n,
           cli.Exec Println
             (cli.Retry Println Sleep stage interval count fn (cli.Init n))
             w = (None, w1)).
Proof.
  intros lg stage interval count fn w w1 H1.
  split; [now apply retry_func_first_success|].
  intros n. unfold cli.Exec. simpl.
  now rewrite (retry_func_first_success Println Sleep _ stage interval
                 count fn w w1 H1).
Qed.

(** The loop ends on a call: what it returns is what some call of the
    operation returned, or what it was entered with. *)
Lemma retry_loop_ends_on_call :
  forall lg stage interval count (fn : Z -> cli.op W) fuel i err w,
    0 <= i ->
    cli.retry_loop Println Sleep lg stage interval count fn fuel i err w
    = (err, w)
    \/ exists n w1,
        i < n <= count
        /\ cli.retry_loop Println Sleep lg stage interval count fn fuel i
                          err w = fn n w1.
Proof.
  intros lg stage interval count fn fuel.
  induction fuel as [|fuel IH]; intros i err w Hi.
  - left. destruct err; simpl; [|reflexivity].
    now destruct (i <? count).
  - destruct err as [e|]; [|now left]. simpl.
    destruct (Z.ltb_spec i count) as [Hlt|Hge]; [|now left].
    right. destruct (fn (i + 1) _) as [err' w3] eqn:Hcall.
    destruct (IH (i + 1) err' w3 ltac:(lia)) as [Hsame | [n [w1 [Hn Heq]]]].
    + eexists (i + 1), _. split; [lia|]. now rewrite Hsame, Hcall.
    + exists n, w1. split; [lia | exact Heq].
Qed.

Lemma retry_func_ends_on_call :
  forall lg stage interval count (fn : Z -> cli.op W) w,
  exists n w1,
    1 <= n <= Z.max 1 count
    /\ cli.retry_func Println Sleep lg stage interval count fn w = fn n w1.
Proof.
  intros lg stage interval count fn w. unfold cli.retry_func. cbv zeta.
  change (0 + 1) with 1. destruct (fn 1 w) as [err w0] eqn:H1.
  destruct (retry_loop_ends_on_call lg stage interval count fn
              (Z.to_nat (count - 0)) 0 err w0 ltac:(lia))
    as [Hsame | [n [w1 [Hn Heq]]]].
  - exists 1, w. split; [lia|]. now rewrite Hsame.
  - exists n, w1. split; [lia | exact Heq].
Qed.

Lemma retry_func_never_nil :
  forall lg stage interval count (fn : Z -> cli.op W) w,
    (forall n w', fst (fn n w') <> None) ->
    fst (cli.retry_func Println Sleep lg stage interval count fn w) <> None.
Proof.
  intros lg stage interval count fn w Hfail.
  destruct (retry_func_ends_on_call lg stage interval count fn w)
    as [n [w1 [_ Heq]]].
  rewrite Heq. apply Hfail.
Qed.

(** X3.  The step ends on a call of the operation: the error and the world
    it returns are those of one call, made with an attempt number between
    1 and [max 1 count].  Nothing runs after the last attempt. *)
Theorem Retry_ends_on_call :
  forall lg stage interval count (fn : Z -> cli.op W) w,
  exists n w1,
    1 <= n <= Z.max 1 count
    /\ cli.retry_func Println Sleep lg stage interval count fn w = fn n w1.
Proof.
  intros lg stage interval count fn w.
  destruct (retry_func_ends_on_call lg stage interval count fn w)
    as [n [w1 [Hn Heq]]].
  exists n, w1. split; [exact Hn | exact Heq].
Qed.

(** X4.  An operation that fails whenever it is called makes the step
    fail; turned around, the step returns nil only if some call did. *)
Theorem Retry_fails_when_every_call_fails :
  forall lg stage interval count (fn : Z -> cli.op W) w,
    (forall n w', fst (fn n w') <> None) ->
    fst (cli.retry_func Println Sleep lg stage interval count fn w) <> None.
Proof.
  intros lg stage interval count fn w Hfail Hnil.
  apply (retry_func_never_nil lg stage interval count fn w Hfail).
  exact Hnil.
Qed.

Lemma retry_loop_no_label :
  forall (P1 P2 : cli.Entry -> list string -> W -> W) lg1 lg2 interval count
         (fn : Z -> cli.op W) fuel i err w,
    cli.retry_loop P1 Sleep lg1 "" interval count fn fuel i err w
    = cli.retry_loop P2 Sleep lg2 "" interval count fn fuel i err w.
Proof.
  intros P1 P2 lg1 lg2 interval count fn fuel.
  induction fuel as [|fuel IH]; intros i err w; [reflexivity|].
  destruct err as [e|]; [|reflexivity]. simpl.
  destruct (i <? count); [|reflexivity].
  destruct (fn (i + 1) (Sleep interval w)) as [err' w3]. apply IH.
Qed.

(** X5.  With an empty label the step never writes to the log: it runs the
    same with any logger in place of the chain's. *)
Theorem Retry_empty_label_never_logs :
  forall (P1 P2 : cli.Entry -> list string -> W -> W) lg1 lg2 interval count
         (fn : Z -> cli.op W) w,
    cli.retry_func P1 Sleep lg1 "" interval count fn w
    = cli.retry_func P2 Sleep lg2 "" interval count fn w.
Proof.
  intros P1 P2 lg1 lg2 interval count fn w. unfold cli.retry_func.
  cbv zeta. destruct (fn (0 + 1) w) as [err w0]. apply retry_loop_no_label.
Qed.

End RetryMore.

Lemma Retry_count_not_positive_witness :
  cli.retry_func Trace.Println Trace.Sleep Trace.lg0 "waiting" 5 (-3)
                 (Trace.failing "op" "boom") []
  = (Some (errorString "boom"), [Trace.Called "op" 1]).
Proof.
  apply (Retry_count_not_positive Trace.Println Trace.Sleep Trace.lg0
           "waiting" 5 (-3) (Trace.failing "op" "boom") []).
  lia.
Defined.

Lemma Retry_first_call_succeeds_witness :
  cli.retry_func Trace.Println Trace.Sleep Trace.lg0 "waiting" 5 10
                 (Trace.passing "op") []
  = (None, [Trace.Called "op" 1]).
Proof.
  apply (proj1 (Retry_first_call_succeeds Trace.Println Trace.Sleep
                  Trace.lg0 "waiting" 5 10 (Trace.passing "op") []
                  [Trace.Called "op" 1] eq_refl)).
Defined.

Lemma Retry_fails_when_every_call_fails_witness :
  fst (cli.retry_func Trace.Println Trace.Sleep Trace.lg0 "" 5 2
                      (Trace.failing "op" "boom") []) <> None.
Proof.
  apply (Retry_fails_when_every_call_fails Trace.Println Trace.Sleep
           Trace.lg0 "" 5 2 (Trace.failing "op" "boom") []).
  intros n w'. discriminate.
Defined.

(** ** Retry, on recorded runs *)

Lemma Sleep_between_attempts : forall lg stage interval w,
    Trace.Sleep interval
      (if String.eqb stage "" then w
       else Trace.Println lg [stage; "..."] w)
    = w ++ Trace.between_attempts lg stage interval.
Proof.
  intros lg stage interval w. unfold Trace.between_attempts, Trace.Sleep.
  destruct (String.eqb stage ""); [reflexivity|].
  unfold Trace.Println. now rewrite <- app_assoc.
Qed.

Lemma flat_map_through_map :
  forall (A B C : Type) (g : A -> B) (h : B -> list C) (l : list A),
    flat_map h (map g l) = flat_map (fun x => h (g x)) l.
Proof.
  intros A B C g h l. induction l as [|x l IH]; [reflexivity|].
  simpl. now rewrite IH.
Qed.

Lemma retry_loop_trace_failing :
  forall lg stage interval msg (k : nat) (i : Z) w,
    cli.retry_loop Trace.Println Trace.Sleep lg stage interval
                   (i + Z.of_nat k) (Trace.failing "op" msg) k i
                   (Some (errorString msg)) w
    = (Some (errorString msg),
       w ++ flat_map
              (fun j => Trace.between_attempts lg stage interval
                          ++ [Trace.Called "op" (i + Z.of_nat j)])
              (seq 1 k)).
Proof.
  intros lg stage interval msg k.
  induction k as [|k IH]; intros i w.
  - simpl. replace (i + 0) with i by lia. rewrite Z.ltb_irrefl.
    now rewrite app_nil_r.
  - cbn [cli.retry_loop].
    assert (Hlt : (i <? i + Z.of_nat (S k)) = true)
      by (apply Z.ltb_lt; lia).
    rewrite Hlt, Sleep_between_attempts.
    unfold Trace.failing at 1. cbv beta iota.
    replace (i + Z.of_nat (S k)) with ((i + 1) + Z.of_nat k) by lia.
    rewrite IH. f_equal.
    change (seq 1 (S k)) with (1%nat :: seq 2 k). cbn [flat_map].
    rewrite <- !app_assoc. f_equal. f_equal.
    replace (i + Z.of_nat 1) with (i + 1) by lia. cbn [app]. f_equal.
    rewrite <- (seq_shift k 1), flat_map_through_map.
    apply flat_map_ext. intros j. do 3 f_equal. lia.
Qed.

(** X6.  The whole run of the step on an operation that always fails,
    with [n] as [count]: the first call; then, [n] times, the label (when
    there is one), a pause of [interval], and a call.  The label is not
    logged before the first call, the pause is the same every time, and
    the attempt numbers handed over are 1, then 1, 2, ..., n. *)
Theorem Retry_run_always_failing :
  forall (n : nat) lg stage interval msg w,
    cli.retry_func Trace.Println Trace.Sleep lg stage interval (Z.of_nat n)
                   (Trace.failing "op" msg) w
    = (Some (errorString msg),
       w ++ Trace.Called "op" 1
         :: flat_map
              (fun j => Trace.between_attempts lg stage interval
                          ++ [Trace.Called "op" (Z.of_nat j)])
              (seq 1 n)).
Proof.
  intros n lg stage interval msg w. unfold cli.retry_func. cbv zeta.
  unfold Trace.failing at 1. cbv beta iota.
  replace (Z.to_nat (Z.of_nat n - 0)) with n by lia.
  change (Z.of_nat n) with (0 + Z.of_nat n) at 1.
  rewrite retry_loop_trace_failing. f_equal.
  rewrite <- app_assoc. reflexivity.
Qed.

Lemma retry_loop_recording_bound :
  forall lg stage interval g (k : nat) (i : Z) err w,
  exists j : nat,
    (j <= k)%nat
    /\ Trace.attempts "op"
         (snd (cli.retry_loop Trace.Println Trace.Sleep lg stage interval
                              (i + Z.of_nat k) (Trace.recording "op" g) k i
                              err w))
       = Trace.attempts "op" w ++ map (fun x => i + Z.of_nat x) (seq 1 j)
    /\ (fst (cli.retry_loop Trace.Println Trace.Sleep lg stage interval
                            (i + Z.of_nat k) (Trace.recording "op" g) k i
                            err w) = None
        \/ j = k).
Proof.
  intros lg stage interval g k.
  induction k as [|k IH]; intros i err w.
  - exists 0%nat. split; [lia|]. split; [|now right].
    simpl. destruct err; [|now rewrite app_nil_r].
    destruct (i <? i + 0); simpl; now rewrite app_nil_r.
  - destruct err as [e|].
    + cbn [cli.retry_loop].
      assert (Hlt : (i <? i + Z.of_nat (S k)) = true)
        by (apply Z.ltb_lt; lia).
      rewrite Hlt, Sleep_between_attempts.
      unfold Trace.recording at 1. cbv beta iota.
      replace (i + Z.of_nat (S k)) with ((i + 1) + Z.of_nat k) by lia.
      set (w2 := w ++ Trace.between_attempts lg stage interval).
      destruct (IH (i + 1) (g (i + 1) w2)
                   (w2 ++ [Trace.Called "op" (i + 1)]))
        as [j [Hj [Hatt Hend]]].
      exists (S j). split; [lia|]. split.
      * rewrite Hatt. unfold w2. rewrite !attempts_app.
        assert (Hbetween : Trace.attempts "op"
                             (Trace.between_attempts lg stage interval) = [])
          by (unfold Trace.between_attempts;
              destruct (String.eqb stage ""); reflexivity).
        rewrite Hbetween, app_nil_r. simpl Trace.attempts.
        rewrite <- app_assoc. f_equal.
        change (seq 1 (S j)) with (1%nat :: seq 2 j). cbn [map app].
        f_equal; try lia.
        rewrite <- (seq_shift j 1), map_map. apply map_ext. intros x. lia.
      * destruct Hend as [Hnil | ->]; [now left | now right].
    + exists 0%nat. split; [lia|]. simpl. split; [now rewrite app_nil_r|].
      now left.
Qed.

(** X7.  Whatever the operation decides from call to call, the step calls
    it at least once and at most [n + 1] times for [count = n], with the
    attempt numbers 1, then 1, 2, ... in order, and it reports an error
    only when all [n + 1] calls have been made. *)
Theorem Retry_calls_bounded :
  forall (n : nat) lg stage interval g,
  exists j : nat,
    (j <= n)%nat
    /\ Trace.attempts "op"
         (snd (cli.retry_func Trace.Println Trace.Sleep lg stage interval
                              (Z.of_nat n) (Trace.recording "op" g) []))
       = 1 :: map Z.of_nat (seq 1 j)
    /\ (fst (cli.retry_func Trace.Println Trace.Sleep lg stage interval
                            (Z.of_nat n) (Trace.recording "op" g) [])
        = None
        \/ j = n).
Proof.
  intros n lg stage interval g. unfold cli.retry_func. cbv zeta.
  unfold Trace.recording at 1 3. cbv beta iota.
  replace (Z.to_nat (Z.of_nat n - 0)) with n by lia.
  change (Z.of_nat n) with (0 + Z.of_nat n).
  destruct (retry_loop_recording_bound lg stage interval g n 0
              (g (0 + 1) []) ([] ++ [Trace.Called "op" (0 + 1)]))
    as [j [Hj [Hatt Hend]]].
  exists j. split; [exact Hj|]. split; [|exact Hend].
  rewrite Hatt. reflexivity.
Qed.

(** ** Chains that grow *)

Section ChainMore.
Context {W any : Type}.
Variable Println : cli.Entry -> list string -> W -> W.
Variable Sleep : Z -> W -> W.
Variable Sprintf : string -> list any -> string.

Lemma Exec_loop_failure_app :
  forall lg (pre post : list (cli.cFunc W)) last w e w',
    cli.Exec_loop Println lg pre last w = (Some e, w') ->
    cli.Exec_loop Println lg (pre ++ post) last w = (Some e, w').
Proof.
  intros lg pre post. induction pre as [|c pre IH]; intros last w e w' H.
  - discriminate.
  - simpl in *. destruct (cli.f c) as [fn|].
    + destruct (fn w) as [[err|] w1]; [exact H | now apply IH].
    + destruct (String.eqb (cli.s c) ""); now apply IH.
Qed.

Lemma Exec_loop_nil_inv :
  forall lg (fs : list (cli.cFunc W)) last w w1,
    cli.Exec_loop Println lg fs last w = (None, w1) ->
    cli.succeed_all Println lg fs w = Some w1.
Proof.
  intros lg fs. induction fs as [|c fs IH]; intros last w w1 H.
  - simpl in *. now inversion H.
  - simpl in *. destruct (cli.f c) as [fn|].
    + destruct (fn w) as [[err|] w2]; [|now apply IH with last].
      destruct (String.eqb last ""); discriminate.
    + destruct (String.eqb (cli.s c) ""); eapply IH; exact H.
Qed.

(** X8.  A failure stays what it is when the chain grows: if [Exec] on a
    chain returns an error, then after any further method call on that
    chain [Exec] returns the same error in the same world.  Steps added
    behind a failing one change nothing. *)
Theorem Exec_failure_unchanged_by_growth :
  forall (a : cli.ActiveCommandChain W) (m : cli.method W any) w0 w e w',
    cli.Exec Println a w = (Some e, w') ->
    cli.Exec Println
             (fst (fst (cli.invoke Println Sleep Sprintf m (a, w0)))) w
    = (Some e, w').
Proof.
  intros a m w0 w e w' H. unfold cli.Exec in *.
  destruct m; simpl; try (now apply Exec_loop_failure_app).
  destruct (cli.Exec Println a w0). exact H.
Qed.

(** X9.  A chain that runs through, with one more step: after [Add(fn)]
    [Exec] does what it did and then runs [fn], whose error it reports
    under the last label the chain entered, if it entered one; after
    [Stage(label)] it does what it did and logs the label. *)
Theorem Exec_after_one_more_step :
  forall (a : cli.ActiveCommandChain W) (fn : cli.op W) label w w1,
    cli.Exec Println a w = (None, w1) ->
    cli.Exec Println (cli.Add (Some fn) a) w
    = (match fn w1 with
       | (None, w2) => (None, w2)
       | (Some e, w2) =>
           (Some (if String.eqb
                       (cli.stage_after (cli.funcs a) (cli.lastStage a)) ""
                  then e
                  else cli.Errorf_at
                         (cli.stage_after (cli.funcs a) (cli.lastStage a))
                         e),
            w2)
       end)
    /\ cli.Exec Println (cli.Stage label a) w
       = (None,
          if String.eqb label "" then w1
          else Println (cli.log a) [label; "..."] w1).
Proof.
  intros a fn label w w1 H. unfold cli.Exec in *.
  apply Exec_loop_nil_inv in H. simpl. split.
  - rewrite (Exec_loop_app Println _ _ _ (cli.lastStage a) _ _ H). simpl.
    destruct (fn w1) as [[e|] w2]; [|reflexivity].
    now destruct (String.eqb _ "").
  - rewrite (Exec_loop_app Println _ _ _ (cli.lastStage a) _ _ H). simpl.
    now destruct (String.eqb label "").
Qed.

Lemma invoke_keeps_invariant :
  forall (lg : cli.Entry) (m : cli.method W any)
         (st : cli.ActiveCommandChain W * W),
    cli.built Println Sleep Sprintf (fst st)
    /\ cli.lastStage (fst st) = ""
    /\ cli.log (fst st) = lg
    /\ Forall (fun c => cli.f c = None \/ cli.s c = "")
              (cli.funcs (fst st)) ->
    let st' := fst (cli.invoke Println Sleep Sprintf m st) in
    cli.built Println Sleep Sprintf (fst st')
    /\ cli.lastStage (fst st') = ""
    /\ cli.log (fst st') = lg
    /\ Forall (fun c => cli.f c = None \/ cli.s c = "")
              (cli.funcs (fst st')).
Proof.
  intros lg m [a w] [Hb [Hlast [Hlog Hsteps]]]. cbn [fst] in *.
  destruct m as [fn | label | format args | stage interval count fn | ].
  - cbn. repeat split; [now constructor | assumption | assumption |].
    apply Forall_app. split; [exact Hsteps|].
    constructor; [now right | constructor].
  - cbn. repeat split; [now constructor | assumption | assumption |].
    apply Forall_app. split; [exact Hsteps|].
    constructor; [now left | constructor].
  - cbn. repeat split; [now constructor | assumption | assumption |].
    apply Forall_app. split; [exact Hsteps|].
    constructor; [now left | constructor].
  - cbn. repeat split; [now constructor | assumption | assumption |].
    apply Forall_app. split; [exact Hsteps|].
    constructor; [now right | constructor].
  - cbn [cli.invoke]. destruct (cli.Exec Println a w) as [err w'].
    cbn [fst]. now repeat split.
Qed.

(** X10.  What holds of every chain a caller can hold, that is the chain
    after any sequence of method calls on [Init] of a named chain [n], in
    any world: it is a built chain, [lastStage] is empty (only the copy
    inside [Exec] is ever set), the logger is the one of [n] (the entry
    stored in [n] if there is one, else the standard logger with the
    field "context" set to the name of [n]), and no step carries both a
    function and a label. *)
Theorem built_chain_invariant :
  forall (n : cli.namedCommandChain) (ms : list (cli.method W any)) (w : W),
    let a := fst (cli.invoke_all Println Sleep Sprintf ms (cli.Init n, w)) in
    cli.built Println Sleep Sprintf a
    /\ cli.lastStage a = ""
    /\ cli.log a = match cli.nlog n with
                   | None => [("context", cli.name n)]
                   | Some l => l
                   end
    /\ Forall (fun c => cli.f c = None \/ cli.s c = "") (cli.funcs a).
Proof.
  intros n ms w. cbv zeta. unfold cli.invoke_all.
  assert (Hinit : cli.built Println Sleep Sprintf
                            (fst (cli.Init (W := W) n, w))
                  /\ cli.lastStage (fst (cli.Init (W := W) n, w)) = ""
                  /\ cli.log (fst (cli.Init (W := W) n, w))
                     = match cli.nlog n with
                       | None => [("context", cli.name n)]
                       | Some l => l
                       end
                  /\ Forall (fun c => cli.f c = None \/ cli.s c = "")
                            (cli.funcs (fst (cli.Init (W := W) n, w)))).
  { cbn [fst]. repeat split; [constructor | constructor]. }
  revert Hinit. generalize (cli.Init (W := W) n, w).
  induction ms as [|m ms IH]; intros st Hst.
  - exact Hst.
  - cbn [fold_left]. apply IH.
    now apply invoke_keeps_invariant.
Qed.

End ChainMore.

Lemma Exec_failure_unchanged_by_growth_witness :
  cli.Exec Trace.Println
           (cli.Add (Some (Trace.passing "d" 0)) Trace.chain_abc) []
  = (Some (wrapError "error at 'X': boom" (errorString "boom")),
     [ Trace.Printed Trace.lg0 ["X"; "..."];
       Trace.Called "a" 0; Trace.Called "b" 0 ]).
Proof.
  apply (Exec_failure_unchanged_by_growth
           Trace.Println Trace.Sleep Trace.Sprintf Trace.chain_abc
           (cli.callAdd (Some (Trace.passing "d" 0))) [] []).
  reflexivity.
Defined.

Lemma Exec_after_one_more_step_witness :
  cli.Exec Trace.Println
           (cli.Add (Some (Trace.failing "d" "late" 0)) Trace.chain_ok) []
  = (Some (wrapError "error at 'X': late" (errorString "late")),
     [ Trace.Printed Trace.lg0 ["X"; "..."];
       Trace.Called "a" 0; Trace.Called "c" 0; Trace.Called "d" 0 ]).
Proof.
  apply (proj1 (Exec_after_one_more_step
                  Trace.Println Trace.chain_ok (Trace.failing "d" "late" 0)
                  "" []
                  [ Trace.Printed Trace.lg0 ["X"; "..."];
                    Trace.Called "a" 0; Trace.Called "c" 0 ]
                  eq_refl)).
Defined.

Lemma built_chain_invariant_witness :
  Trace.chain_abc
  = fst (cli.invoke_all Trace.Println Trace.Sleep Trace.Sprintf
           [ cli.callStage "X";
             cli.callAdd (Some (Trace.passing "a" 0));
             cli.callExec;
             cli.callAdd (Some (Trace.failing "b" "boom" 0));
             cli.callAdd (Some (Trace.passing "c" 0)) ]
           (cli.Init (cli.New "test"), []))
  /\ cli.lastStage Trace.chain_abc = ""
  /\ cli.log Trace.chain_abc = [("context", "test")]
  /\ Forall (fun c => cli.f c = None \/ cli.s c = "")
            (cli.funcs Trace.chain_abc).
Proof.
  split; [reflexivity|].
  exact (proj2 (built_chain_invariant
                  Trace.Println Trace.Sleep Trace.Sprintf
                  (cli.New "test")
                  [ cli.callStage "X";
                    cli.callAdd (Some (Trace.passing "a" 0));
                    cli.callExec;
                    cli.callAdd (Some (Trace.failing "b" "boom" 0));
                    cli.callAdd (Some (Trace.passing "c" 0)) ]
                  [])).
Defined.

(** ** Runes and white space *)

Lemma asciiSpace_small : forall c, asciiSpace c = true -> byteval c < 128.
Proof.
  intros c. unfold asciiSpace, byteval. cbv zeta.
  destruct (Nat.leb_spec 9 (nat_of_ascii c));
    destruct (Nat.leb_spec (nat_of_ascii c) 13);
    destruct (Nat.eqb_spec (nat_of_ascii c) 32); simpl; intros Hsp;
    try discriminate; lia.
Qed.

Lemma IsSpace_asciiSpace : forall c,
    byteval c < 128 -> IsSpace (byteval c) = asciiSpace c.
Proof.
  intros c Hsmall. unfold IsSpace, asciiSpace. unfold byteval in *.
  cbv zeta. set (n := nat_of_ascii c) in *.
  destruct (Z.leb_spec (Z.of_nat n) 255); [|lia].
  destruct (Nat.leb_spec 9 n); destruct (Nat.leb_spec n 13);
    destruct (Nat.eqb_spec n 32);
    destruct (Z.leb_spec 9 (Z.of_nat n));
    destruct (Z.leb_spec (Z.of_nat n) 13);
    destruct (Z.eqb_spec (Z.of_nat n) 32);
    destruct (Z.eqb_spec (Z.of_nat n) 133);
    destruct (Z.eqb_spec (Z.of_nat n) 160);
    simpl; try reflexivity; lia.
Qed.

Lemma decode_ascii : forall c rest,
    byteval c < 128 -> DecodeRuneInString (String c rest) = (byteval c, 1%nat).
Proof.
  intros c rest H. unfold DecodeRuneInString.
  destruct (Z.ltb_spec (byteval c) 128); [reflexivity | lia].
Qed.

Lemma leadInfo_lo : forall s0 sz lo hi,
    leadInfo s0 = Some (sz, lo, hi) -> 128 <= lo.
Proof.
  intros s0 sz lo hi. unfold leadInfo.
  repeat match goal with
         | |- context [if ?b then _ else _] => destruct b
         end;
    intros Hsome; inversion Hsome; lia.
Qed.

Lemma continuation_later : forall lo hi s v r,
    128 <= lo -> continuation lo hi s = Some (v, r) ->
    exists c, s = String c r /\ v = byteval c /\ 128 <= byteval c.
Proof.
  intros lo hi s v r Hlo. destruct s as [|c rest]; [discriminate|]. simpl.
  destruct (Z.ltb_spec (byteval c) lo); destruct (Z.ltb_spec hi (byteval c));
    simpl; intros Hsome; inversion Hsome; subst.
  exists c. repeat split. lia.
Qed.

Lemma decode_later : forall c rest r w,
    DecodeRuneInString (String c rest) = (r, w) ->
    later_bytes (w - 1) rest.
Proof.
  intros c rest r w. unfold DecodeRuneInString.
  destruct (byteval c <? 128); [intros H; inversion H; exact I|].
  destruct (leadInfo (byteval c)) as [[[sz lo] hi]|] eqn:Hlead;
    [|intros H; inversion H; exact I].
  pose proof (leadInfo_lo _ _ _ _ Hlead) as Hlo.
  destruct (String.length (String c rest) <? sz)%nat;
    [intros H; inversion H; exact I|].
  destruct (continuation lo hi rest) as [[s1 r1]|] eqn:H1;
    [|intros H; inversion H; exact I].
  destruct (continuation_later _ _ _ _ _ Hlo H1) as [c1 [-> [-> Hc1]]].
  destruct (sz <=? 2)%nat; [intros H; inversion H; simpl; auto|].
  destruct (continuation 128 191 r1) as [[s2 r2]|] eqn:H2;
    [|intros H; inversion H; exact I].
  destruct (continuation_later 128 191 _ _ _ ltac:(lia) H2) as [c2 [-> [-> Hc2]]].
  destruct (sz <=? 3)%nat; [intros H; inversion H; simpl; auto|].
  destruct (continuation 128 191 r2) as [[s3 r3]|] eqn:H3;
    [|intros H; inversion H; exact I].
  destruct (continuation_later 128 191 _ _ _ ltac:(lia) H3) as [c3 [-> [-> Hc3]]].
  intros H; inversion H; simpl; auto.
Qed.

Lemma decode_not_space : forall c rest r w,
    DecodeRuneInString (String c rest) = (r, w) ->
    IsSpace r = false -> asciiSpace c = false.
Proof.
  intros c rest r w Hdec Hr. destruct (asciiSpace c) eqn:Hc; [|reflexivity].
  pose proof (asciiSpace_small c Hc) as Hsmall.
  rewrite (decode_ascii c rest Hsmall) in Hdec. inversion Hdec; subst.
  rewrite (IsSpace_asciiSpace c Hsmall) in Hr. congruence.
Qed.

Lemma later_not_space : forall c, 128 <= byteval c -> asciiSpace c = false.
Proof.
  intros c H. destruct (asciiSpace c) eqn:Hc; [|reflexivity].
  pose proof (asciiSpace_small c Hc). lia.
Qed.

(** ** The kubernetes runtime: start, stop and containers *)

Lemma prefix_empty : forall str, String.prefix "" str = true.
Proof. now destruct str. Qed.

Lemma prefix_newline : forall c rest,
    String.prefix kubernetes.newline_str (String c rest)
    = Ascii.eqb c newline.
Proof.
  intros c rest.
  change (String.prefix kubernetes.newline_str (String c rest))
    with (match ascii_dec newline c with
          | left _ => String.prefix "" rest
          | right _ => false
          end).
  destruct (ascii_dec newline c) as [Heq|Hne].
  - subst c. now rewrite prefix_empty.
  - symmetry. apply Ascii.eqb_neq. intros Heq. apply Hne. now subst c.
Qed.

Lemma replace_newline_step : forall c rest,
    replace_from kubernetes.newline_str " " 0 (String c rest)
    = String (if Ascii.eqb c newline then " "%char else c)
             (replace_from kubernetes.newline_str " " 0 rest).
Proof.
  intros c rest. cbn [replace_from]. rewrite prefix_newline.
  now destruct (Ascii.eqb c newline).
Qed.

Lemma later_not_newline : forall c,
    128 <= byteval c -> Ascii.eqb c newline = false.
Proof.
  intros c H. destruct (Ascii.eqb_spec c newline) as [->|]; [|reflexivity].
  compute in H. now elim H.
Qed.

Lemma length_replace_newline : forall s,
    String.length (replace_from kubernetes.newline_str " " 0 s) = String.length s.
Proof.
  induction s as [|c s IH]; [reflexivity|].
  rewrite replace_newline_step. simpl. now rewrite IH.
Qed.

Lemma continuation_replace_newline : forall lo hi s,
    128 <= lo ->
    continuation lo hi (replace_from kubernetes.newline_str " " 0 s)
    = match continuation lo hi s with
      | Some (v, r) => Some (v, replace_from kubernetes.newline_str " " 0 r)
      | None => None
      end.
Proof.
  intros lo hi s Hlo. destruct s as [|c rest]; [reflexivity|].
  rewrite replace_newline_step. cbn [continuation].
  destruct (Ascii.eqb_spec c newline) as [->|Hne];
    [|now destruct ((byteval c <? lo) || (hi <? byteval c))].
  change (byteval " ") with 32. change (byteval newline) with 10.
  destruct (Z.ltb_spec 32 lo); [|lia]. destruct (Z.ltb_spec 10 lo); [|lia].
  reflexivity.
Qed.

Lemma decode_replace_newline : forall c rest,
    DecodeRuneInString (String c (replace_from kubernetes.newline_str " " 0 rest))
    = DecodeRuneInString (String c rest).
Proof.
  intros c rest. unfold DecodeRuneInString.
  destruct (byteval c <? 128); [reflexivity|].
  destruct (leadInfo (byteval c)) as [[[sz lo] hi]|] eqn:Hlead;
    [|reflexivity].
  pose proof (leadInfo_lo _ _ _ _ Hlead) as Hlo.
  cbn [String.length]. rewrite length_replace_newline.
  destruct (S (String.length rest) <? sz)%nat; [reflexivity|].
  rewrite (continuation_replace_newline lo hi rest Hlo).
  destruct (continuation lo hi rest) as [[s1 r1]|]; [|reflexivity].
  destruct (sz <=? 2)%nat; [reflexivity|].
  rewrite (continuation_replace_newline 128 191 r1 ltac:(lia)).
  destruct (continuation 128 191 r1) as [[s2 r2]|]; [|reflexivity].
  destruct (sz <=? 3)%nat; [reflexivity|].
  rewrite (continuation_replace_newline 128 191 r2 ltac:(lia)).
  now destruct (continuation 128 191 r2) as [[s3 r3]|].
Qed.

Lemma fieldsFunc_replace_newline : forall s pending cur,
    later_bytes pending s ->
    fieldsFunc_from pending cur (replace_from kubernetes.newline_str " " 0 s)
    = fieldsFunc_from pending cur s.
Proof.
  induction s as [|c s IH]; intros pending cur Hlater; [reflexivity|].
  rewrite replace_newline_step. destruct pending as [|k].
  - destruct (Ascii.eqb_spec c newline) as [->|Hne].
    + cbn [fieldsFunc_from].
      rewrite (decode_ascii " " _ ltac:(reflexivity)).
      rewrite (decode_ascii newline _ ltac:(reflexivity)).
      change (IsSpace (byteval " ")) with true.
      change (IsSpace (byteval newline)) with true. cbv iota.
      change (1 - 1)%nat with 0%nat.
      destruct cur; now rewrite (IH 0%nat None I).
    + cbn [fieldsFunc_from]. rewrite decode_replace_newline.
      destruct (DecodeRuneInString (String c s)) as [r width] eqn:Hdec.
      pose proof (decode_later c s r width Hdec) as Hnext.
      destruct (IsSpace r); destruct cur; now rewrite IH.
  - destruct Hlater as [Hc Hlater]. rewrite (later_not_newline c Hc).
    cbn [fieldsFunc_from]. destruct cur; now rewrite IH.
Qed.

Lemma fields_replace_newline : forall s cur,
    fields_from cur (replace_from kubernetes.newline_str " " 0 s) = fields_from cur s.
Proof.
  induction s as [|c s IH]; intros cur; [reflexivity|].
  rewrite replace_newline_step.
  destruct (Ascii.eqb_spec c newline) as [->|Hne].
  - cbn [fields_from].
    change (asciiSpace " ") with true. change (asciiSpace newline) with true.
    cbv iota. destruct cur; now rewrite IH.
  - cbn [fields_from]. destruct (asciiSpace c); destruct cur;
      now rewrite IH.
Qed.

Lemma hasNonASCII_replace_newline : forall s,
    hasNonASCII (replace_from kubernetes.newline_str " " 0 s) = hasNonASCII s.
Proof.
  induction s as [|c s IH]; [reflexivity|].
  rewrite replace_newline_step. cbn [hasNonASCII]. rewrite IH.
  destruct (Ascii.eqb_spec c newline) as [->|Hne]; reflexivity.
Qed.

(** Turning line feeds into spaces does not change the fields. *)
Lemma Fields_ReplaceAll_newline : forall ids,
    Fields (ReplaceAll ids kubernetes.newline_str " ") = Fields ids.
Proof.
  intros ids. unfold ReplaceAll, Fields.
  change (String.eqb kubernetes.newline_str " ") with false.
  change (String.eqb kubernetes.newline_str "") with false. cbv iota.
  rewrite hasNonASCII_replace_newline.
  destruct (hasNonASCII ids).
  - now apply fieldsFunc_replace_newline.
  - apply fields_replace_newline.
Qed.

Lemma ReplaceAll_newline_not_empty : forall ids,
    ids <> "" -> ReplaceAll ids kubernetes.newline_str " " <> "".
Proof.
  intros ids Hne. destruct ids as [|c ids]; [contradiction|].
  unfold ReplaceAll.
  change (String.eqb kubernetes.newline_str " ") with false.
  change (String.eqb kubernetes.newline_str "") with false. cbv iota.
  cbn [replace_from]. rewrite prefix_newline.
  destruct (Ascii.eqb c newline); discriminate.
Qed.

Section KubeMore.
Context {W : Type}.
Variable Println : cli.Entry -> list string -> W -> W.
Variable Sleep : Z -> W -> W.
Variable guest_Run : list string -> W -> option error * W.
Variable guest_RunQuiet : list string -> W -> option error * W.
Variable guest_RunOutput : list string -> W -> (string * option error) * W.
Variable guest_Get : string -> W -> string * W.
Variable guest_Set : string -> string -> W -> option error * W.
Variable ContainerRuntimeKey containerd_Name docker_Name : string.
Variable json_Unmarshal :
  string -> kubernetes.Kubernetes -> kubernetes.Kubernetes.
Variable json_Marshal : kubernetes.Kubernetes -> string * option error.
Variable provisionKubeconfig : W -> option error * W.

Let lg : cli.Entry := cli.Logger kubernetes.CommandChain.
Let Start : W -> option error * W :=
  kubernetes.Start Println Sleep guest_Run guest_RunQuiet
                   provisionKubeconfig.
Let Stop : W -> option error * W :=
  kubernetes.Stop Println guest_Run guest_RunOutput guest_Get
                  ContainerRuntimeKey containerd_Name docker_Name.
Let stopAllContainers : W -> option error * W :=
  kubernetes.stopAllContainers guest_Run guest_RunOutput guest_Get
    ContainerRuntimeKey containerd_Name docker_Name.
Let deleteAllContainers : W -> option error * W :=
  kubernetes.deleteAllContainers guest_Run guest_RunOutput guest_Get
    ContainerRuntimeKey containerd_Name docker_Name.


(** X12.  [Stop] logs "stopping" and runs [k3s-killall.sh]; if that fails
    with [e], [Stop] returns the error with the message
    ["error at 'stopping': " ++ e.Error()] that wraps [e], and the
    containers are left alone; otherwise [Stop] returns what
    [stopAllContainers] returns from there, an error [e] of it being
    wrapped under the same message. *)
Theorem Stop_runs : forall w,
    Stop w
    = match guest_Run ["k3s-killall.sh"] (Println lg ["stopping"; "..."] w)
      with
      | (Some e, w1) =>
          (Some (wrapError ("error at 'stopping': " +++ Error e) e), w1)
      | (None, w1) =>
          match stopAllContainers w1 with
          | (Some e, w2) =>
              (Some (wrapError ("error at 'stopping': " +++ Error e) e), w2)
          | (None, w2) => (None, w2)
          end
      end.
Proof.
  intros w. unfold Stop, kubernetes.Stop, cli.Exec.
  cbn [cli.Exec_loop cli.funcs cli.log cli.lastStage cli.Init cli.Stage
       cli.Add app cli.f cli.s String.eqb Ascii.eqb Bool.eqb].
  fold lg. destruct (guest_Run ["k3s-killall.sh"] _) as [[e|] w1];
    [reflexivity|].
  fold stopAllContainers. now destruct (stopAllContainers w1) as [[e|] w2].
Qed.

(** X13.  When the runtime stored on the guest is neither containerd nor
    docker, [stopAllContainers] and [deleteAllContainers] return nil
    having only read the runtime: no command runs.  When the listing of
    containers comes back empty, with or without an error, they return nil
    and no kill or rm command runs: for containerd the listing is
    [sudo nerdctl -n k8s.io ps -q], for docker it is [sudo sh -c] with
    [docker ps --format '{{.Names}}'| grep "k8s_"]. *)
Theorem no_containers_nothing_to_do : forall w rt w1,
    guest_Get ContainerRuntimeKey w = (rt, w1) ->
    (String.eqb rt containerd_Name = false ->
     String.eqb rt docker_Name = false ->
     stopAllContainers w = (None, w1) /\ deleteAllContainers w = (None, w1))
    /\ (forall err w2,
           String.eqb rt containerd_Name = true ->
           guest_RunOutput ["sudo"; "nerdctl"; "-n"; "k8s.io"; "ps"; "-q"]
                           w1 = (("", err), w2) ->
           stopAllContainers w = (None, w2)
           /\ deleteAllContainers w = (None, w2))
    /\ (forall err w2,
           String.eqb rt containerd_Name = false ->
           String.eqb rt docker_Name = true ->
           guest_RunOutput
             ["sudo"; "sh"; "-c";
              "docker ps --format '{{.Names}}'| grep "
                +++ String kubernetes.dquote
                      ("k8s_" +++ String kubernetes.dquote "")]
             w1 = (("", err), w2) ->
           stopAllContainers w = (None, w2)
           /\ deleteAllContainers w = (None, w2)).
Proof.
  intros w rt w1 Hget.
  unfold stopAllContainers, deleteAllContainers,
    kubernetes.stopAllContainers, kubernetes.deleteAllContainers,
    kubernetes.onAllContainers, kubernetes.runningContainerIDs,
    kubernetes.runtime, kubernetes.listContainerIDs, kubernetes.bind,
    kubernetes.ret.
  rewrite Hget. split; [|split].
  - intros Hc Hd. rewrite Hc, Hd. now split.
  - intros err w2 Hc Hls. rewrite Hc, Hls. now split.
  - intros err w2 Hc Hd Hls. rewrite Hc, Hd, Hls. now split.
Qed.

(** X14.  With containerd as the runtime and a listing that is not empty,
    [stopAllContainers] runs, through [sudo sh -c], the one command
    [nerdctl -n k8s.io kill] followed by the ids, which are the fields of
    the listing, joined by single spaces; [deleteAllContainers] does the
    same with [rm -f].  An error of the listing command is not looked at.
    What they return is what that command returns. *)
Theorem containers_command : forall w w1 ids err w2 w3,
    guest_Get ContainerRuntimeKey w = (containerd_Name, w1) ->
    guest_RunOutput ["sudo"; "nerdctl"; "-n"; "k8s.io"; "ps"; "-q"] w1
    = ((ids, err), w2) ->
    ids <> "" ->
    guest_Get ContainerRuntimeKey w2 = (containerd_Name, w3) ->
    stopAllContainers w
    = guest_Run ["sudo"; "sh"; "-c";
                 Join (["nerdctl"; "-n"; "k8s.io"; "kill"] ++ Fields ids)
                      " "] w3
    /\ deleteAllContainers w
       = guest_Run ["sudo"; "sh"; "-c";
                    Join (["nerdctl"; "-n"; "k8s.io"; "rm"; "-f"]
                            ++ Fields ids) " "] w3.
Proof.
  intros w w1 ids err w2 w3 Hget Hls Hids Hget2.
  unfold stopAllContainers, deleteAllContainers,
    kubernetes.stopAllContainers, kubernetes.deleteAllContainers,
    kubernetes.onAllContainers, kubernetes.runningContainerIDs,
    kubernetes.runtime, kubernetes.listContainerIDs, kubernetes.bind,
    kubernetes.ret.
  rewrite Hget, String.eqb_refl, Hls. cbn [fst].
  destruct (String.eqb_spec ids ""); [contradiction|].
  destruct (String.eqb_spec (ReplaceAll ids kubernetes.newline_str " ") "")
    as [Hempty|_];
    [now elim (ReplaceAll_newline_not_empty ids Hids)|].
  rewrite Hget2, String.eqb_refl, Fields_ReplaceAll_newline. now split.
Qed.

(** X15.  What [setConfig] stores [config] reads back: if the
    configuration encodes to a non-empty [b] that decodes to it, and the
    guest gives back under the key what was set, then [setConfig] returns
    nil and [config] then returns that configuration.  With nothing under
    the key [config] returns the default version without decoding.  An
    encoding error comes back wrapped and nothing is set on the guest. *)
Theorem config_round_trip : forall conf w,
    (forall b w1 w2,
        json_Marshal conf = (b, None) ->
        b <> "" ->
        json_Unmarshal b {| kubernetes.Enabled := false;
                            kubernetes.Version := kubernetes.DefaultVersion;
                            kubernetes.Ingress := false |} = conf ->
        guest_Set kubernetes.configKey b w = (None, w1) ->
        guest_Get kubernetes.configKey w1 = (b, w2) ->
        kubernetes.setConfig guest_Set json_Marshal conf w = (None, w1)
        /\ kubernetes.config guest_Get json_Unmarshal w1 = (conf, w2))
    /\ (forall w1,
           guest_Get kubernetes.configKey w = ("", w1) ->
           kubernetes.config guest_Get json_Unmarshal w
           = ({| kubernetes.Enabled := false;
                 kubernetes.Version := kubernetes.DefaultVersion;
                 kubernetes.Ingress := false |}, w1))
    /\ (forall b err,
           json_Marshal conf = (b, Some err) ->
           kubernetes.setConfig guest_Set json_Marshal conf w
           = (Some (wrapError
                      ("error encoding kubernetes config to json: "
                         +++ Error err) err), w)).
Proof.
  intros conf w. unfold kubernetes.setConfig, kubernetes.config,
    kubernetes.bind, kubernetes.ret.
  split; [|split].
  - intros b w1 w2 Hm Hb Hu Hset Hget. rewrite Hm, Hset, Hget.
    destruct (String.eqb_spec b ""); [contradiction|]. simpl.
    now rewrite Hu.
  - intros w1 Hget. now rewrite Hget.
  - intros b err Hm. now rewrite Hm.
Qed.

(** X16.  [isVersionInstalled] is false whenever [k3s --version] fails,
    whatever it printed; when the command succeeds an empty version counts
    as installed, since every output contains the empty string. *)
Theorem isVersionInstalled_edges : forall version w out w1,
    (forall err,
        guest_RunOutput ["k3s"; "--version"] w = ((out, Some err), w1) ->
        kubernetes.isVersionInstalled guest_RunOutput version w
        = (false, w1))
    /\ (guest_RunOutput ["k3s"; "--version"] w = ((out, None), w1) ->
        kubernetes.isVersionInstalled guest_RunOutput "" w = (true, w1)).
Proof.
  intros version w out w1.
  unfold kubernetes.isVersionInstalled, kubernetes.bind, kubernetes.ret.
  split.
  - intros err Hrun. now rewrite Hrun.
  - intros Hrun. rewrite Hrun. simpl. unfold kubernetes.Contains.
    destruct out; reflexivity.
Qed.

End KubeMore.


Lemma Stop_runs_witness :
  kubernetes.Stop Trace.Println Trace.guest_fail (Trace.guest_lists "")
    (Trace.guest_says "containerd") "runtime" "containerd" "docker" []
  = (Some (wrapError "error at 'stopping': exit status 1"
                     (errorString "exit status 1")),
     [ Trace.Printed (cli.Logger kubernetes.CommandChain)
                     ["stopping"; "..."];
       Trace.Ran ["k3s-killall.sh"] ]).
Proof.
  exact (Stop_runs Trace.Println Trace.guest_fail (Trace.guest_lists "")
                   (Trace.guest_says "containerd") "runtime" "containerd"
                   "docker" []).
Defined.

Lemma no_containers_nothing_to_do_witness :
  (kubernetes.stopAllContainers Trace.guest_ok (Trace.guest_lists "")
     (Trace.guest_says "podman") "runtime" "containerd" "docker" []
   = (None, [])
   /\ kubernetes.deleteAllContainers Trace.guest_ok (Trace.guest_lists "")
        (Trace.guest_says "podman") "runtime" "containerd" "docker" []
      = (None, []))
  /\ (kubernetes.stopAllContainers Trace.guest_ok (Trace.guest_lists "")
        (Trace.guest_says "docker") "runtime" "containerd" "docker" []
      = (None,
         [ Trace.Ran ["sudo"; "sh"; "-c";
                      "docker ps --format '{{.Names}}'| grep "
                        +++ String kubernetes.dquote
                              ("k8s_" +++ String kubernetes.dquote "")] ])
      /\ kubernetes.deleteAllContainers Trace.guest_ok
           (Trace.guest_lists "")
           (Trace.guest_says "docker") "runtime" "containerd" "docker" []
         = (None,
            [ Trace.Ran ["sudo"; "sh"; "-c";
                         "docker ps --format '{{.Names}}'| grep "
                           +++ String kubernetes.dquote
                                 ("k8s_" +++ String kubernetes.dquote "")] ])).
Proof.
  split.
  - apply (proj1 (no_containers_nothing_to_do
                    Trace.guest_ok (Trace.guest_lists "")
                    (Trace.guest_says "podman") "runtime" "containerd"
                    "docker" [] "podman" [] eq_refl));
      reflexivity.
  - apply (proj2 (proj2 (no_containers_nothing_to_do
                           Trace.guest_ok (Trace.guest_lists "")
                           (Trace.guest_says "docker") "runtime"
                           "containerd" "docker" [] "docker" [] eq_refl))
                 None);
      reflexivity.
Defined.

Lemma containers_command_witness :
  kubernetes.stopAllContainers Trace.guest_ok
    (Trace.guest_lists ("a1" +++ String newline "b2"))
    (Trace.guest_says "containerd") "runtime" "containerd" "docker" []
  = (None,
     [ Trace.Ran ["sudo"; "nerdctl"; "-n"; "k8s.io"; "ps"; "-q"];
       Trace.Ran ["sudo"; "sh"; "-c"; "nerdctl -n k8s.io kill a1 b2"] ]).
Proof.
  apply (proj1 (containers_command
                  Trace.guest_ok
                  (Trace.guest_lists ("a1" +++ String newline "b2"))
                  (Trace.guest_says "containerd") "runtime" "containerd"
                  "docker" [] [] ("a1" +++ String newline "b2") None
                  [ Trace.Ran ["sudo"; "nerdctl"; "-n"; "k8s.io"; "ps"; "-q"] ]
                  [ Trace.Ran ["sudo"; "nerdctl"; "-n"; "k8s.io"; "ps"; "-q"] ]
                  eq_refl eq_refl ltac:(discriminate) eq_refl)).
Defined.

Lemma config_round_trip_witness :
  kubernetes.setConfig Trace.guest_set Trace.encode_version
    {| kubernetes.Enabled := false; kubernetes.Version := "v1.24.1+k3s1";
       kubernetes.Ingress := false |} []
  = (None, [ Trace.Ran ["set"; "kubernetes_config"; "v1.24.1+k3s1"] ])
  /\ kubernetes.config Trace.guest_lookup Trace.decode_version
       [ Trace.Ran ["set"; "kubernetes_config"; "v1.24.1+k3s1"] ]
     = ({| kubernetes.Enabled := false; kubernetes.Version := "v1.24.1+k3s1";
           kubernetes.Ingress := false |},
        [ Trace.Ran ["set"; "kubernetes_config"; "v1.24.1+k3s1"] ]).
Proof.
  apply (proj1 (config_round_trip
                  Trace.guest_lookup Trace.guest_set Trace.decode_version
                  Trace.encode_version
                  {| kubernetes.Enabled := false;
                     kubernetes.Version := "v1.24.1+k3s1";
                     kubernetes.Ingress := false |} [])
               "v1.24.1+k3s1"
               [ Trace.Ran ["set"; "kubernetes_config"; "v1.24.1+k3s1"] ]
               [ Trace.Ran ["set"; "kubernetes_config"; "v1.24.1+k3s1"] ]);
    try reflexivity.
  discriminate.
Defined.

Lemma isVersionInstalled_edges_witness :
  kubernetes.isVersionInstalled (Trace.guest_lists "k3s version v1.23.6")
                                "" []
  = (true, [ Trace.Ran ["k3s"; "--version"] ]).
Proof.
  apply (proj2 (isVersionInstalled_edges
                  (Trace.guest_lists "k3s version v1.23.6") "" []
                  "k3s version v1.23.6" [ Trace.Ran ["k3s"; "--version"] ])).
  reflexivity.
Defined.

(** ** The kubernetes runtime: teardown and the kubeconfig *)

Section KubeconfigMore.
Context {W Host : Type}.
Variable Println : cli.Entry -> list string -> W -> W.
Variable Sprintf : string -> list kubeconfig.fmtArg -> string.
Variable host : Host.
Variable WithEnv : Host -> string -> Host.
Variable host_Run : Host -> list string -> W -> option error * W.
Variable host_RunOutput :
  Host -> list string -> W -> (string * option error) * W.
Variable host_Write : Host -> string -> string -> W -> option error * W.
Variable host_Env : Host -> string -> W -> string * W.
Variable host_Stat : Host -> string -> W -> (bool * option error) * W.
Variable guest_Run : list string -> W -> option error * W.
Variable guest_RunQuiet : list string -> W -> option error * W.
Variable guest_RunOutput : list string -> W -> (string * option error) * W.
Variable guest_Get : string -> W -> string * W.
Variable guest_Set : string -> string -> W -> option error * W.
Variable guest_Read : string -> W -> (string * option error) * W.
Variable ContainerRuntimeKey containerd_Name docker_Name : string.
Variable Profile_ID : string.
Variable lima_IPAddress : string -> W -> string * W.
Variable filepath_Join : list string -> string.
Variable filepath_Dir : string -> string.
Variable time_Now_Unix : W -> Z * W.

Let lg : cli.Entry := cli.Logger kubernetes.CommandChain.
Let deleteAllContainers : W -> option error * W :=
  kubernetes.deleteAllContainers guest_Run guest_RunOutput guest_Get
    ContainerRuntimeKey containerd_Name docker_Name.
Let Teardown : W -> option error * W :=
  kubernetes.Teardown Println guest_Run guest_RunQuiet guest_RunOutput
    guest_Get ContainerRuntimeKey containerd_Name docker_Name
    (kubeconfig.teardownKubeconfig host host_Run guest_Set Profile_ID).
Let provisionKubeconfig : W -> option error * W :=
  kubeconfig.provisionKubeconfig Println Sprintf host WithEnv host_Run
    host_RunOutput host_Write host_Env host_Stat guest_Get guest_Set
    guest_Read Profile_ID lima_IPAddress filepath_Join filepath_Dir
    time_Now_Unix.
Let unset (what : string) : W -> option error * W :=
  host_Run host ["kubectl"; "config"; "unset"; what +++ Profile_ID].

(** X17.  [Teardown] asks whether k3s is installed, then logs "deleting".
    If it is installed and [k3s-uninstall.sh] fails with [e], [Teardown]
    returns the error with the message
    ["error at 'deleting': " ++ e.Error()] that wraps [e], and nothing
    else runs.  If it is not installed the script is not run: the
    containers are deleted, an error of that being wrapped under
    'deleting' in the same way; then "reverting config" is logged and the
    three kubeconfig entries are unset in turn; an error [e] of any of
    them comes back as the error with the message
    ["error at 'reverting config': " ++ e.Error()] that wraps [e], the
    later ones not being run; when the three entries are unset,
    [Teardown] returns what clearing the stored master address returns, an
    error of it wrapped in the same way. *)
Theorem Teardown_runs : forall w w1,
    (forall e w2,
        kubernetes.isInstalled guest_RunQuiet w = (true, w1) ->
        guest_Run ["k3s-uninstall.sh"] (Println lg ["deleting"; "..."] w1)
        = (Some e, w2) ->
        Teardown w
        = (Some (wrapError ("error at 'deleting': " +++ Error e) e), w2))
    /\ (forall w2 e w3,
           kubernetes.isInstalled guest_RunQuiet w = (false, w1) ->
           deleteAllContainers (Println lg ["deleting"; "..."] w1)
           = (None, w2) ->
           unset "users." (Println lg ["reverting config"; "..."] w2)
           = (Some e, w3) ->
           Teardown w
           = (Some (wrapError ("error at 'reverting config': " +++ Error e)
                              e), w3))
    /\ (forall e w2,
           kubernetes.isInstalled guest_RunQuiet w = (false, w1) ->
           deleteAllContainers (Println lg ["deleting"; "..."] w1)
           = (Some e, w2) ->
           Teardown w
           = (Some (wrapError ("error at 'deleting': " +++ Error e) e), w2))
    /\ (forall w2 w3 e w4,
           kubernetes.isInstalled guest_RunQuiet w = (false, w1) ->
           deleteAllContainers (Println lg ["deleting"; "..."] w1)
           = (None, w2) ->
           unset "users." (Println lg ["reverting config"; "..."] w2)
           = (None, w3) ->
           unset "contexts." w3 = (Some e, w4) ->
           Teardown w
           = (Some (wrapError ("error at 'reverting config': " +++ Error e)
                              e), w4))
    /\ (forall w2 w3 w4 e w5,
           kubernetes.isInstalled guest_RunQuiet w = (false, w1) ->
           deleteAllContainers (Println lg ["deleting"; "..."] w1)
           = (None, w2) ->
           unset "users." (Println lg ["reverting config"; "..."] w2)
           = (None, w3) ->
           unset "contexts." w3 = (None, w4) ->
           unset "clusters." w4 = (Some e, w5) ->
           Teardown w
           = (Some (wrapError ("error at 'reverting config': " +++ Error e)
                              e), w5))
    /\ (forall w2 w3 w4 w5,
           kubernetes.isInstalled guest_RunQuiet w = (false, w1) ->
           deleteAllContainers (Println lg ["deleting"; "..."] w1)
           = (None, w2) ->
           unset "users." (Println lg ["reverting config"; "..."] w2)
           = (None, w3) ->
           unset "contexts." w3 = (None, w4) ->
           unset "clusters." w4 = (None, w5) ->
           Teardown w
           = match guest_Set kubeconfig.masterAddressKey "" w5 with
             | (Some e, w6) =>
                 (Some (wrapError
                          ("error at 'reverting config': " +++ Error e) e),
                  w6)
             | (None, w6) => (None, w6)
             end).
Proof.
  intros w w1. unfold Teardown, kubernetes.Teardown, unset.
  unfold kubernetes.bind, cli.Exec, kubeconfig.teardownKubeconfig,
    kubeconfig.unsetKubeconfig.
  split; [|split; [|split; [|split; [|split]]]].
  - intros e w2 Hinst Hun. rewrite Hinst.
    cbn [cli.Exec_loop cli.funcs cli.log cli.lastStage cli.Init cli.Stage
         cli.Add app cli.f cli.s String.eqb Ascii.eqb Bool.eqb].
    fold lg. now rewrite Hun.
  - intros w2 e w3 Hinst Hdel Hunset. rewrite Hinst.
    cbn [cli.Exec_loop cli.funcs cli.log cli.lastStage cli.Init cli.Stage
         cli.Add app cli.f cli.s String.eqb Ascii.eqb Bool.eqb].
    fold lg. fold deleteAllContainers. now rewrite Hdel, Hunset.
  - intros e w2 Hinst Hdel. rewrite Hinst.
    cbn [cli.Exec_loop cli.funcs cli.log cli.lastStage cli.Init cli.Stage
         cli.Add app cli.f cli.s String.eqb Ascii.eqb Bool.eqb].
    fold lg. fold deleteAllContainers. now rewrite Hdel.
  - intros w2 w3 e w4 Hinst Hdel Hu Hc. rewrite Hinst.
    cbn [cli.Exec_loop cli.funcs cli.log cli.lastStage cli.Init cli.Stage
         cli.Add app cli.f cli.s String.eqb Ascii.eqb Bool.eqb].
    fold lg. fold deleteAllContainers. now rewrite Hdel, Hu, Hc.
  - intros w2 w3 w4 e w5 Hinst Hdel Hu Hc Hk. rewrite Hinst.
    cbn [cli.Exec_loop cli.funcs cli.log cli.lastStage cli.Init cli.Stage
         cli.Add app cli.f cli.s String.eqb Ascii.eqb Bool.eqb].
    fold lg. fold deleteAllContainers. now rewrite Hdel, Hu, Hc, Hk.
  - intros w2 w3 w4 w5 Hinst Hdel Hu Hc Hk. rewrite Hinst.
    cbn [cli.Exec_loop cli.funcs cli.log cli.lastStage cli.Init cli.Stage
         cli.Add app cli.f cli.s String.eqb Ascii.eqb Bool.eqb].
    fold lg. fold deleteAllContainers. rewrite Hdel, Hu, Hc, Hk.
    now destruct (guest_Set kubeconfig.masterAddressKey "" w5) as [[e|] w6].
Qed.

(** X18.  [provisionKubeconfig] reads the address of the virtual machine
    and the master address stored on the guest.  If they are equal it
    returns nil and does nothing more.  Otherwise it asks the host for
    HOME: if that is empty it returns "error retrieving home directory on
    host" and no step of the chain it was preparing runs.  Otherwise it
    logs "updating config" and unsets the profile's entries; an error [e]
    of the first one comes back as the error with the message
    ["error at 'updating config': " ++ e.Error()] that wraps [e]. *)
Theorem provisionKubeconfig_guards : forall w ip w1 stored w2,
    lima_IPAddress Profile_ID w = (ip, w1) ->
    guest_Get kubeconfig.masterAddressKey w1 = (stored, w2) ->
    (ip = stored -> provisionKubeconfig w = (None, w2))
    /\ (forall w3,
           ip <> stored ->
           host_Env host "HOME" w2 = ("", w3) ->
           provisionKubeconfig w
           = (Some (errorString "error retrieving home directory on host"),
              w3))
    /\ (forall home w3 e w4,
           ip <> stored ->
           host_Env host "HOME" w2 = (home, w3) ->
           home <> "" ->
           unset "users." (Println lg ["updating config"; "..."] w3)
           = (Some e, w4) ->
           provisionKubeconfig w
           = (Some (wrapError ("error at 'updating config': " +++ Error e)
                              e), w4)).
Proof.
  intros w ip w1 stored w2 Hip Hget.
  unfold provisionKubeconfig, kubeconfig.provisionKubeconfig, unset.
  unfold kubernetes.bind, kubernetes.ret. cbv beta. rewrite Hip, Hget.
  split; [|split].
  - intros ->. now rewrite String.eqb_refl.
  - intros w3 Hne Henv. destruct (String.eqb_spec ip stored); [contradiction|].
    now rewrite Henv.
  - intros home w3 e w4 Hne Henv Hhome Hunset.
    destruct (String.eqb_spec ip stored); [contradiction|].
    rewrite Henv.
    destruct (String.eqb_spec home ""); [contradiction|].
    unfold cli.Exec, kubeconfig.unsetKubeconfig.
    cbn [cli.Exec_loop cli.funcs cli.log cli.lastStage cli.Init cli.Stage
         cli.Add app cli.f cli.s String.eqb Ascii.eqb Bool.eqb].
    fold lg. now rewrite Hunset.
Qed.

End KubeconfigMore.

Lemma Teardown_runs_witness :
  kubernetes.Teardown Trace.Println Trace.guest_ok Trace.guest_fail
    (Trace.guest_lists "") (Trace.guest_says "containerd")
    "runtime" "containerd" "docker"
    (kubeconfig.teardownKubeconfig tt Trace.host_fail Trace.guest_set
                                   "colima") []
  = (Some (wrapError "error at 'reverting config': exit status 1"
                     (errorString "exit status 1")),
     [ Trace.Ran ["command"; "-v"; "k3s-uninstall.sh"];
       Trace.Printed (cli.Logger kubernetes.CommandChain)
                     ["deleting"; "..."];
       Trace.Ran ["sudo"; "nerdctl"; "-n"; "k8s.io"; "ps"; "-q"];
       Trace.Printed (cli.Logger kubernetes.CommandChain)
                     ["reverting config"; "..."];
       Trace.Ran ["kubectl"; "config"; "unset"; "users.colima"] ]).
Proof.
  apply (proj1 (proj2 (Teardown_runs
                         Trace.Println tt Trace.host_fail Trace.guest_ok
                         Trace.guest_fail (Trace.guest_lists "")
                         (Trace.guest_says "containerd") Trace.guest_set
                         "runtime" "containerd" "docker" "colima" []
                         [ Trace.Ran ["command"; "-v"; "k3s-uninstall.sh"] ]))
               [ Trace.Ran ["command"; "-v"; "k3s-uninstall.sh"];
                 Trace.Printed (cli.Logger kubernetes.CommandChain)
                               ["deleting"; "..."];
                 Trace.Ran ["sudo"; "nerdctl"; "-n"; "k8s.io"; "ps"; "-q"] ]
               (errorString "exit status 1"));
    reflexivity.
Defined.

Lemma provisionKubeconfig_guards_witness :
  kubeconfig.provisionKubeconfig Trace.Println Trace.sprintf_args tt
    (fun h _ => h) Trace.host_ok Trace.host_out Trace.host_write
    Trace.host_no_env Trace.host_stat Trace.guest_lookup Trace.guest_set
    Trace.guest_read "colima" Trace.vm_address Trace.join_slash
    (fun p => p) Trace.clock []
  = (Some (errorString "error retrieving home directory on host"), [])
  /\ kubeconfig.provisionKubeconfig Trace.Println Trace.sprintf_args tt
       (fun h _ => h) Trace.host_fail Trace.host_out Trace.host_write
       Trace.host_home Trace.host_stat Trace.guest_lookup Trace.guest_set
       Trace.guest_read "colima" Trace.vm_address Trace.join_slash
       (fun p => p) Trace.clock []
     = (Some (wrapError "error at 'updating config': exit status 1"
                        (errorString "exit status 1")),
        [ Trace.Printed (cli.Logger kubernetes.CommandChain)
                        ["updating config"; "..."];
          Trace.Ran ["kubectl"; "config"; "unset"; "users.colima"] ]).
Proof.
  split.
  - apply (proj1 (proj2 (provisionKubeconfig_guards
                           Trace.Println Trace.sprintf_args tt
                           (fun h _ => h)
                           Trace.host_ok Trace.host_out Trace.host_write
                           Trace.host_no_env Trace.host_stat
                           Trace.guest_lookup Trace.guest_set
                           Trace.guest_read
                           "colima" Trace.vm_address Trace.join_slash
                           (fun p => p) Trace.clock
                           [] "192.168.5.2" [] "" [] eq_refl eq_refl))).
    + discriminate.
    + reflexivity.
  - apply (proj2 (proj2 (provisionKubeconfig_guards
                           Trace.Println Trace.sprintf_args tt
                           (fun h _ => h)
                           Trace.host_fail Trace.host_out Trace.host_write
                           Trace.host_home Trace.host_stat
                           Trace.guest_lookup Trace.guest_set
                           Trace.guest_read
                           "colima" Trace.vm_address Trace.join_slash
                           (fun p => p) Trace.clock
                           [] "192.168.5.2" [] "" [] eq_refl eq_refl))
                 "/home/user" []
                 (errorString "exit status 1")).
    + discriminate.
    + reflexivity.
    + discriminate.
    + reflexivity.
Defined.

(** ** The gvproxy socket, address and search domains *)

(** X19.  Wrapping again changes nothing: the file of [Unix()] is the file,
    [Unix()] of [Unix()] is [Unix()], and [Unix()] always begins with the
    scheme, whichever spelling the socket was made from. *)
Theorem Socket_rewrap : forall sock : gvproxy.Socket,
    gvproxy.File (gvproxy.Unix sock) = gvproxy.File sock
    /\ gvproxy.Unix (gvproxy.Unix sock) = gvproxy.Unix sock
    /\ HasPrefix (gvproxy.Unix sock) "unix://" = true.
Proof.
  intros sock.
  assert (Hfile : gvproxy.File (gvproxy.Unix sock) = gvproxy.File sock).
  { unfold gvproxy.Unix at 1. unfold gvproxy.File at 1.
    apply TrimPrefix_append. }
  split; [exact Hfile|]. split.
  - unfold gvproxy.Unix at 1. now rewrite Hfile.
  - unfold gvproxy.Unix, HasPrefix. apply prefix_append.
Qed.

Section MacProps.
Context {W : Type}.
Variable daemon_Dir : W -> string * W.
Variable SHA256Hash : string -> string.

Let MacAddress := gvproxy.MacAddress daemon_Dir SHA256Hash.

(** X20.  The first call of [MacAddress] reads the instance directory and
    gives an address of six bytes written as seventeen characters that
    begins with [5a:94:ef:]; it keeps the six bytes.  Every later call
    returns the same text from the bytes kept, in any world and without
    reading the directory again.  (A hash of fewer than three bytes would
    make the first call panic.) *)
Theorem MacAddress_first_call_and_after : forall w dir w1,
    daemon_Dir w = (dir, w1) ->
    ((3 <= String.length (SHA256Hash dir))%nat ->
     exists mac kept,
       MacAddress [] w = Some (mac, kept, w1)
       /\ HasPrefix mac "5a:94:ef:" = true
       /\ String.length mac = 17%nat
       /\ List.length kept = 6%nat
       /\ forall w', MacAddress kept w' = Some (mac, kept, w'))
    /\ ((String.length (SHA256Hash dir) < 3)%nat -> MacAddress [] w = None).
Proof.
  intros w dir w1 Hdir. unfold MacAddress, gvproxy.MacAddress.
  rewrite Hdir. split.
  - intros Hlen.
    destruct (Nat.ltb_spec (String.length (SHA256Hash dir)) 3); [lia|].
    destruct (SHA256Hash dir) as [|a [|b [|c rest]]];
      try (simpl in Hlen; lia).
    assert (Hsum : substring 0 3 (String a (String b (String c rest)))
                   = String a (String b (String c "")))
      by (destruct rest; reflexivity).
    rewrite Hsum.
    eexists. eexists. split; [reflexivity|].
    split; [reflexivity|]. split; [reflexivity|].
    split; [reflexivity|]. intros w'. reflexivity.
  - intros Hlen.
    destruct (Nat.ltb_spec (String.length (SHA256Hash dir)) 3);
      [reflexivity | lia].
Qed.
End MacProps.

Lemma MacAddress_first_call_and_after_witness :
  exists mac kept,
    gvproxy.MacAddress Trace.instance_dir Trace.hash_hex [] []
    = Some (mac, kept, [])
    /\ HasPrefix mac "5a:94:ef:" = true
    /\ String.length mac = 17%nat
    /\ List.length kept = 6%nat
    /\ forall w',
        gvproxy.MacAddress Trace.instance_dir Trace.hash_hex kept w'
        = Some (mac, kept, w').
Proof.
  apply (proj1 (MacAddress_first_call_and_after
                  Trace.instance_dir Trace.hash_hex []
                  "/home/user/.colima/default" [] eq_refl)).
  simpl. lia.
Defined.

Lemma list_ascii_of_string_append : forall a b,
    list_ascii_of_string (a +++ b)
    = list_ascii_of_string a ++ list_ascii_of_string b.
Proof.
  induction a as [|c a IH]; intros b; [reflexivity|].
  simpl. now rewrite IH.
Qed.

Lemma is_field_snoc : forall d c,
    asciiSpace c = false ->
    (d = "" \/ is_field d) ->
    is_field (d +++ String c "").
Proof.
  intros d c Hc Hd. split.
  - destruct d; discriminate.
  - rewrite list_ascii_of_string_append. apply Forall_app. split.
    + destruct Hd as [-> | [_ Hall]]; [constructor | exact Hall].
    + repeat constructor. exact Hc.
Qed.

Lemma fields_from_are_fields : forall str cur,
    match cur with Some d => is_field d | None => True end ->
    Forall is_field (fields_from cur str).
Proof.
  induction str as [|c str IH]; intros cur Hcur.
  - destruct cur as [d|]; simpl; [|constructor].
    constructor; [exact Hcur | constructor].
  - simpl. destruct (asciiSpace c) eqn:Hc.
    + destruct cur as [d|].
      * constructor; [exact Hcur | now apply IH].
      * now apply IH.
    + destruct cur as [d|]; apply IH.
      * apply is_field_snoc; [exact Hc | now right].
      * apply (is_field_snoc "" c Hc). now left.
Qed.

Lemma fieldsFunc_from_are_fields : forall str pending cur,
    later_bytes pending str ->
    match cur with Some d => is_field d | None => True end ->
    Forall is_field (fieldsFunc_from pending cur str).
Proof.
  induction str as [|c str IH]; intros pending cur Hlater Hcur.
  - destruct cur as [d|]; simpl; [|constructor].
    constructor; [exact Hcur | constructor].
  - cbn [fieldsFunc_from]. destruct pending as [|k].
    + destruct (DecodeRuneInString (String c str)) as [r width] eqn:Hdec.
      pose proof (decode_later c str r width Hdec) as Hnext.
      destruct (IsSpace r) eqn:Hr.
      * destruct cur as [d|].
        -- constructor; [exact Hcur | now apply IH].
        -- now apply IH.
      * pose proof (decode_not_space c str r width Hdec Hr) as Hc.
        destruct cur as [d|]; apply IH; try exact Hnext.
        -- apply is_field_snoc; [exact Hc | now right].
        -- apply (is_field_snoc "" c Hc). now left.
    + destruct Hlater as [Hc Hlater].
      destruct cur as [d|]; apply IH; try exact Hlater; try exact I.
      apply is_field_snoc; [now apply later_not_space | now right].
Qed.

Lemma Fields_are_fields : forall str, Forall is_field (Fields str).
Proof.
  intros str. unfold Fields. destruct (hasNonASCII str).
  - now apply fieldsFunc_from_are_fields.
  - now apply fields_from_are_fields.
Qed.

Lemma searchLoop_are_fields : forall lines domains,
    gvproxy.searchLoop lines = Some domains -> Forall is_field domains.
Proof.
  induction lines as [|l lines IH]; intros domains H; [discriminate|].
  simpl in H. destruct (negb (HasPrefix l gvproxy.searchPrefix)).
  - now apply IH.
  - inversion H. apply Fields_are_fields.
Qed.

(** X21.  Whatever the platform, the file and the world, every search
    domain [searchDomains] returns is a non-empty string with no white
    space in it (tab, line feed, vertical tab, form feed, carriage return,
    space). *)
Theorem searchDomains_are_fields :
  forall (W : Type) os_ReadFile logrus_Errorf logrus_Infof GOOS (w : W),
    Forall is_field
           (fst (gvproxy.searchDomains os_ReadFile logrus_Errorf logrus_Infof
                                       GOOS w)).
Proof.
  intros W os_ReadFile logrus_Errorf logrus_Infof GOOS w.
  unfold gvproxy.searchDomains.
  destruct (negb (String.eqb GOOS "darwin")
            && negb (String.eqb GOOS "linux")); [constructor|].
  destruct (os_ReadFile "/etc/resolv.conf" w) as [[b [err|]] w1];
    [constructor|].
  destruct (Scanner b) as [lines tooLong].
  destruct (gvproxy.searchLoop lines) as [domains|] eqn:Hloop.
  - simpl. now apply (searchLoop_are_fields lines).
  - destruct tooLong; constructor.
Qed.

(** ** Mount flags and the start configuration *)

Lemma before_colon_whole : forall str,
    cmd.after_colon str = None -> cmd.before_colon str = str.
Proof.
  induction str as [|c str IH]; intros H; [reflexivity|].
  simpl in *. destruct (Ascii.eqb c cmd.colon); [discriminate|].
  f_equal. now apply IH.
Qed.

Lemma after_colon_before : forall str,
    cmd.after_colon (cmd.before_colon str) = None.
Proof.
  induction str as [|c str IH]; [reflexivity|].
  simpl. destruct (Ascii.eqb c cmd.colon) eqn:Hc; [reflexivity|].
  simpl. now rewrite Hc.
Qed.

Lemma colon_suffix : forall loc rest,
    cmd.after_colon loc = None ->
    cmd.after_colon (loc +++ String cmd.colon rest) = Some rest
    /\ cmd.before_colon (loc +++ String cmd.colon rest) = loc.
Proof.
  induction loc as [|c loc IH]; intros rest H.
  - split; reflexivity.
  - simpl in *. destruct (Ascii.eqb c cmd.colon); [discriminate|].
    destruct (IH rest H) as [Ha Hb]. split; [exact Ha | now rewrite Hb].
Qed.

(** X22.  A location without a colon comes back from both spellings:
    alone it gives a read-only mount of it, followed by [:w] a writable
    one.  And no mount [mountsFromFlag] returns has a colon in its
    location, whatever the strings were. *)
Theorem mountsFromFlag_round_trip :
  (forall loc,
      cmd.after_colon loc = None ->
      cmd.mountsFromFlag [loc]
      = [ {| cmd.Location := loc; cmd.Writable := false |} ]
      /\ cmd.mountsFromFlag [loc +++ ":w"]
         = [ {| cmd.Location := loc; cmd.Writable := true |} ])
  /\ (forall mounts m,
         In m (cmd.mountsFromFlag mounts) ->
         cmd.after_colon (cmd.Location m) = None).
Proof.
  split.
  - intros loc Hloc. unfold cmd.mountsFromFlag. simpl map.
    rewrite !SplitN2_colon, Hloc.
    destruct (colon_suffix loc "w" Hloc) as [Ha Hb].
    change (loc +++ ":w") with (loc +++ String cmd.colon "w").
    rewrite Ha, Hb. now split.
  - intros mounts m Hin. unfold cmd.mountsFromFlag in Hin.
    apply in_map_iff in Hin. destruct Hin as [str [<- _]].
    rewrite SplitN2_colon. simpl.
    destruct (cmd.after_colon str) eqn:Hafter; simpl.
    + apply after_colon_before.
    + exact Hafter.
Qed.

Lemma mountsFromFlag_round_trip_witness :
  cmd.mountsFromFlag ["/Users/me/src"]
  = [ {| cmd.Location := "/Users/me/src"; cmd.Writable := false |} ]
  /\ cmd.mountsFromFlag ["/Users/me/src:w"]
     = [ {| cmd.Location := "/Users/me/src"; cmd.Writable := true |} ].
Proof.
  apply (proj1 mountsFromFlag_round_trip "/Users/me/src"). reflexivity.
Defined.

Section PrepareProps.
Context {W DockerT DNST EnvT : Type}.
Variable Load : W -> (cmd.Config DockerT DNST EnvT * option error) * W.
Variable LoadFrom :
  string -> W -> (cmd.Config DockerT DNST EnvT * option error) * W.
Variable templateFile : W -> string * W.
Variable Empty : cmd.Config DockerT DNST EnvT -> bool.
Variable MacOS : bool.
Variable Warnln : cmd.warnArg -> W -> W.

Let prepare := cmd.prepareConfig Load LoadFrom templateFile Empty MacOS Warnln.

Ltac prepare_cases w :=
  unfold prepare, cmd.prepareConfig, kubernetes.bind, kubernetes.ret;
  cbv beta;
  destruct (Load w) as [[?current [?lerr|]] ?w1]; cbn [fst snd];
  destruct (Empty _); cbv beta iota;
  try (destruct (templateFile _) as [?path ?w2];
       destruct (LoadFrom _ _) as [[?template [?terr|]] ?w3]);
  cbn [fst snd].

(** X23.  What was typed on the command line is what [prepareConfig]
    leaves: for every flag marked changed, the setting it sets is, after
    the call, the value [startCmdArgs] held before it (the parsed
    [--mount] strings for the mounts), whatever is stored or in the
    template.  [--kubernetes] yields only to [--with-kubernetes].  The
    kubernetes version and ingress settings and the flag values
    themselves are never touched. *)
Theorem prepareConfig_typed_flags_win : forall changed args w,
    let out := snd (fst (prepare changed args w)) in
    cmd.Flags out = cmd.Flags args
    /\ kubernetes.Version (cmd.Kubernetes (cmd.conf out))
       = kubernetes.Version (cmd.Kubernetes (cmd.conf args))
    /\ kubernetes.Ingress (cmd.Kubernetes (cmd.conf out))
       = kubernetes.Ingress (cmd.Kubernetes (cmd.conf args))
    /\ (changed "cpu" = true ->
        cmd.CPU (cmd.conf out) = cmd.CPU (cmd.conf args))
    /\ (changed "cpu-type" = true ->
        cmd.CPUType (cmd.conf out) = cmd.CPUType (cmd.conf args))
    /\ (changed "memory" = true ->
        cmd.Memory (cmd.conf out) = cmd.Memory (cmd.conf args))
    /\ (changed "disk" = true ->
        cmd.Disk (cmd.conf out) = cmd.Disk (cmd.conf args))
    /\ (changed "arch" = true ->
        cmd.Arch (cmd.conf out) = cmd.Arch (cmd.conf args))
    /\ (changed "runtime" = true ->
        cmd.Runtime (cmd.conf out) = cmd.Runtime (cmd.conf args))
    /\ (changed "ssh-agent" = true ->
        cmd.ForwardAgent (cmd.conf out) = cmd.ForwardAgent (cmd.conf args))
    /\ (changed "mount-type" = true ->
        cmd.MountType (cmd.conf out) = cmd.MountType (cmd.conf args))
    /\ (changed "dns" = true ->
        cmd.DNS (cmd.conf out) = cmd.DNS (cmd.conf args))
    /\ (changed "env" = true ->
        cmd.Env (cmd.conf out) = cmd.Env (cmd.conf args))
    /\ (changed "mount" = true ->
        cmd.Mounts (cmd.conf out)
        = cmd.mountsFromFlag (cmd.FlagMounts (cmd.Flags args)))
    /\ (changed "network-address" = true ->
        cmd.Address (cmd.NetworkConf (cmd.conf out))
        = cmd.Address (cmd.NetworkConf (cmd.conf args)))
    /\ (changed "network-driver" = true ->
        cmd.Driver (cmd.NetworkConf (cmd.conf out))
        = cmd.Driver (cmd.NetworkConf (cmd.conf args)))
    /\ (changed "kubernetes" = true ->
        changed "with-kubernetes" = false ->
        kubernetes.Enabled (cmd.Kubernetes (cmd.conf out))
        = kubernetes.Enabled (cmd.Kubernetes (cmd.conf args))).
Proof.
  intros changed args w out. subst out. prepare_cases w;
    destruct (changed "with-kubernetes") eqn:Hlegacy;
    destruct MacOS;
    repeat split; intros; simpl; unfold cmd.setChanged; simpl;
    repeat match goal with
           | H : changed _ = _ |- _ => rewrite H
           end;
    try reflexivity; try discriminate.
Qed.

(** X24.  [--with-kubernetes], when typed, decides: after [prepareConfig]
    kubernetes is enabled exactly as that flag says, whatever
    [--kubernetes] said and whatever is stored, and [--kubernetes] is
    marked changed. *)
Theorem prepareConfig_legacy_flag_decides : forall changed args w,
    changed "with-kubernetes" = true ->
    kubernetes.Enabled
      (cmd.Kubernetes (cmd.conf (snd (fst (prepare changed args w)))))
    = cmd.LegacyKubernetes (cmd.Flags args)
    /\ fst (fst (prepare changed args w)) "kubernetes" = true.
Proof.
  intros changed args w Hlegacy. prepare_cases w; rewrite Hlegacy;
    split; reflexivity.
Qed.

(** X25.  When a configuration is stored, [prepareConfig] takes from it
    the docker settings and every setting among cpu, cpu-type, memory,
    disk, arch, runtime, mount, mount-type, ssh-agent, dns and env whose
    flag was not typed; whether kubernetes is enabled when neither
    [--kubernetes] nor [--with-kubernetes] was typed; on macOS the network
    address and driver whose flag was not typed, elsewhere the network
    settings stay those of the command line; the kubernetes version and
    ingress always stay those of the command line.  When none is stored
    and no template can be loaded, every setting stays as it was but two:
    the mounts are those of the [--mount] strings, and kubernetes is
    enabled as [--with-kubernetes] says when that flag was typed. *)
Theorem prepareConfig_untyped_flags : forall changed args w current lerr w1,
    Load w = ((current, lerr), w1) ->
    let out := snd (fst (prepare changed args w)) in
    (Empty current = false ->
     cmd.Docker (cmd.conf out) = cmd.Docker current
     /\ (changed "cpu" = false -> cmd.CPU (cmd.conf out) = cmd.CPU current)
     /\ (changed "memory" = false ->
         cmd.Memory (cmd.conf out) = cmd.Memory current)
     /\ (changed "disk" = false ->
         cmd.Disk (cmd.conf out) = cmd.Disk current)
     /\ (changed "arch" = false ->
         cmd.Arch (cmd.conf out) = cmd.Arch current)
     /\ (changed "runtime" = false ->
         cmd.Runtime (cmd.conf out) = cmd.Runtime current)
     /\ (changed "mount" = false ->
         cmd.Mounts (cmd.conf out) = cmd.Mounts current)
     /\ (changed "kubernetes" = false ->
         changed "with-kubernetes" = false ->
         kubernetes.Enabled (cmd.Kubernetes (cmd.conf out))
         = kubernetes.Enabled (cmd.Kubernetes current))
     /\ (changed "cpu-type" = false ->
         cmd.CPUType (cmd.conf out) = cmd.CPUType current)
     /\ (changed "mount-type" = false ->
         cmd.MountType (cmd.conf out) = cmd.MountType current)
     /\ (changed "ssh-agent" = false ->
         cmd.ForwardAgent (cmd.conf out) = cmd.ForwardAgent current)
     /\ (changed "dns" = false -> cmd.DNS (cmd.conf out) = cmd.DNS current)
     /\ (changed "env" = false -> cmd.Env (cmd.conf out) = cmd.Env current)
     /\ (MacOS = true -> changed "network-address" = false ->
         cmd.Address (cmd.NetworkConf (cmd.conf out))
         = cmd.Address (cmd.NetworkConf current))
     /\ (MacOS = true -> changed "network-driver" = false ->
         cmd.Driver (cmd.NetworkConf (cmd.conf out))
         = cmd.Driver (cmd.NetworkConf current))
     /\ (MacOS = false ->
         cmd.NetworkConf (cmd.conf out) = cmd.NetworkConf (cmd.conf args))
     /\ kubernetes.Version (cmd.Kubernetes (cmd.conf out))
        = kubernetes.Version (cmd.Kubernetes (cmd.conf args))
     /\ kubernetes.Ingress (cmd.Kubernetes (cmd.conf out))
        = kubernetes.Ingress (cmd.Kubernetes (cmd.conf args)))
    /\ (forall w0 path w2 template terr w3,
           Empty current = true ->
           templateFile w0 = (path, w2) ->
           w0 = match lerr with
                | Some err =>
                    Warnln (cmd.warnString "reverting to default settings")
                      (Warnln (cmd.warnError
                                 (wrapError
                                    ("config load failed: " +++ Error err)
                                    err)) w1)
                | None => w1
                end ->
           LoadFrom path w2 = ((template, Some terr), w3) ->
           out
           = {| cmd.conf :=
                  {| cmd.CPU := cmd.CPU (cmd.conf args);
                     cmd.CPUType := cmd.CPUType (cmd.conf args);
                     cmd.Memory := cmd.Memory (cmd.conf args);
                     cmd.Disk := cmd.Disk (cmd.conf args);
                     cmd.Arch := cmd.Arch (cmd.conf args);
                     cmd.Runtime := cmd.Runtime (cmd.conf args);
                     cmd.ForwardAgent := cmd.ForwardAgent (cmd.conf args);
                     cmd.NetworkConf := cmd.NetworkConf (cmd.conf args);
                     cmd.Kubernetes :=
                       {| kubernetes.Enabled :=
                            if changed "with-kubernetes"
                            then cmd.LegacyKubernetes (cmd.Flags args)
                            else kubernetes.Enabled
                                   (cmd.Kubernetes (cmd.conf args));
                          kubernetes.Version :=
                            kubernetes.Version
                              (cmd.Kubernetes (cmd.conf args));
                          kubernetes.Ingress :=
                            kubernetes.Ingress
                              (cmd.Kubernetes (cmd.conf args)) |};
                     cmd.Mounts :=
                       cmd.mountsFromFlag (cmd.FlagMounts (cmd.Flags args));
                     cmd.MountType := cmd.MountType (cmd.conf args);
                     cmd.Docker := cmd.Docker (cmd.conf args);
                     cmd.DNS := cmd.DNS (cmd.conf args);
                     cmd.Env := cmd.Env (cmd.conf args) |};
                cmd.Flags := cmd.Flags args |}).
Proof.
  intros changed args w current lerr w1 Hload out. subst out.
  unfold prepare, cmd.prepareConfig, kubernetes.bind, kubernetes.ret.
  cbv beta. rewrite Hload. cbn [fst snd]. split.
  - intros Hstored. rewrite Hstored.
    destruct lerr; destruct (changed "with-kubernetes") eqn:Hlegacy;
      repeat split; intros; simpl; unfold cmd.setChanged; simpl;
      repeat match goal with
             | H : changed _ = _ |- _ => rewrite H
             | H : MacOS = _ |- _ => rewrite H
             end;
      try reflexivity; try discriminate.
  - intros w0 path w2 template terr w3 Hempty Hpath Hw0 Htemplate.
    rewrite Hempty. subst w0.
    destruct lerr; rewrite Hpath, Htemplate;
      destruct (changed "with-kubernetes"); cbn [fst snd];
      unfold cmd.withMounts, cmd.withEnabled; cbn;
      try reflexivity;
      destruct args as [c fl]; destruct c as [? ? ? ? ? ? ? ? k ? ? ? ? ?];
      destruct k; reflexivity.
Qed.

End PrepareProps.

Lemma prepareConfig_typed_flags_win_witness :
  cmd.CPU (cmd.conf (snd (fst (cmd.prepareConfig
                                 Trace.load_stored Trace.load_from
                                 Trace.template_path Trace.never_empty false
                                 Trace.warn Trace.typed_cpu
                                 Trace.args_typed []))))
  = 4.
Proof.
  apply (proj1 (proj2 (proj2 (proj2 (prepareConfig_typed_flags_win
           Trace.load_stored Trace.load_from Trace.template_path
           Trace.never_empty false Trace.warn Trace.typed_cpu
           Trace.args_typed []))))).
  reflexivity.
Defined.

Lemma prepareConfig_legacy_flag_decides_witness :
  kubernetes.Enabled
    (cmd.Kubernetes
       (cmd.conf (snd (fst (cmd.prepareConfig
                              Trace.load_stored Trace.load_from
                              Trace.template_path Trace.never_empty false
                              Trace.warn Trace.typed_legacy
                              Trace.args_typed [])))))
  = true.
Proof.
  apply (proj1 (prepareConfig_legacy_flag_decides
                  Trace.load_stored Trace.load_from Trace.template_path
                  Trace.never_empty false Trace.warn Trace.typed_legacy
                  Trace.args_typed [] eq_refl)).
Defined.

Lemma prepareConfig_untyped_flags_witness :
  cmd.Memory (cmd.conf (snd (fst (cmd.prepareConfig
                                    Trace.load_stored Trace.load_from
                                    Trace.template_path Trace.never_empty
                                    false Trace.warn Trace.typed_cpu
                                    Trace.args_typed []))))
  = 8
  /\ snd (fst (cmd.prepareConfig
                 Trace.load_stored Trace.load_from Trace.template_path
                 Trace.always_empty false Trace.warn Trace.typed_legacy
                 Trace.args_typed []))
     = {| cmd.conf :=
            {| cmd.CPU := 4; cmd.CPUType := ""; cmd.Memory := 2;
               cmd.Disk := 60; cmd.Arch := "x86_64";
               cmd.Runtime := "docker"; cmd.ForwardAgent := false;
               cmd.NetworkConf :=
                 {| cmd.Address := false; cmd.Driver := "gvproxy" |};
               cmd.Kubernetes :=
                 {| kubernetes.Enabled := true;
                    kubernetes.Version := kubernetes.DefaultVersion;
                    kubernetes.Ingress := false |};
               cmd.Mounts :=
                 [ {| cmd.Location := "/src"; cmd.Writable := true |} ];
               cmd.MountType := "9p";
               cmd.Docker := tt; cmd.DNS := tt; cmd.Env := tt |};
          cmd.Flags := cmd.Flags Trace.args_typed |}.
Proof.
  split.
  - apply (proj1 (proj2 (proj2 (proj1 (prepareConfig_untyped_flags
             Trace.load_stored Trace.load_from Trace.template_path
             Trace.never_empty false Trace.warn Trace.typed_cpu
             Trace.args_typed [] Trace.conf_stored None [] eq_refl)
             eq_refl)))).
    reflexivity.
  - apply (proj2 (prepareConfig_untyped_flags
             Trace.load_stored Trace.load_from Trace.template_path
             Trace.always_empty false Trace.warn Trace.typed_legacy
             Trace.args_typed [] Trace.conf_stored None [] eq_refl)
             [] "default.yaml" [] Trace.conf_stored
             (errorString "no template") []);
      reflexivity.
Defined.

(** ** The nerdctl install command *)

Section NerdctlProps.
Context {W : Type}.
Variable os_Stat : string -> W -> option error * W.
Variable os_ReadFile : string -> W -> (string * option error) * W.
Variable os_WriteFile : string -> string -> Z -> W -> option error * W.
Variable os_Remove : string -> W -> option error * W.
Variable os_Rename : string -> string -> W -> option error * W.
Variable filepath_Join : list string -> string.
Variable filepath_Dir : string -> string.
Variable template_Parse : string -> option error.
Variable template_Execute :
  string -> string -> string -> string * option error.
Variable os_Args0 : string.
Variable Profile_ID : string.
Variable log_Println : string -> W -> W.
Variable run_interactive :
  list string -> option string -> W -> option error * W.
Variable run_command : list string -> W -> option error * W.

Let PreRun : cmd.nerdctlArgs -> W -> cmd.nerdctlArgs * W :=
  cmd.nerdctlInstallPreRun os_ReadFile os_WriteFile os_Remove filepath_Join
                           filepath_Dir.
Let RunE : cmd.nerdctlArgs -> W -> option error * W :=
  cmd.nerdctlInstallRunE os_Stat os_WriteFile os_Rename template_Parse
    template_Execute os_Args0 Profile_ID log_Println run_interactive
    run_command.

(** X26.  The install command does not replace a file it was not asked to
    replace.  If the target exists, [--force] was not given and the file
    is not known to be colima's script, [RunE] returns
    "<path> exists, use --force to replace" having only looked at the
    file.  For a path other than the default one [PreRun] changes nothing
    and touches nothing, so there an existing file always needs
    [--force].  And where the file is replaced by renaming it away first,
    a failed rename is returned as "error backing up existing file" and
    nothing is written. *)
Theorem nerdctl_install_keeps_existing_file : forall a w w1,
    os_Stat (cmd.path a) w = (None, w1) ->
    (cmd.force a = false ->
     cmd.isColimaScript a = false ->
     RunE a w
     = (Some (errorString
                (cmd.path a +++ " exists, use --force to replace")), w1))
    /\ (cmd.path a <> cmd.nerdctlDefaultInstallPath ->
        PreRun a w = (a, w)
        /\ (cmd.force a = false ->
            cmd.isColimaScript a = false ->
            RunE (fst (PreRun a w)) (snd (PreRun a w))
            = (Some (errorString
                       (cmd.path a +++ " exists, use --force to replace")),
               w1)))
    /\ (forall buf e w2,
           cmd.force a = true ->
           template_Parse cmd.nerdctlScript = None ->
           template_Execute cmd.nerdctlScript os_Args0
                            (TrimPrefix Profile_ID "colima-") = (buf, None) ->
           cmd.usrBinWriteable a
           || negb (String.eqb (cmd.path a) cmd.nerdctlDefaultInstallPath)
           = true ->
           os_Rename (cmd.path a) (cmd.path a +++ ".moved") w1 = (Some e, w2) ->
           RunE a w
           = (Some (wrapError ("error backing up existing file: "
                                 +++ Error e) e), w2)).
Proof.
  intros a w w1 Hstat.
  assert (Hguard : cmd.force a = false -> cmd.isColimaScript a = false ->
                   RunE a w
                   = (Some (errorString
                              (cmd.path a
                                 +++ " exists, use --force to replace")),
                      w1)).
  { intros Hforce Hscript. unfold RunE, cmd.nerdctlInstallRunE,
      kubernetes.bind, kubernetes.ret. cbv beta.
    now rewrite Hstat, Hforce, Hscript. }
  assert (Hpre : cmd.path a <> cmd.nerdctlDefaultInstallPath ->
                 PreRun a w = (a, w)).
  { intros Hpath. unfold PreRun, cmd.nerdctlInstallPreRun.
    destruct (String.eqb_spec (cmd.path a) cmd.nerdctlDefaultInstallPath);
      [contradiction | reflexivity]. }
  split; [exact Hguard|]. split.
  - intros Hpath. split; [now apply Hpre|].
    intros Hforce Hscript. rewrite (Hpre Hpath). now apply Hguard.
  - intros buf e w2 Hforce Hparse Hexec Hwritable Hrename.
    unfold RunE, cmd.nerdctlInstallRunE, kubernetes.bind, kubernetes.ret.
    cbv beta. rewrite Hstat, Hforce, Hparse, Hexec, Hwritable. simpl.
    now rewrite Hrename.
Qed.
End NerdctlProps.

Lemma nerdctl_install_keeps_existing_file_witness :
  cmd.nerdctlInstallRunE Trace.os_stat_found Trace.os_write Trace.os_rename
    Trace.parse_ok Trace.execute_ok "colima" "colima-default"
    Trace.log_line Trace.run_it Trace.guest_ok Trace.nerdctl_custom []
  = (Some (errorString "/opt/bin/nerdctl exists, use --force to replace"),
     [ Trace.Ran ["stat"; "/opt/bin/nerdctl"] ])
  /\ cmd.nerdctlInstallRunE Trace.os_stat_found Trace.os_write
       Trace.os_rename_fails Trace.parse_ok Trace.execute_ok "colima"
       "colima-default" Trace.log_line Trace.run_it Trace.guest_ok
       Trace.nerdctl_forced []
     = (Some (wrapError
                "error backing up existing file: permission denied"
                (errorString "permission denied")),
        [ Trace.Ran ["stat"; "/opt/bin/nerdctl"];
          Trace.Ran ["rename"; "/opt/bin/nerdctl";
                     "/opt/bin/nerdctl.moved"] ]).
Proof.
  split.
  - apply (proj1 (nerdctl_install_keeps_existing_file
                    Trace.os_stat_found Trace.os_read_ok Trace.os_write
                    Trace.os_remove Trace.os_rename Trace.join_slash
                    (fun p => p) Trace.parse_ok Trace.execute_ok "colima"
                    "colima-default" Trace.log_line Trace.run_it
                    Trace.guest_ok Trace.nerdctl_custom []
                    [ Trace.Ran ["stat"; "/opt/bin/nerdctl"] ] eq_refl));
      reflexivity.
  - apply (proj2 (proj2 (nerdctl_install_keeps_existing_file
                    Trace.os_stat_found Trace.os_read_ok Trace.os_write
                    Trace.os_remove Trace.os_rename_fails Trace.join_slash
                    (fun p => p) Trace.parse_ok Trace.execute_ok "colima"
                    "colima-default" Trace.log_line Trace.run_it
                    Trace.guest_ok Trace.nerdctl_forced []
                    [ Trace.Ran ["stat"; "/opt/bin/nerdctl"] ] eq_refl))
                 "colima nerdctl --profile default"
                 (errorString "permission denied"));
      reflexivity.
Defined.

(** ** The start command *)

Section StartProps.
Context {W DockerT DNST EnvT App : Type}.
Variable newApp : W -> App * W.
Variable app_Active : App -> W -> bool * W.
Variable app_Start :
  App -> cmd.Config DockerT DNST EnvT -> W -> option error * W.
Variable app_Stop : App -> bool -> W -> option error * W.
Variable Prompt : string -> W -> bool * W.
Variable Load : W -> (cmd.Config DockerT DNST EnvT * option error) * W.
Variable SaveFromFile : string -> W -> option error * W.
Variable config_File : W -> string * W.
Variable embedded_ReadString : string -> W -> (string * option error) * W.
Variable waitForUserEdit :
  string -> string -> W -> (string * option error) * W.
Variable os_ReadFile : string -> W -> (string * option error) * W.
Variable os_Remove : string -> W -> option error * W.
Variable Warnln : cmd.warnArg -> W -> W.
Variable Sleep : Z -> W -> W.

Let edit : string -> W -> option error * W :=
  cmd.editConfigFile SaveFromFile config_File embedded_ReadString
                     waitForUserEdit os_ReadFile os_Remove Warnln.
Let RunE : cmd.startArgs -> W -> option error * W :=
  cmd.startRunE newApp app_Active app_Start app_Stop Prompt Load
                SaveFromFile config_File embedded_ReadString waitForUserEdit
                os_ReadFile os_Remove Warnln Sleep.

(** X27.  [editConfigFile], once the editor has returned: with no file
    left by the editor it returns "empty file, startup aborted" and saves
    nothing; otherwise it returns what saving the file returns, and the
    temporary file is removed after the save, also when the save
    failed. *)
Theorem editConfigFile_temporary_file :
  forall editor w file w1 current w2 abort aerr w3 tmp w5,
    config_File w = (file, w1) ->
    os_ReadFile file w1 = ((current, None), w2) ->
    embedded_ReadString "defaults/abort.yaml" w2 = ((abort, aerr), w3) ->
    waitForUserEdit editor (abort +++ String newline current)
      (match aerr with
       | Some err =>
           Warnln (cmd.warnError
                     (cmd.Errorf_w "unable to read embedded file: " err)) w3
       | None => w3
       end) = ((tmp, None), w5) ->
    (tmp = "" ->
     edit editor w = (Some (errorString "empty file, startup aborted"), w5))
    /\ (tmp <> "" ->
        edit editor w
        = (fst (SaveFromFile tmp w5),
           snd (os_Remove tmp (snd (SaveFromFile tmp w5))))).
Proof.
  intros editor w file w1 current w2 abort aerr w3 tmp w5
         Hfile Hread Habort Hedit.
  unfold edit, cmd.editConfigFile, kubernetes.bind, kubernetes.ret.
  cbv beta. rewrite Hfile, Hread. cbn [fst snd]. rewrite Habort.
  cbn [fst snd]. split.
  - intros ->. destruct aerr; rewrite Hedit; reflexivity.
  - intros Hne.
    destruct aerr; rewrite Hedit; cbn [fst snd];
      (destruct (String.eqb_spec tmp ""); [contradiction|]);
      destruct (SaveFromFile tmp w5) as [saved w6]; cbn [fst snd];
      destruct (os_Remove tmp w6) as [removed w7]; reflexivity.
Qed.

(** X28.  When [colima start] leaves the machine alone.  Without
    [--edit], on an instance that is active, it warns "already running,
    ignoring" and returns nil: the application is not started.  With
    [--edit], once the file is edited and loaded and the instance is
    active: if the user declines the prompt it returns nil and neither
    stops nor starts; if stopping fails it returns "error stopping :..."
    and does not start; if stopping succeeds it waits five seconds and
    starts with the configuration just loaded. *)
Theorem start_leaves_running_instance : forall args w app w1 w2,
    newApp w = (app, w1) ->
    (cmd.Edit (cmd.Flags args) = false ->
     app_Active app w1 = (true, w2) ->
     RunE args w
     = (None, Warnln (cmd.warnString "already running, ignoring") w2))
    /\ (forall w3 loaded w4 w5 answer w6,
           cmd.Edit (cmd.Flags args) = true ->
           edit (cmd.Editor (cmd.Flags args)) w1 = (None, w3) ->
           Load w3 = ((loaded, None), w4) ->
           app_Active app w4 = (true, w5) ->
           Prompt "colima is currently running, restart to apply changes" w5
           = (answer, w6) ->
           (answer = false -> RunE args w = (None, w6))
           /\ (forall e w7,
                  answer = true ->
                  app_Stop app false w6 = (Some e, w7) ->
                  RunE args w
                  = (Some (wrapError ("error stopping :" +++ Error e) e),
                     w7))
           /\ (forall w7,
                  answer = true ->
                  app_Stop app false w6 = (None, w7) ->
                  RunE args w
                  = app_Start app loaded
                              (Sleep (kubernetes.Second * 5) w7))).
Proof.
  intros args w app w1 w2 Hnew.
  unfold RunE, cmd.startRunE, kubernetes.bind, kubernetes.ret.
  cbv beta zeta. rewrite Hnew. split.
  - intros Hedit Hactive. rewrite Hedit. cbn [negb]. cbv beta iota.
    now rewrite Hactive.
  - intros w3 loaded w4 w5 answer w6 Hedit Hedited Hload Hactive Hprompt.
    rewrite Hedit. cbn [negb]. cbv beta iota. fold edit.
    rewrite Hedited, Hload. cbn [fst snd]. rewrite Hactive, Hprompt.
    split; [|split].
    + now intros ->.
    + intros e w7 -> Hstop. cbn [negb]. now rewrite Hstop.
    + intros w7 -> Hstop. cbn [negb]. now rewrite Hstop.
Qed.

End StartProps.

Lemma editConfigFile_temporary_file_witness :
  cmd.editConfigFile Trace.save_fails Trace.config_file Trace.embedded_read
    (Trace.edit_to "/tmp/colima.yaml") Trace.os_read_ok Trace.os_remove
    Trace.warn "vim" []
  = (Some (errorString "invalid yaml"),
     [ Trace.Ran ["read"; "colima.yaml"]; Trace.Ran ["edit"];
       Trace.Ran ["save"; "/tmp/colima.yaml"];
       Trace.Ran ["remove"; "/tmp/colima.yaml"] ]).
Proof.
  apply (proj2 (editConfigFile_temporary_file
                  Trace.save_fails Trace.config_file Trace.embedded_read
                  (Trace.edit_to "/tmp/colima.yaml") Trace.os_read_ok
                  Trace.os_remove Trace.warn "vim" [] "colima.yaml" []
                  "cpu: 2" [ Trace.Ran ["read"; "colima.yaml"] ]
                  "# abort" None [ Trace.Ran ["read"; "colima.yaml"] ]
                  "/tmp/colima.yaml"
                  [ Trace.Ran ["read"; "colima.yaml"]; Trace.Ran ["edit"] ]
                  eq_refl eq_refl eq_refl eq_refl)).
  discriminate.
Defined.

Lemma start_leaves_running_instance_witness :
  cmd.startRunE Trace.new_app Trace.app_active Trace.app_start
    Trace.app_stop Trace.prompt_no Trace.load_stored Trace.save_fails
    Trace.config_file Trace.embedded_read (Trace.edit_to "")
    Trace.os_read_ok Trace.os_remove Trace.warn Trace.Sleep
    Trace.args_typed []
  = (None, [ Trace.Ran ["active"]; Trace.Logged "warn" ]).
Proof.
  apply (proj1 (start_leaves_running_instance
                  Trace.new_app Trace.app_active Trace.app_start
                  Trace.app_stop Trace.prompt_no Trace.load_stored
                  Trace.save_fails Trace.config_file Trace.embedded_read
                  (Trace.edit_to "") Trace.os_read_ok Trace.os_remove
                  Trace.warn Trace.Sleep Trace.args_typed [] tt []
                  [ Trace.Ran ["active"] ] eq_refl));
    reflexivity.
Defined.
